(** * pyreportjasper: the JasperPy report driver

    A shallow embedding of [pyreportjasper/jasperpy.py] (class [JasperPy]:
    [compile], [process], [process_json]) and the properties of its
    validation, configuration mapping and cleanup behaviour.

    The driver is a sequence of calls into a foreign (Java) reporting
    engine.  Python values are a small universe [pyval]; the Python
    exceptions are [pyexn]; the code runs in a state-and-exception monad
    [M] over a [World] made of the Java runtime's two stream handles and
    the chronological trace of every call that leaves the Python process
    (engine, HTTP, file system).  What the foreign side answers is a
    [Runtime]: every theorem quantifies over all of them.

    The driver raises one exception class only, [NameError]; the kinds of
    failure are told apart by the message:
    - ['No input file!']: a missing input file;
    - ['Invalid format!'], ['Invalid format output!'],
      ["'format_list' value is not list!"]: a rejected format list;
    - ['No data sources were reported']: a connection without data source;
    - ['Invalid method request!'], ["'url_method' value is not list!"]: a
      rejected HTTP method;
    - ['Error request status code: N']: an HTTP status other than 200;
    - ['Invalid json input!']: a data-source type that cannot be filled;
    - ['Error request: ' + str(e)]: the handler around the remote fetch;
    - ['Error: ' + str(e)]: the handlers of [compile], [process],
      [process_json] and of its fill block. *)

From Stdlib Require Import ZArith String Ascii List Bool Lia DecimalString.
From stdpp Require Import gmap strings list.

Set Warnings "-register-all".

Local Open Scope Z_scope.

(** ** Python values *)

Inductive pyval : Type :=
| VNone
| VBool (b : bool)
| VInt (z : Z)
| VFloat (bits : Z)          (* an IEEE-754 binary64, by its bit pattern *)
| VStr (s : string)
| VList (l : list pyval)
| VTuple (l : list pyval)
| VDict (d : list (string * pyval)).

(** [bool(v)]: what [if v:] and [if not v:] test. *)
Definition py_truthy (v : pyval) : bool :=
  match v with
  | VNone => false
  | VBool b => b
  | VInt z => negb (z =? 0)
  | VFloat bits => negb ((bits =? 0) || (bits =? 2 ^ 63))
  | VStr s => match s with EmptyString => false | _ => true end
  | VList l | VTuple l => match l with [] => false | _ => true end
  | VDict d => match d with [] => false | _ => true end
  end.

(** [type(v).__name__], as it appears in the interpreter's messages. *)
Definition py_type_name (v : pyval) : string :=
  match v with
  | VNone => "NoneType"
  | VBool _ => "bool"
  | VInt _ => "int"
  | VFloat _ => "float"
  | VStr _ => "str"
  | VList _ => "list"
  | VTuple _ => "tuple"
  | VDict _ => "dict"
  end.

(** [key in t] for a tuple [t] of strings: tuple membership compares with
    [==], and no value of another type equals a [str]. *)
Definition in_str_tuple (t : list string) (key : pyval) : bool :=
  match key with
  | VStr s => existsb (String.eqb s) t
  | _ => false
  end.

(** [v == 'lit'] for a string literal. *)
Definition py_eq_str (v : pyval) (lit : string) : bool :=
  match v with
  | VStr s => String.eqb s lit
  | _ => false
  end.

(** [needle in hay] for two strings: [needle] occurs in [hay] as a
    contiguous substring. *)
Fixpoint str_contains (hay needle : string) : bool :=
  String.prefix needle hay
  || match hay with
     | EmptyString => false
     | String _ hay' => str_contains hay' needle
     end.

(** [s.split(sep)] for a one-character separator. *)
Fixpoint py_split (sep : ascii) (s : string) : list string :=
  match s with
  | EmptyString => [EmptyString]
  | String c s' =>
      if Ascii.eqb c sep then EmptyString :: py_split sep s'
      else match py_split sep s' with
           | [] => [String c EmptyString]
           | x :: xs => String c x :: xs
           end
  end.

(** The one-character string holding a double quote. *)
Definition dquote : string := String (ascii_of_nat 34) EmptyString.

(** [str(n)] for an integer. *)
Definition py_str_int (z : Z) : string := NilZero.string_of_int (Z.to_int z).

(** ** Python exceptions *)

Inductive exn_class : Type :=
| NameError | UnboundLocalError | TypeError | ValueError | KeyError
| AttributeError | OSError
| RuntimeError          (* a Java exception, as the bridge surfaces it *)
| RequestException      (* whatever [requests] raises *)
| JSONDecodeError.

(** An exception object: its class and [str(e)].  Every class above derives
    from [Exception], so [except Exception] catches all of them. *)
Record pyexn : Type := Exn { exn_class_of : exn_class; py_str : string }.

Inductive result (A : Type) : Type :=
| Ok (a : A)
| Raise (e : pyexn).
Arguments Ok {A} a.
Arguments Raise {A} e.

(** ** The foreign side *)

Inductive DsType : Type :=
| none | postgres | mysql | oracle | generic | csv | xml | json | jsonql.

#[global] Instance DsType_eq_dec : EqDecision DsType.
Proof. solve_decision. Defined.

(** What is handed to a Java method. *)
Inductive jval : Type :=
| JPy (v : pyval)                 (* a Python value, converted by the bridge *)
| JFile (path : pyval)            (* [jvFile(path)] *)
| JDs (d : DsType)                (* a [DsType] constant *)
| JInt (z : Z)
| JBool (b : bool)
| JList (l : list pyval)          (* [jvArrays.asList(l)] *)
| JStrings (l : list string)      (* [jvArrays.asList] of rendered strings *)
| JLocale (v : pyval).            (* [jvLocale(v)] *)

(** [de.cenote.jasperstarter.Config] is a bean: a setter stores its argument
    under the property, a getter reads it back.  A fresh [jvConfig()] has no
    property set. *)
Abbreviation Config := (gmap string jval).

Definition jvConfig : Config := ∅.

(** The system streams of the Java runtime. *)
Inductive jstream : Type :=
| Original (id : nat)             (* a handle the runtime already had *)
| PrintStreamOver (buf : nat).    (* [jvPrintStream(jvByteArrayOutputStream())] *)

Record http_request : Type := Request {
  req_method : pyval;
  req_url : pyval;
  req_data : pyval;
  req_headers : pyval;
  req_params : pyval
}.

Record http_response : Type := Response {
  status_code : Z;
  resp_json : result pyval        (* [resp.json()] *)
}.

(** Every call that leaves the Python process, in the order it is made. *)
Inductive event : Type :=
| EClasspathAdd (a : jval)                     (* jvApplicationClasspath.add *)
| EReportNew (cfg : Config)                    (* jvReport(config, File(input)) *)
| ECompileToFile                               (* report.compileToFile() *)
| EFill                                        (* report.fill() *)
| EExport (method : string)                    (* report.exportPdf() ... *)
| EPromptForParams                             (* report.promptForParams(...) *)
| EGetJsonQLDataSource (cfg : Config)          (* jvDb().getJsonQLDataSource *)
| EParamPut (key : string) (v : jval)          (* parameters.put(KEY, value) *)
| EFillReport (file_out : string)              (* JasperFillManager.fillReport *)
| EExportReportToPdfFile (output_file : pyval) (* JasperExportManager *)
| EFlush (s : jstream)                         (* jvSystem.out.flush() *)
| ESetIn (s : jstream)                         (* jvSystem.setIn *)
| ESetOut (s : jstream)                        (* jvSystem.setOut *)
| EHttp (r : http_request)                     (* Request(...).prepare(); send *)
| EFileWrite (path content : string)           (* open(path,'w').write(content) *)
| EMkdtemp (dir : string)                      (* TemporaryDirectory().__enter__ *)
| ERmtree (dir : string).                      (* TemporaryDirectory().__exit__ *)

(** The calls that reach the reporting engine or its class path. *)
Definition engine_event (ev : event) : bool :=
  match ev with
  | EClasspathAdd _ | EReportNew _ | ECompileToFile | EFill | EExport _
  | EPromptForParams | EGetJsonQLDataSource _ | EParamPut _ _
  | EFillReport _ | EExportReportToPdfFile _ => true
  | _ => false
  end.

(** The fill and export calls of [process]. *)
Definition fill_or_export (ev : event) : bool :=
  match ev with
  | EFill | EExport _ | EFillReport _ | EExportReportToPdfFile _ => true
  | _ => false
  end.

Record World : Type := {
  sys_in : jstream;               (* java.lang.System.in *)
  sys_out : jstream;              (* java.lang.System.out *)
  trace : list event
}.

(** What the code cannot decide by itself: the answers of the engine, of the
    file system and of the network, each allowed to depend on everything
    that happened before, and the library functions whose text is not part
    of the repository. *)
Class Runtime : Type := {
  (** [Some msg]: the engine call raises, and [str(e)] is [msg]. *)
  engine_raises : list event -> event -> option string;
  (** [config.hasAskFilter()] *)
  hasAskFilter : Config -> bool;
  (** [int(v)] *)
  py_int : pyval -> result Z;
  os_path_dirname : string -> string;
  os_path_join : string -> string -> string;
  os_path_isfile : list event -> string -> bool;
  os_path_isdir : list event -> string -> bool;
  (** [glob.glob(os.path.join(resource, '*.jar'))] *)
  glob_jars : list event -> string -> list string;
  (** the directory [tempfile.TemporaryDirectory()] creates *)
  mkdtemp : list event -> string;
  (** [Request(...).prepare()] and [Session().send]: a response or an
      exception *)
  http_send : list event -> http_request -> result http_response;
  json_dumps : pyval -> string;
  (** writing a file: [Some e] when [open] or [write] raises [e] *)
  file_write : list event -> string -> string -> option pyexn;
  (** [str(e)] of the [UnboundLocalError] for a local variable *)
  unbound_local_msg : string -> string;
  (** [self.JDBC_FILE], set by [__init__] *)
  JDBC_FILE : string
}.

(** ** The state-and-exception monad *)

Definition M (A : Type) : Type := World -> result A * World.

Definition ret {A} (a : A) : M A := fun w => (Ok a, w).

Definition raise {A} (e : pyexn) : M A := fun w => (Raise e, w).

Definition bind {A B} (m : M A) (k : A -> M B) : M B :=
  fun w => match m w with
           | (Ok a, w') => k a w'
           | (Raise e, w') => (Raise e, w')
           end.

Notation "'let*' x ':=' m 'in' k" := (bind m (fun x => k))
  (at level 10, x pattern, m at level 100, k at level 200).
Notation "m ';;' k" := (bind m (fun _ => k))
  (at level 100, k at level 200, right associativity).

(** [try: m  except Exception as e: h e] *)
Definition try_except {A} (m : M A) (h : pyexn -> M A) : M A :=
  fun w => match m w with
           | (Ok a, w') => (Ok a, w')
           | (Raise e, w') => h e w'
           end.

(** [try: m  finally: f].  An exception of [f] replaces the outcome of [m]. *)
Definition try_finally {A} (m : M A) (f : M unit) : M A :=
  fun w => match m w with
           | (r, w') => match f w' with
                        | (Ok _, w'') => (r, w'')
                        | (Raise e, w'') => (Raise e, w'')
                        end
           end.

Definition lift {A} (r : result A) : M A := fun w => (r, w).

Definition log (ev : event) (w : World) : World :=
  {| sys_in := sys_in w; sys_out := sys_out w; trace := trace w ++ [ev] |}.

(** The [except Exception as e: raise NameError(prefix % str(e))] handlers. *)
Definition reraise {A} (prefix : string) (e : pyexn) : M A :=
  raise (Exn NameError (prefix +:+ py_str e)).

Section Driver.
Context `{RT : Runtime}.

(** A call into the engine: recorded, then it returns or raises.  The
    engine prints to the runtime's streams but does not replace them: the
    handles change only through the driver's own [setIn] and [setOut]. *)
Definition jcall (ev : event) : M unit :=
  fun w => match engine_raises (trace w) ev with
           | None => (Ok tt, log ev w)
           | Some msg => (Raise (Exn RuntimeError msg), log ev w)
           end.

(** [jvSystem.out.flush()], [jvSystem.setIn], [jvSystem.setOut]:
    [PrintStream.flush] and the two setters do not throw. *)
Definition flush_out : M unit :=
  fun w => (Ok tt, log (EFlush (sys_out w)) w).

Definition setIn (s : jstream) : M unit :=
  fun w => (Ok tt, log (ESetIn s)
                       {| sys_in := s; sys_out := sys_out w; trace := trace w |}).

Definition setOut (s : jstream) : M unit :=
  fun w => (Ok tt, log (ESetOut s)
                       {| sys_in := sys_in w; sys_out := s; trace := trace w |}).

Definition get_in : M jstream := fun w => (Ok (sys_in w), w).
Definition get_out : M jstream := fun w => (Ok (sys_out w), w).

(** ** Class constants *)

Definition _FORMATS : list string :=
  ["pdf"; "rtf"; "xls"; "xlsx"; "docx"; "odt"; "ods"; "pptx"; "csv"; "html";
   "xhtml"; "xml"; "jrprint"].

(** [_FORMATS_JSON = ('pdf')]: parentheses without a comma, so this is the
    string ['pdf'], not a one-element tuple. *)
Definition _FORMATS_JSON : string := "pdf".

Definition _FORMATS_METHODS_REQUEST : list string := ["GET"; "POST"; "PUT"].

(** ** Config setters *)

(** [config.setProp(v)] stores [v] under [Prop]. *)
Definition jset (prop : string) (v : jval) (c : Config) : Config :=
  <[prop := v]> c.

Definition setInput (v : pyval) : Config -> Config := jset "Input" (JPy v).
Definition setDbType (d : DsType) : Config -> Config := jset "DbType" (JDs d).
Definition getDbType (c : Config) : option jval := c !! "DbType".
Definition setDbPort (z : Z) : Config -> Config := jset "DbPort" (JInt z).
Definition setDataFile (path : pyval) : Config -> Config :=
  jset "DataFile" (JFile path).

(** [if 'key' in conn: config.setProp(wrap(conn['key']))] *)
Definition copy_field (conn : gmap string pyval) (key prop : string)
    (wrap : pyval -> jval) (c : Config) : Config :=
  match conn !! key with
  | Some v => jset prop (wrap v) c
  | None => c
  end.

(** [any(l)] for a list of booleans. *)
Definition py_any (l : list bool) : bool := existsb id l.

(** [[k + '=' + v for k, v in parameters.items()]] *)
Definition render_params (parameters : list (string * string)) : list string :=
  map (fun kv => fst kv +:+ "=" +:+ snd kv) parameters.

(** [if len(parameters) > 0: config.setParams(...)] *)
Definition set_params (parameters : list (string * string)) (c : Config)
    : Config :=
  match parameters with
  | [] => c
  | _ => jset "Params" (JStrings (render_params parameters)) c
  end.

(** [os.path.dirname(v)] *)
Definition py_dirname (v : pyval) : M string :=
  match v with
  | VStr s => ret (os_path_dirname s)
  | _ => raise (Exn TypeError
                  ("expected str, bytes or os.PathLike object, not "
                   +:+ py_type_name v))
  end.

Fixpoint for_each {A} (f : A -> M unit) (l : list A) : M unit :=
  match l with
  | [] => ret tt
  | x :: xs => f x ;; for_each f xs
  end.

Definition get_trace : M (list event) := fun w => (Ok (trace w), w).

(** ** compile *)

Definition compile (report : pyval) : M Z :=
  if negb (py_truthy report) then raise (Exn NameError "No input file!")
  else
    try_except
      (try_finally
         (let config := setInput report jvConfig in
          jcall (EReportNew config) ;;
          jcall ECompileToFile)
         flush_out ;;
       ret 0)
      (reraise "Error: ").

(** ** process *)

(** The two checks before the [try] of [process]; the elements of the list
    are what the body iterates over. *)
Definition process_validate (input_file format_list : pyval)
    : result (list pyval) :=
  if negb (py_truthy input_file) then Raise (Exn NameError "No input file!")
  else
    match format_list with
    | VList l =>
        if py_any (map (fun key => negb (in_str_tuple _FORMATS key)) l)
        then Raise (Exn NameError "Invalid format!")
        else Ok l
    | _ => Raise (Exn NameError "'format_list' value is not list!")
    end.

(** The [if 'driver' in db_connection: ... else: ...] chain. *)
Definition process_db_type (db_connection : gmap string pyval) (c : Config)
    : Config :=
  match db_connection !! "driver" with
  | Some d =>
      if py_eq_str d "postgres" then setDbType postgres c
      else if py_eq_str d "mysql" then setDbType mysql c
      else if py_eq_str d "oracle" then setDbType oracle c
      else if py_eq_str d "generic" then setDbType generic c
      else if py_eq_str d "csv" then setDbType csv c
      else if py_eq_str d "xml" then setDbType xml c
      else if py_eq_str d "json" then setDbType json c
      else if py_eq_str d "jsonql" then setDbType jsonql c
      else c
  | None => setDbType none c
  end.

(** The body of [if len(db_connection) > 0:]. *)
Definition process_copy_fields (conn : gmap string pyval) (c : Config)
    : M Config :=
  let c := copy_field conn "username" "DbUser" JPy c in
  let c := copy_field conn "password" "DbPasswd" JPy c in
  let c := copy_field conn "host" "DbHost" JPy c in
  let c := copy_field conn "database" "DbName" JPy c in
  let* c := match conn !! "port" with
            | Some v => let* z := lift (py_int v) in ret (setDbPort z c)
            | None => ret c
            end in
  let c := copy_field conn "jdbc_dir" "JdbcDir" JFile c in
  let c := copy_field conn "db_sid" "DbSid" JPy c in
  let c := copy_field conn "xml_xpath" "XmlXpath" JPy c in
  let c := copy_field conn "data_file" "DataFile" JFile c in
  let c := copy_field conn "json_query" "JsonQuery" JPy c in
  let c := copy_field conn "jsonql_query" "JsonQLQuery" JPy c in
  let c := copy_field conn "csv_first_row" "CsvFirstRow"
             (fun _ => JBool true) c in
  let c := copy_field conn "csv_columns" "CsvColumns" JPy c in
  let c := copy_field conn "csv_record_del" "CsvRecordDel" JPy c in
  let c := copy_field conn "csv_field_del" "CsvFieldDel" JPy c in
  let c := copy_field conn "csv_charset" "CsvCharset" JPy c in
  ret c.

(** Everything [process] puts on the configuration object. *)
Definition process_config (input_file output_file : pyval)
    (format_list : list pyval) (parameters : list (string * string))
    (db_connection : gmap string pyval) (locale : pyval) : M Config :=
  let config := setInput input_file jvConfig in
  let config := jset "Locale" (JPy locale) config in
  let* config :=
    if py_truthy output_file then ret (jset "Output" (JPy output_file) config)
    else let* d := py_dirname input_file in
         ret (jset "Output" (JPy (VStr d)) config) in
  let config := jset "OutputFormats" (JList format_list) config in
  let config := set_params parameters config in
  let config := process_db_type db_connection config in
  if 0 <? Z.of_nat (size db_connection)
  then process_copy_fields db_connection config
  else ret config.

(** The class path additions of [process]. *)
Definition process_classpath (resource : string) : M unit :=
  jcall (EClasspathAdd (JFile (VStr JDBC_FILE))) ;;
  let* tr := get_trace in
  if os_path_isfile tr resource
  then jcall (EClasspathAdd (JFile (VStr resource)))
  else if os_path_isdir tr resource
  then jcall (EClasspathAdd (JPy (VStr resource))) ;;
       let* tr' := get_trace in
       for_each (fun res_file => jcall (EClasspathAdd (JFile (VStr res_file))))
                (glob_jars tr' resource)
  else ret tt.

(** The [if format_out == 'pdf': report.exportPdf() elif ...] chain, as the
    table it spells out. *)
Definition EXPORT_METHODS : list (string * string) :=
  [("pdf", "exportPdf"); ("rtf", "exportRtf"); ("xls", "exportXls");
   ("xlsx", "exportXlsx"); ("docx", "exportDocx"); ("odt", "exportOdt");
   ("ods", "exportOds"); ("pptx", "exportPptx"); ("csv", "exportCsv");
   ("html", "exportHtml"); ("xhtml", "exportXhtml"); ("xml", "exportXml");
   ("jrprint", "exportJrprint")].

Definition export_method (format_out : string) : option string :=
  snd <$> List.find (fun p => String.eqb format_out (fst p)) EXPORT_METHODS.

Definition process_export (format_out : pyval) : M unit :=
  match format_out with
  | VStr s =>
      match export_method s with
      | Some m => jcall (EExport m)
      | None => raise (Exn NameError
                         ("Error output format " +:+ dquote +:+ s
                          +:+ dquote +:+ " not implemented!"))
      end
  | _ => raise (Exn TypeError
                  ("can only concatenate str (not " +:+ dquote
                   +:+ py_type_name format_out +:+ dquote +:+ ") to str"))
  end.

(** The [try:] block around fill and export. *)
Definition process_fill_export (tmpStdout : nat) (format_list : list pyval)
    : M unit :=
  setOut (PrintStreamOver tmpStdout) ;;
  jcall EFill ;;
  for_each process_export format_list.

(** Its [finally:] block. *)
Definition process_restore (savedStdin savedStdout : jstream) : M unit :=
  flush_out ;;
  setIn savedStdin ;;
  setOut savedStdout.

(** From the [Report] constructor to the end of the [finally]. *)
Definition process_run (config : Config) (format_list : list pyval)
    : M unit :=
  jcall (EReportNew config) ;;
  let* savedStdin := get_in in
  let* savedStdout := get_out in
  let* tr := get_trace in
  let tmpStdout := length tr in
  try_finally (process_fill_export tmpStdout format_list)
              (process_restore savedStdin savedStdout).

Definition process (input_file output_file format_list : pyval)
    (parameters : list (string * string))
    (db_connection : gmap string pyval) (locale : pyval) (resource : string)
    : M Z :=
  let* formats := lift (process_validate input_file format_list) in
  try_except
    (let* config := process_config input_file output_file formats parameters
                      db_connection locale in
     process_classpath resource ;;
     process_run config formats ;;
     ret 0)
    (reraise "Error: ").

(** ** process_json *)

(** [[key not in self._FORMATS_JSON for key in format_list]]: the right
    operand is a string, so each test is a substring test and needs a string
    on the left. *)
Definition not_in_str (hay : string) (key : pyval) : result bool :=
  match key with
  | VStr s => Ok (negb (str_contains hay s))
  | _ => Raise (Exn TypeError
                  ("'in <string>' requires string as left operand, not "
                   +:+ py_type_name key))
  end.

(** A list comprehension whose element expression may raise: the list is
    built in full before anything consumes it. *)
Fixpoint list_comp {A B} (f : A -> result B) (l : list A) : result (list B) :=
  match l with
  | [] => Ok []
  | x :: xs =>
      match f x with
      | Raise e => Raise e
      | Ok y => match list_comp f xs with
                | Raise e => Raise e
                | Ok ys => Ok (y :: ys)
                end
      end
  end.

Definition process_json_validate (input_file format_list : pyval)
    : result (list pyval) :=
  if negb (py_truthy input_file) then Raise (Exn NameError "No input file!")
  else
    match format_list with
    | VList l =>
        match list_comp (not_in_str _FORMATS_JSON) l with
        | Raise e => Raise e
        | Ok tests =>
            if py_any tests then Raise (Exn NameError "Invalid format output!")
            else Ok l
        end
    | _ => Raise (Exn NameError "'format_list' value is not list!")
    end.

(** [with tempfile.TemporaryDirectory() as tmp_dir: body] *)
Definition with_tmpdir {A} (body : string -> M A) : M A :=
  fun w =>
    let tmp_dir := mkdtemp (trace w) in
    try_finally (body tmp_dir)
                (fun w' => (Ok tt, log (ERmtree tmp_dir) w'))
                (log (EMkdtemp tmp_dir) w).

(** The output target: the configuration, [file_out] (bound only on the
    branch that derives the names) and [output_file]. *)
Definition process_json_output (input_file output_file : pyval)
    (config : Config) : M (Config * option string * pyval) :=
  if py_truthy output_file
  then ret (jset "Output" (JPy output_file) config, None, output_file)
  else
    match input_file with
    | VStr s =>
        let list_patch := py_split "/" s in
        let list_name_extesion := py_split "." (List.last list_patch EmptyString) in
        let name_file := List.hd EmptyString list_name_extesion in
        let file_out := os_path_join (os_path_dirname s) (name_file +:+ ".jasper") in
        let output_file := os_path_join (os_path_dirname s) (name_file +:+ ".pdf") in
        ret (jset "Output" (JPy (VStr (os_path_dirname s))) config,
             Some file_out, VStr output_file)
    | _ => raise (Exn AttributeError
                    ("'" +:+ py_type_name input_file
                     +:+ "' object has no attribute 'split'"))
    end.

(** The [if 'driver' in connection: ... else: ...] chain. *)
Definition process_json_db_type (connection : gmap string pyval) (c : Config)
    : Config :=
  match connection !! "driver" with
  | Some d =>
      if py_eq_str d "json" then setDbType json c
      else if py_eq_str d "jsonql" then setDbType jsonql c
      else c
  | None => setDbType none c
  end.

(** [connection['key']] *)
Definition py_getitem (connection : gmap string pyval) (key : string)
    : M pyval :=
  match connection !! key with
  | Some v => ret v
  | None => raise (Exn KeyError ("'" +:+ key +:+ "'"))
  end.

(** [connection['key'] if 'guard' in connection else {}] *)
Definition getitem_if (connection : gmap string pyval) (guard key : string)
    : M pyval :=
  match connection !! guard with
  | Some _ => py_getitem connection key
  | None => ret (VDict [])
  end.

(** The request itself: [Request(...).prepare()] and [Session().send]. *)
Definition send_request (r : http_request) : M http_response :=
  fun w => (http_send (trace w) r, log (EHttp r) w).

(** [with open(path, 'w') as file: file.write(content)] *)
Definition write_file (path content : string) : M unit :=
  fun w => match file_write (trace w) path content with
           | None => (Ok tt, log (EFileWrite path content) w)
           | Some e => (Raise e, log (EFileWrite path content) w)
           end.

(** The body of [if 'url_file' in connection:]. *)
Definition process_json_fetch (tmp_dir : string)
    (connection : gmap string pyval) (url_file : pyval) (config : Config)
    : M Config :=
  try_except
    (let* url_method := py_getitem connection "url_method" in
     match url_method with
     | VStr _ =>
         if negb (in_str_tuple _FORMATS_METHODS_REQUEST url_method)
         then raise (Exn NameError "Invalid method request!")
         else ret tt
     | _ => raise (Exn NameError "'url_method' value is not list!")
     end ;;
     let* PARAMS := getitem_if connection "url_params" "url_params" in
     let* DATA := getitem_if connection "url_data_post" "url_data" in
     let* HEADER := getitem_if connection "url_header" "url_header" in
     let* resp :=
       match connection !! "url_method" with
       | Some m => send_request (Request m url_file DATA HEADER PARAMS)
       | None => raise (Exn UnboundLocalError (unbound_local_msg "resp"))
       end in
     if status_code resp =? 200
     then let* data := lift (resp_json resp) in
          let file_json := os_path_join tmp_dir "data_report.json" in
          write_file file_json (json_dumps data) ;;
          ret (setDataFile (VStr file_json) config)
     else raise (Exn NameError
                   ("Error request status code: "
                    +:+ py_str_int (status_code resp))))
    (reraise "Error request: ").

(** The body of [if len(connection) > 0:]. *)
Definition process_json_sources (tmp_dir : string)
    (connection : gmap string pyval) (config : Config) : M Config :=
  match connection !! "data_file", connection !! "url_file" with
  | None, None => raise (Exn NameError "No data sources were reported")
  | data_file, url_file =>
      let config := match data_file with
                    | Some v => setDataFile v config
                    | None => config
                    end in
      let* config := match url_file with
                     | Some u => process_json_fetch tmp_dir connection u config
                     | None => ret config
                     end in
      let config := copy_field connection "json_query" "JsonQuery" JPy config in
      let config := copy_field connection "jsonql_query" "JsonQLQuery" JPy config in
      ret config
  end.

Definition process_json_classpath (resource : string) : M unit :=
  let* tr := get_trace in
  if os_path_isfile tr resource
  then jcall (EClasspathAdd (JPy (VStr (os_path_dirname resource))))
  else if os_path_isdir tr resource
  then jcall (EClasspathAdd (JPy (VStr resource)))
  else ret tt.

(** [if 'key' in connection: parameters.put(KEY, jvLocale(connection['key']))] *)
Definition put_if (connection : gmap string pyval) (key KEY : string)
    : M unit :=
  match connection !! key with
  | Some v => jcall (EParamPut KEY (JLocale v))
  | None => ret tt
  end.

Definition is_jsonql (t : option jval) : bool :=
  match t with
  | Some (JDs jsonql) => true
  | _ => false
  end.

(** The last [try:] block: fill from the compiled report and export. *)
Definition process_json_fill (connection : gmap string pyval)
    (config : Config) (file_out : option string) (output_file : pyval)
    : M unit :=
  try_except
    (if is_jsonql (getDbType config)
     then
       jcall (EGetJsonQLDataSource config) ;;
       put_if connection "json_locale" "JSON_LOCALE" ;;
       put_if connection "json_date_pattern" "JSON_DATE_PATTERN" ;;
       put_if connection "json_number_pattern" "JSON_NUMBER_PATTERN" ;;
       put_if connection "json_time_zone" "JSON_TIME_ZONE" ;;
       let* file_out :=
         match file_out with
         | Some f => ret f
         | None => raise (Exn UnboundLocalError (unbound_local_msg "file_out"))
         end in
       jcall (EFillReport file_out) ;;
       jcall (EExportReportToPdfFile output_file)
     else raise (Exn NameError "Invalid json input!"))
    (reraise "Error: ").

(** The part of the outer [try:] that fills the configuration object, the
    data source included. *)
Definition process_json_config (tmp_dir : string)
    (input_file output_file : pyval) (format_list : list pyval)
    (parameters : list (string * string)) (connection : gmap string pyval)
    (locale : pyval) : M (Config * option string * pyval) :=
  let config := setInput input_file jvConfig in
  let config := if py_truthy locale then jset "Locale" (JPy locale) config
                else config in
  let* (config, file_out, output_file) :=
    process_json_output input_file output_file config in
  let config := jset "OutputFormats" (JList format_list) config in
  let config := set_params parameters config in
  let config := process_json_db_type connection config in
  let* config :=
    if 0 <? Z.of_nat (size connection)
    then process_json_sources tmp_dir connection config
    else ret config in
  ret (config, file_out, output_file).

(** The part that follows it: the class path, the [Report] object, the
    compilation and the prompt for parameters. *)
Definition process_json_start (input_file : pyval) (resource : string)
    (config : Config) : M unit :=
  process_json_classpath resource ;;
  jcall (EReportNew config) ;;
  compile input_file ;;
  if hasAskFilter config then jcall EPromptForParams else ret tt.

(** Everything of the outer [try:] that comes before the fill block. *)
Definition process_json_prepare (tmp_dir : string)
    (input_file output_file : pyval) (format_list : list pyval)
    (parameters : list (string * string)) (connection : gmap string pyval)
    (locale : pyval) (resource : string)
    : M (Config * option string * pyval) :=
  let* prepared := process_json_config tmp_dir input_file output_file
                     format_list parameters connection locale in
  process_json_start input_file resource prepared.1.1 ;;
  ret prepared.

Definition process_json (input_file output_file format_list : pyval)
    (parameters : list (string * string)) (connection : gmap string pyval)
    (locale : pyval) (resource : string) : M Z :=
  with_tmpdir (fun tmp_dir =>
    let* formats := lift (process_json_validate input_file format_list) in
    try_except
      (let* (config, file_out, output_file) :=
         process_json_prepare tmp_dir input_file output_file formats
           parameters connection locale resource in
       process_json_fill connection config file_out output_file ;;
       ret 0)
      (reraise "Error: ")).

End Driver.

(** ** A concrete runtime

    POSIX path functions, an [int] and a [json.dumps] that cover the values
    the examples below use, an engine that fails exactly where [fails] says
    and an HTTP endpoint that always gives [answer]. *)

Definition is_slash (c : ascii) : bool := Ascii.eqb c "/".

Definition str_empty (s : string) : bool :=
  match s with EmptyString => true | _ => false end.

(** [p[:p.rfind('/') + 1]] *)
Fixpoint upto_last_slash (p : string) : string :=
  match p with
  | EmptyString => EmptyString
  | String c p' =>
      let r := upto_last_slash p' in
      if is_slash c || negb (str_empty r) then String c r else EmptyString
  end.

(** [s.rstrip('/')] *)
Fixpoint rstrip_slash (s : string) : string :=
  match s with
  | EmptyString => EmptyString
  | String c s' =>
      let r := rstrip_slash s' in
      if is_slash c && str_empty r then EmptyString else String c r
  end.

Definition posix_dirname (p : string) : string :=
  let head := upto_last_slash p in
  if str_empty (rstrip_slash head) then head else rstrip_slash head.

Fixpoint ends_with_slash (s : string) : bool :=
  match s with
  | EmptyString => false
  | String c EmptyString => is_slash c
  | String _ s' => ends_with_slash s'
  end.

Definition posix_join (a b : string) : string :=
  match b with
  | String c _ =>
      if is_slash c then b
      else if str_empty a || ends_with_slash a then a +:+ b
      else a +:+ "/" +:+ b
  | EmptyString =>
      if str_empty a || ends_with_slash a then a else a +:+ "/"
  end.

Definition sample_int (v : pyval) : result Z :=
  match v with
  | VInt z => Ok z
  | VBool b => Ok (Z.b2z b)
  | VStr s =>
      match NilEmpty.int_of_string s with
      | Some d => Ok (Z.of_int d)
      | None => Raise (Exn ValueError
                         ("invalid literal for int() with base 10: '"
                          +:+ s +:+ "'"))
      end
  | _ => Raise (Exn TypeError
                  ("int() argument must be a string, a bytes-like object "
                   +:+ "or a real number, not '" +:+ py_type_name v +:+ "'"))
  end.

Definition join_with (sep : string) (l : list string) : string :=
  match l with
  | [] => EmptyString
  | x :: xs => fold_left (fun acc y => acc +:+ sep +:+ y) xs x
  end.

Fixpoint sample_dumps (v : pyval) : string :=
  match v with
  | VNone => "null"
  | VBool true => "true"
  | VBool false => "false"
  | VInt z => py_str_int z
  | VFloat _ => "NaN"
  | VStr s => dquote +:+ s +:+ dquote
  | VList l | VTuple l => "[" +:+ join_with ", " (map sample_dumps l) +:+ "]"
  | VDict d =>
      "{" +:+ join_with ", "
                (map (fun kv => dquote +:+ fst kv +:+ dquote +:+ ": "
                                +:+ sample_dumps (snd kv)) d)
      +:+ "}"
  end.

Definition sample_runtime (fails : event -> option string)
    (answer : result http_response) : Runtime :=
  {| engine_raises := fun _ ev => fails ev;
     hasAskFilter := fun _ => false;
     py_int := sample_int;
     os_path_dirname := posix_dirname;
     os_path_join := posix_join;
     os_path_isfile := fun _ _ => false;
     os_path_isdir := fun _ _ => false;
     glob_jars := fun _ _ => [];
     mkdtemp := fun _ => "/tmp/tmpk3v9x2aa";
     http_send := fun _ _ => answer;
     json_dumps := sample_dumps;
     file_write := fun _ _ _ => None;
     unbound_local_msg :=
       fun x => "local variable '" +:+ x +:+ "' referenced before assignment";
     JDBC_FILE := "/srv/pyreportjasper/jasperstarter/jdbc/postgresql.jar" |}.

(** The engine never fails and the endpoint answers 200 with [{}]. *)
Definition quiet : Runtime :=
  sample_runtime (fun _ => None) (Ok (Response 200 (Ok (VDict [])))).

(** The same engine with an endpoint that answers 404. *)
Definition not_found : Runtime :=
  sample_runtime (fun _ => None) (Ok (Response 404 (Ok VNone))).

(** A world before any call. *)
Definition w0 : World :=
  {| sys_in := Original 0; sys_out := Original 1; trace := [] |}.

Definition conn (l : list (string * pyval)) : gmap string pyval :=
  list_to_map l.

(** The events that touch the runtime's stream handles. *)
Definition stream_event (ev : event) : bool :=
  match ev with
  | EFlush _ | ESetIn _ | ESetOut _ => true
  | _ => false
  end.

(** [logs P m]: whatever [m] does, it leaves both stream handles as they
    were and only appends events that satisfy [P] to the trace. *)
Definition logs {A} (P : event -> Prop) (m : M A) : Prop :=
  forall w,
    sys_in (m w).2 = sys_in w /\ sys_out (m w).2 = sys_out w /\
    exists evs, trace (m w).2 = trace w ++ evs /\ Forall P evs.

(** Events that neither fill or export nor touch the stream handles. *)
Definition quiet_event (ev : event) : Prop :=
  fill_or_export ev = false /\ stream_event ev = false.


(** A value of the format enum of [process]: one of the strings of
    [_FORMATS]. *)
Definition in_FORMATS (key : pyval) : Prop :=
  exists s, key = VStr s /\ In s _FORMATS.

(** When the output target of [process] can be computed: an explicit
    [output_file], or an [input_file] whose directory can be taken. *)
Definition output_known (input_file output_file : pyval) : Prop :=
  py_truthy output_file = true \/ exists s, input_file = VStr s.

(** Events other than the fill and export calls. *)
Definition not_fill (ev : event) : Prop := fill_or_export ev = false.

Definition is_str (key : pyval) : Prop := exists s, key = VStr s.

(** A string that does not occur inside the string [_FORMATS_JSON]. *)
Definition outside_FORMATS_JSON (key : pyval) : Prop :=
  exists s, key = VStr s /\ str_contains _FORMATS_JSON s = false.

(** How the request body of the remote fetch is resolved from the
    connection: empty without ['url_data_post'], else the value under
    ['url_data']. *)
Definition body_resolves (connection : gmap string pyval) (DATA : pyval)
    : Prop :=
  (connection !! "url_data_post" = None /\ DATA = VDict [])
  \/ (is_Some (connection !! "url_data_post")
      /\ connection !! "url_data" = Some DATA).

(** [extends m w pre]: run from [w], [m] first logs the events [pre]. *)
Definition extends {A} (m : M A) (w : World) (pre : list event) : Prop :=
  exists rest, trace (m w).2 = trace w ++ pre ++ rest.

(** ** The constructor

    [JasperPy.__init__] runs before any of the calls above: it looks for the
    bundled engine next to the module, starts the Java runtime and binds the
    Java classes.  Its own calls are [init_event]s; what the platform
    answers is an [InitEnv]. *)

Module Init.

Inductive init_event : Type :=
| IInitJvm (jvm_maxmem : pyval) (jvm_classpath : list pyval)
                                   (* jpyutil.init_jvm(jvm_maxmem=, jvm_classpath=) *)
| IGetType (name : string).        (* jpy.get_type(name) *)

Class InitEnv : Type := {
  (** [os.name] *)
  os_name : string;
  (** [os.path.abspath(os.path.dirname(__file__))] *)
  script_dir : string;
  (** [os.path.join(a, *p)] *)
  join : string -> list string -> string;
  isdir : string -> bool;
  exists_ : string -> bool;
  (** [Some e]: the call raises [e] *)
  init_raises : list init_event -> init_event -> option pyexn
}.

(** The attributes [__init__] sets before the classes are bound. *)
Record JasperPy : Type := {
  WINDOWS : bool;
  SCRIPT_DIR : string;
  LIBS : string;
  JDBC_DIR : string;
  JDBC_FILE : string;
  CLASSPATH : string
}.

(** The classes bound by [jpy.get_type], in the order of the source. *)
Definition TYPES : list string :=
  ["java.util.Arrays"; "java.io.File"; "de.cenote.jasperstarter.Report";
   "de.cenote.jasperstarter.Config"; "de.cenote.jasperstarter.types.DsType";
   "java.lang.System"; "java.io.PrintStream"; "java.io.ByteArrayInputStream";
   "java.io.ByteArrayOutputStream";
   "de.cenote.tools.classpath.ApplicationClasspath";
   "java.util.HashMap"; "java.util.Locale";
   "net.sf.jasperreports.engine.JasperFillManager";
   "net.sf.jasperreports.engine.JRParameter";
   "net.sf.jasperreports.engine.JREmptyDataSource";
   "de.cenote.jasperstarter.Db";
   "net.sf.jasperreports.engine.query.JsonQueryExecuterFactory";
   "net.sf.jasperreports.engine.JasperExportManager"].

Section Constructor.
Context `{ENV : InitEnv}.

(** A call of the constructor: recorded, then it returns or raises. *)
Definition icall (ev : init_event) (tr : list init_event)
    : option pyexn * list init_event :=
  (init_raises tr ev, tr ++ [ev]).

(** The [self.jv... = jpy.get_type(...)] lines, one after the other. *)
Fixpoint get_types (names : list string) (tr : list init_event)
    : option pyexn * list init_event :=
  match names with
  | [] => (None, tr)
  | name :: rest =>
      match icall (IGetType name) tr with
      | (Some e, tr') => (Some e, tr')
      | (None, tr') => get_types rest tr'
      end
  end.

Definition __init__ (jvm_maxmem jvm_classpath : pyval)
    : result JasperPy * list init_event :=
  let WINDOWS := String.eqb os_name "nt" in
  let SCRIPT_DIR := script_dir in
  let LIBS := join SCRIPT_DIR ["jasperstarter"; "lib"] in
  let JDBC_DIR := join SCRIPT_DIR ["jasperstarter"; "jdbc"] in
  let JDBC_FILE := join SCRIPT_DIR ["jasperstarter"; "jdbc"; "postgresql.jar"] in
  if negb (isdir LIBS)
  then (Raise (Exn NameError ("Unable to find lib in " +:+ LIBS)), [])
  else
    let CLASSPATH := join LIBS ["jasperstarter.jar"] in
    if negb (exists_ CLASSPATH)
    then (Raise (Exn NameError ("Unable to find jasperstarter in " +:+ LIBS)),
          [])
    else
      let classpath := match jvm_classpath with
                       | VNone => [VStr CLASSPATH]
                       | _ => [jvm_classpath]
                       end in
      match icall (IInitJvm jvm_maxmem classpath) [] with
      | (Some e, tr) => (Raise e, tr)
      | (None, tr) =>
          match get_types TYPES tr with
          | (Some e, tr') => (Raise e, tr')
          | (None, tr') =>
              (Ok {| WINDOWS := WINDOWS; SCRIPT_DIR := SCRIPT_DIR;
                     LIBS := LIBS; JDBC_DIR := JDBC_DIR;
                     JDBC_FILE := JDBC_FILE; CLASSPATH := CLASSPATH |}, tr')
          end
      end.

(** [all_return tr l]: made one after the other from the trace [tr], every
    call of [l] returns. *)
Definition all_return (tr l : list init_event) : Prop :=
  forall pre ev,
    (pre ++ [ev]) `prefix_of` l -> init_raises (tr ++ pre) ev = None.

End Constructor.

(** A platform for the examples: POSIX paths under [/srv/pyreportjasper],
    the files in [present], calls that never raise. *)
Definition sample_env (present : list string) : InitEnv :=
  {| os_name := "posix";
     script_dir := "/srv/pyreportjasper";
     join := fun a p => fold_left posix_join p a;
     isdir := fun d => existsb (String.eqb d) present;
     exists_ := fun f => existsb (String.eqb f) present;
     init_raises := fun _ _ => None |}.

(** The same platform with a runtime in which the class [missing] cannot
    be found. *)
Definition sample_env_without (present : list string) (missing : string)
    : InitEnv :=
  {| os_name := "posix";
     script_dir := "/srv/pyreportjasper";
     join := fun a p => fold_left posix_join p a;
     isdir := fun d => existsb (String.eqb d) present;
     exists_ := fun f => existsb (String.eqb f) present;
     init_raises := fun _ ev =>
       match ev with
       | IGetType name =>
           if String.eqb name missing
           then Some (Exn ValueError
                        ("Java class '" +:+ name +:+ "' not found"))
           else None
       | _ => None
       end |}.

End Init.

(** ** More vocabulary for the properties *)

(** [appends P m]: whatever [m] does, the events it adds to the trace all
    satisfy [P]. *)
Definition appends {A} (P : event -> Prop) (m : M A) : Prop :=
  forall w, exists evs, trace (m w).2 = trace w ++ evs /\ Forall P evs.

(** The export call that the chain of [process] makes for a format. *)
Definition exports (format_out : pyval) (method : string) : Prop :=
  exists s, format_out = VStr s /\ export_method s = Some method.

(** The driver tags [process] recognises, with their constants. *)
Definition DRIVERS : list (string * DsType) :=
  [("postgres", postgres); ("mysql", mysql); ("oracle", oracle);
   ("generic", generic); ("csv", csv); ("xml", xml); ("json", json);
   ("jsonql", jsonql)].

(** The connection keys [process] copies as they are, with the property
    each one lands on and the Java value made of it. *)
Definition COPIED_FIELDS : list (string * string * (pyval -> jval)) :=
  [("username", "DbUser", JPy); ("password", "DbPasswd", JPy);
   ("host", "DbHost", JPy); ("database", "DbName", JPy);
   ("jdbc_dir", "JdbcDir", JFile); ("db_sid", "DbSid", JPy);
   ("xml_xpath", "XmlXpath", JPy); ("data_file", "DataFile", JFile);
   ("json_query", "JsonQuery", JPy); ("jsonql_query", "JsonQLQuery", JPy);
   ("csv_first_row", "CsvFirstRow", fun _ => JBool true);
   ("csv_columns", "CsvColumns", JPy);
   ("csv_record_del", "CsvRecordDel", JPy);
   ("csv_field_del", "CsvFieldDel", JPy);
   ("csv_charset", "CsvCharset", JPy)].

(** Every connection key [process] looks at. *)
Definition PROCESS_KEYS : list string :=
  "driver" :: "port" :: map (fun f => f.1.1) COPIED_FIELDS.

(** Events of the driver's own process: the engine and the streams. *)
Definition in_process_event (ev : event) : Prop :=
  engine_event ev = true \/ stream_event ev = true.

(** The additions to the class path. *)
Definition classpath_event (ev : event) : Prop :=
  exists a, ev = EClasspathAdd a.


(** The outer [try:] block of [process_json], by itself. *)
Definition process_json_body `{RT : Runtime} (tmp_dir : string)
    (input_file output_file : pyval) (formats : list pyval)
    (parameters : list (string * string)) (connection : gmap string pyval)
    (locale : pyval) (resource : string) : M Z :=
  let* (config, file_out, output_file) :=
    process_json_prepare tmp_dir input_file output_file formats
      parameters connection locale resource in
  process_json_fill connection config file_out output_file ;;
  ret 0.



(** Events that reach the network or write a file. *)
Definition remote_event (ev : event) : bool :=
  match ev with
  | EHttp _ | EFileWrite _ _ => true
  | _ => false
  end.

Definition tmpdir_event (ev : event) : bool :=
  match ev with
  | EMkdtemp _ | ERmtree _ => true
  | _ => false
  end.

(** The copies [process] makes before and after the port, as the source
    orders them. *)
Definition copy_before_port (conn : gmap string pyval) (c : Config) : Config :=
  copy_field conn "database" "DbName" JPy
    (copy_field conn "host" "DbHost" JPy
       (copy_field conn "password" "DbPasswd" JPy
          (copy_field conn "username" "DbUser" JPy c))).

Definition copy_after_port (conn : gmap string pyval) (c : Config) : Config :=
  copy_field conn "csv_charset" "CsvCharset" JPy
    (copy_field conn "csv_field_del" "CsvFieldDel" JPy
       (copy_field conn "csv_record_del" "CsvRecordDel" JPy
          (copy_field conn "csv_columns" "CsvColumns" JPy
             (copy_field conn "csv_first_row" "CsvFirstRow"
                (fun _ => JBool true)
                (copy_field conn "jsonql_query" "JsonQLQuery" JPy
                   (copy_field conn "json_query" "JsonQuery" JPy
                      (copy_field conn "data_file" "DataFile" JFile
                         (copy_field conn "xml_xpath" "XmlXpath" JPy
                            (copy_field conn "db_sid" "DbSid" JPy
                               (copy_field conn "jdbc_dir" "JdbcDir" JFile
                                  c)))))))))).

(** The configuration of [process] before the connection is looked at. *)
Definition base_config (input_file out : pyval) (formats : list pyval)
    (parameters : list (string * string)) (locale : pyval) : Config :=
  set_params parameters
    (jset "OutputFormats" (JList formats)
       (jset "Output" (JPy out)
          (jset "Locale" (JPy locale) (setInput input_file jvConfig)))).

Definition is_http (ev : event) : bool :=
  match ev with
  | EHttp _ => true
  | _ => false
  end.

(** The names [process_json] derives from an input path [s]: the part of
    its last component before the first dot. *)
Definition derived_name (s : string) : string :=
  List.hd EmptyString
    (py_split "." (List.last (py_split "/" s) EmptyString)).

(** [c] occurs in [s]. *)
Fixpoint has_char (c : ascii) (s : string) : bool :=
  match s with
  | EmptyString => false
  | String c' s' => Ascii.eqb c' c || has_char c s'
  end.

(** * Properties *)

Lemma bind_eq {A B} (m : M A) (k : A -> M B) (w : World) :
  bind m k w = match m w with
               | (Ok a, w') => k a w'
               | (Raise e, w') => (Raise e, w')
               end.
Proof. reflexivity. Qed.

Lemma try_except_eq {A} (m : M A) (h : pyexn -> M A) (w : World) :
  try_except m h w = match m w with
                     | (Ok a, w') => (Ok a, w')
                     | (Raise e, w') => h e w'
                     end.
Proof. reflexivity. Qed.

Lemma try_except_world {A} (m : M A) (prefix : string) (w : World) :
  (try_except m (reraise prefix) w).2 = (m w).2.
Proof. rewrite try_except_eq. by destruct (m w) as [[?|?] ?]. Qed.

Lemma bind_ret_world {A B} (m : M A) (b : B) (w : World) :
  (bind m (fun _ => ret b) w).2 = (m w).2.
Proof. rewrite bind_eq. by destruct (m w) as [[?|?] ?]. Qed.

Section Combinators.
Context `{RT : Runtime}.
Context {A B : Type} (P : event -> Prop).

Lemma logs_ret (a : A) : logs P (ret a).
Proof.
  intros w; simpl. repeat split; trivial.
  exists []. by rewrite app_nil_r.
Qed.

Lemma logs_raise (e : pyexn) : logs P (raise (A:=A) e).
Proof.
  intros w; simpl. repeat split; trivial.
  exists []. by rewrite app_nil_r.
Qed.

Lemma logs_lift (r : result A) : logs P (lift r).
Proof.
  intros w; simpl. repeat split; trivial.
  exists []. by rewrite app_nil_r.
Qed.

Lemma logs_bind (m : M A) (k : A -> M B) :
  logs P m -> (forall a, logs P (k a)) -> logs P (bind m k).
Proof.
  intros Hm Hk w. unfold bind.
  destruct (Hm w) as (Hi & Ho & evs & Ht & Hp).
  destruct (m w) as [[a|e] w1]; simpl in *.
  - destruct (Hk a w1) as (Hi' & Ho' & evs' & Ht' & Hp').
    rewrite Hi', Ho', Ht', Hi, Ho, Ht. repeat split; trivial.
    exists (evs ++ evs'). rewrite app_assoc. split; trivial.
    by apply Forall_app.
  - repeat split; trivial. by exists evs.
Qed.

Lemma logs_try_except (m : M A) (h : pyexn -> M A) :
  logs P m -> (forall e, logs P (h e)) -> logs P (try_except m h).
Proof.
  intros Hm Hh w. unfold try_except.
  destruct (Hm w) as (Hi & Ho & evs & Ht & Hp).
  destruct (m w) as [[a|e] w1]; simpl in *.
  - repeat split; trivial. by exists evs.
  - destruct (Hh e w1) as (Hi' & Ho' & evs' & Ht' & Hp').
    rewrite Hi', Ho', Ht', Hi, Ho, Ht. repeat split; trivial.
    exists (evs ++ evs'). rewrite app_assoc. split; trivial.
    by apply Forall_app.
Qed.

Lemma logs_try_finally (m : M A) (f : M unit) :
  logs P m -> logs P f -> logs P (try_finally m f).
Proof.
  intros Hm Hf w. unfold try_finally.
  destruct (Hm w) as (Hi & Ho & evs & Ht & Hp).
  destruct (m w) as [r w1]; simpl in *.
  destruct (Hf w1) as (Hi' & Ho' & evs' & Ht' & Hp').
  destruct (f w1) as [[u|e] w2]; simpl in *;
    rewrite Hi', Ho', Ht', Hi, Ho, Ht; repeat split; trivial;
    exists (evs ++ evs'); rewrite app_assoc; split; trivial;
    by apply Forall_app.
Qed.

Lemma logs_jcall (ev : event) : P ev -> logs P (jcall ev).
Proof.
  intros Hev w. unfold jcall.
  destruct (engine_raises (trace w) ev); simpl; repeat split; trivial;
    exists [ev]; split; trivial; by constructor.
Qed.

Lemma logs_for_each (f : A -> M unit) (l : list A) :
  (forall x, logs P (f x)) -> logs P (for_each f l).
Proof.
  intros Hf. induction l as [|x xs IH]; simpl.
  - intros w; simpl. repeat split; trivial.
    exists []. by rewrite app_nil_r.
  - intros w. unfold bind.
    destruct (Hf x w) as (Hi & Ho & evs & Ht & Hp).
    destruct (f x w) as [[u|e] w1]; simpl in *.
    + destruct (IH w1) as (Hi' & Ho' & evs' & Ht' & Hp').
      rewrite Hi', Ho', Ht', Hi, Ho, Ht. repeat split; trivial.
      exists (evs ++ evs'). rewrite app_assoc. split; trivial.
      by apply Forall_app.
    + repeat split; trivial. by exists evs.
Qed.

Lemma logs_get_trace : logs P get_trace.
Proof.
  intros w; simpl. repeat split; trivial.
  exists []. by rewrite app_nil_r.
Qed.

End Combinators.

Lemma logs_weaken `{RT : Runtime} {A} (P Q : event -> Prop) (m : M A) :
  (forall ev, P ev -> Q ev) -> logs P m -> logs Q m.
Proof.
  intros HPQ Hm w. destruct (Hm w) as (Hi & Ho & evs & Ht & Hp).
  repeat split; trivial. exists evs. split; trivial.
  eapply Forall_impl; eauto.
Qed.

Lemma logs_reraise `{RT : Runtime} {A} (P : event -> Prop) prefix e :
  logs P (reraise (A:=A) prefix e).
Proof. apply logs_raise. Qed.

(** [logs] goals are settled by following the shape of the code. *)
Ltac logs_step :=
  first
    [ apply logs_bind; [|intros ?]
    | apply logs_try_except; [|intros ?]
    | apply logs_try_finally
    | apply logs_ret | apply logs_raise | apply logs_reraise
    | apply logs_lift | apply logs_get_trace
    | apply logs_for_each; intros ?
    | apply logs_jcall
    | match goal with
      | |- logs _ (if ?b then _ else _) => destruct b
      | |- logs _ (match ?x with _ => _ end) => destruct x
      end ].



Lemma extends_bind `{RT : Runtime} {A B} (P : event -> Prop) (m : M A)
    (k : A -> M B) (w : World) (pre : list event) :
  extends m w pre -> (forall a, logs P (k a)) -> extends (bind m k) w pre.
Proof.
  intros [rest Hm] Hk. unfold extends. rewrite bind_eq.
  destruct (m w) as [[a|e] w1]; simpl in *; [|eauto].
  destruct (Hk a w1) as (_ & _ & evs & Ht & _).
  exists (rest ++ evs). rewrite Ht, Hm. by rewrite <- !app_assoc.
Qed.

Lemma extends_try_except `{RT : Runtime} {A} (m : M A) (prefix : string)
    (w : World) (pre : list event) :
  extends m w pre -> extends (try_except m (reraise prefix)) w pre.
Proof. unfold extends. by rewrite try_except_world. Qed.

Lemma extends_jcall `{RT : Runtime} (ev : event) (w : World) :
  extends (jcall ev) w [ev].
Proof.
  exists []. unfold jcall.
  by destruct (engine_raises (trace w) ev).
Qed.

Create HintDb logs.
#[export] Hint Resolve logs_ret logs_raise logs_lift logs_get_trace : logs.
#[export] Hint Resolve logs_bind logs_try_except logs_try_finally
  logs_for_each logs_jcall : logs.

Section Compile.
Context `{RT : Runtime}.

(** C9.  [compile] with a falsy template path raises
    [NameError('No input file!')] and makes no call at all.  With a truthy
    path the two engine calls are the [Report] constructor and
    [compileToFile]; the first of them that raises with message [msg] makes
    [compile] raise [NameError('Error: ' + msg)], and when both return
    [compile] returns 0.  On each of these three paths the last thing done
    is the flush of the runtime's standard output. *)
Theorem compile_contract (report : pyval) (w : World) :
  (py_truthy report = false ->
   compile report w = (Raise (Exn NameError "No input file!"), w)) /\
  (py_truthy report = true ->
   let config := setInput report jvConfig in
   let w1 := log (EReportNew config) w in
   let w2 := log ECompileToFile w1 in
   match engine_raises (trace w) (EReportNew config) with
   | Some msg =>
       compile report w =
       (Raise (Exn NameError ("Error: " +:+ msg)), log (EFlush (sys_out w)) w1)
   | None =>
       match engine_raises (trace w1) ECompileToFile with
       | Some msg =>
           compile report w =
           (Raise (Exn NameError ("Error: " +:+ msg)),
            log (EFlush (sys_out w)) w2)
       | None => compile report w = (Ok 0, log (EFlush (sys_out w)) w2)
       end
   end).
Proof.
  split; intros Ht; unfold compile; rewrite Ht; simpl; trivial.
  unfold try_except, try_finally, bind, jcall, flush_out, reraise, raise, ret.
  destruct (engine_raises (trace w) (EReportNew (setInput report jvConfig)))
    as [msg|] eqn:E1; simpl; trivial.
  destruct (engine_raises (trace w ++ [EReportNew (setInput report jvConfig)])
              ECompileToFile) as [msg|] eqn:E2; simpl; trivial.
Qed.

End Compile.

(** C9 at concrete inputs: the empty path, and a template whose compilation
    the engine rejects. *)
Lemma compile_contract_witness :
  (py_truthy (VStr EmptyString) = false /\
   @compile quiet (VStr EmptyString) w0
   = (Raise (Exn NameError "No input file!"), w0)) /\
  (py_truthy (VStr "r.jrxml") = true /\
   trace (@compile quiet (VStr "r.jrxml") w0).2
   = [EReportNew (setInput (VStr "r.jrxml") jvConfig); ECompileToFile;
      EFlush (Original 1)]).
Proof.
  split.
  - split; [reflexivity|].
    apply (proj1 (@compile_contract quiet (VStr EmptyString) w0)). reflexivity.
  - split; [reflexivity|].
    pose proof (proj2 (@compile_contract quiet (VStr "r.jrxml") w0) eq_refl)
      as H.
    simpl in H. rewrite H. reflexivity.
Defined.

Section Process.
Context `{RT : Runtime}.


Lemma logs_process_config input_file output_file formats parameters
    db_connection locale :
  logs quiet_event
    (process_config input_file output_file formats parameters db_connection
       locale).
Proof.
  unfold process_config, process_copy_fields, py_dirname.
  repeat first
    [ apply logs_bind; [|intros ?]
    | apply logs_ret | apply logs_raise | apply logs_lift
    | match goal with
      | |- logs _ (if ?b then _ else _) => destruct b
      | |- logs _ (match ?x with _ => _ end) => destruct x
      end ].
Qed.

Lemma logs_process_classpath resource :
  logs quiet_event (process_classpath resource).
Proof.
  unfold process_classpath.
  repeat first
    [ apply logs_bind; [|intros ?]
    | apply logs_ret | apply logs_get_trace
    | apply logs_for_each; intros ?
    | apply logs_jcall; split; reflexivity
    | match goal with
      | |- logs _ (if ?b then _ else _) => destruct b
      end ].
Qed.



Lemma in_str_tuple_spec (t : list string) (key : pyval) :
  in_str_tuple t key = true <-> exists s, key = VStr s /\ In s t.
Proof.
  destruct key; simpl; try (split; [discriminate|intros (? & ? & ?); discriminate]).
  rewrite existsb_exists. split.
  - intros (x & Hx & He). apply String.eqb_eq in He. subst. eauto.
  - intros (s' & [= <-] & Hin). exists s. split; trivial. apply String.eqb_refl.
Qed.

Lemma py_any_map_true {X} (f : X -> bool) (l : list X) :
  py_any (map f l) = true <-> Exists (fun x => f x = true) l.
Proof.
  unfold py_any. induction l as [|x xs IH]; simpl.
  - split; [discriminate|]. intros H; inversion H.
  - rewrite orb_true_iff, IH, Exists_cons. reflexivity.
Qed.

Lemma py_any_map_false {X} (f : X -> bool) (l : list X) :
  py_any (map f l) = false <-> Forall (fun x => f x = false) l.
Proof.
  unfold py_any. induction l as [|x xs IH]; simpl.
  - split; trivial.
  - rewrite orb_false_iff, IH, Forall_cons. reflexivity.
Qed.

(** C2, as the code has it.  With a truthy [input_file]: a list that holds
    a value outside the format enum makes [process] raise
    [NameError('Invalid format!')], and an argument that is not a list makes
    it raise [NameError("'format_list' value is not list!")], in both cases
    without a single call made; every list drawn from the enum, the empty
    list included, passes the validation. *)
Theorem process_format_validation (input_file output_file format_list : pyval)
    (parameters : list (string * string)) (db_connection : gmap string pyval)
    (locale : pyval) (resource : string) (w : World) :
  py_truthy input_file = true ->
  (forall l, format_list = VList l ->
     (Exists (fun key => ~ in_FORMATS key) l ->
      process input_file output_file format_list parameters db_connection
        locale resource w
      = (Raise (Exn NameError "Invalid format!"), w)) /\
     (Forall in_FORMATS l ->
      process_validate input_file format_list = Ok l)) /\
  ((forall l, format_list <> VList l) ->
   process input_file output_file format_list parameters db_connection
     locale resource w
   = (Raise (Exn NameError "'format_list' value is not list!"), w)).
Proof.
  intros Hin. split.
  - intros l ->. split; intros Hl.
    + unfold process. rewrite bind_eq. unfold process_validate.
      rewrite Hin. simpl.
      replace (py_any _) with true; [reflexivity|].
      symmetry. apply py_any_map_true.
      eapply Exists_impl; [exact Hl|]. intros key Hk; simpl in Hk.
      destruct (in_str_tuple _FORMATS key) eqn:E; trivial.
      exfalso. apply Hk. by apply in_str_tuple_spec.
    + unfold process_validate. rewrite Hin. simpl.
      replace (py_any _) with false; [reflexivity|].
      symmetry. apply py_any_map_false.
      eapply Forall_impl; [exact Hl|]. intros key Hk; simpl.
      apply in_str_tuple_spec in Hk. by rewrite Hk.
  - intros Hnl. unfold process. rewrite bind_eq. unfold process_validate.
    rewrite Hin. simpl.
    destruct format_list; try reflexivity. by destruct (Hnl l).
Qed.

Lemma copy_field_lookup_ne (conn : gmap string pyval) key prop wrap
    (c : Config) (p : string) :
  prop <> p -> copy_field conn key prop wrap c !! p = c !! p.
Proof.
  intros Hne. unfold copy_field, jset.
  destruct (conn !! key); [by rewrite lookup_insert_ne|reflexivity].
Qed.

Lemma lookup_size_pos (m : gmap string pyval) (k : string) (v : pyval) :
  m !! k = Some v -> (0 <? Z.of_nat (size m)) = true.
Proof.
  intros Hk. apply Z.ltb_lt.
  assert (size m <> 0%nat); [|lia].
  apply map_size_ne_0_lookup. exists k. by rewrite Hk.
Qed.

(** The configuration [process] builds when the connection has a port:
    everything up to the port, then [int(port)], then the rest. *)
Lemma process_config_port input_file output_file formats parameters
    (db_connection : gmap string pyval) locale (v : pyval) (w : World) :
  db_connection !! "port" = Some v ->
  output_known input_file output_file ->
  match py_int v with
  | Ok z =>
      exists config,
        process_config input_file output_file formats parameters db_connection
          locale w = (Ok config, w)
        /\ config !! "DbPort" = Some (JInt z)
  | Raise e =>
      process_config input_file output_file formats parameters db_connection
        locale w = (Raise e, w)
  end.
Proof.
  intros Hport Hout. unfold process_config.
  rewrite (lookup_size_pos _ _ _ Hport).
  assert (Ho : exists c0,
             (if py_truthy output_file
              then ret (jset "Output" (JPy output_file)
                          (jset "Locale" (JPy locale)
                             (setInput input_file jvConfig)))
              else let* d := py_dirname input_file in
                   ret (jset "Output" (JPy (VStr d))
                          (jset "Locale" (JPy locale)
                             (setInput input_file jvConfig)))) w
             = (Ok c0, w)).
  { destruct (py_truthy output_file) eqn:E; [eexists; reflexivity|].
    destruct Hout as [Hout|[s ->]]; [congruence|]. eexists; reflexivity. }
  destruct Ho as [c0 Ho]. rewrite bind_eq, Ho.
  unfold process_copy_fields. rewrite Hport, bind_eq, bind_eq.
  unfold lift. destruct (py_int v) as [z|e]; [|reflexivity].
  eexists. split; [reflexivity|].
  rewrite !copy_field_lookup_ne by done.
  apply lookup_insert_eq.
Qed.

(** C7.  When the connection of [process] has a ['port']: if [int(port)]
    raises, [process] raises a [NameError] and not a single call has been
    made (so neither fill nor export was invoked), and, once the arguments
    pass validation and the output target is known, the message is
    ['Error: '] followed by the message of [int]; if [int(port)] is [z],
    the configuration handed on to the engine has [z] as its port. *)
Theorem process_port_parsed (input_file output_file format_list : pyval)
    (parameters : list (string * string)) (db_connection : gmap string pyval)
    (locale : pyval) (resource : string) (v : pyval) (w : World) :
  db_connection !! "port" = Some v ->
  (forall e, py_int v = Raise e ->
     exists msg,
       process input_file output_file format_list parameters db_connection
         locale resource w = (Raise (Exn NameError msg), w)
       /\ (forall formats,
             process_validate input_file format_list = Ok formats ->
             output_known input_file output_file ->
             msg = "Error: " +:+ py_str e)) /\
  (forall z formats, py_int v = Ok z ->
     process_validate input_file format_list = Ok formats ->
     output_known input_file output_file ->
     exists config,
       process_config input_file output_file formats parameters db_connection
         locale w = (Ok config, w)
       /\ config !! "DbPort" = Some (JInt z)
       /\ process input_file output_file format_list parameters db_connection
            locale resource w
          = try_except (process_classpath resource ;;
                        process_run config formats ;;
                        ret 0)
                       (reraise "Error: ") w).
Proof.
  intros Hport. split.
  - intros e He. unfold process. rewrite bind_eq.
    assert (Hv : (exists m, process_validate input_file format_list
                            = Raise (Exn NameError m))
                 \/ exists formats, process_validate input_file format_list
                                    = Ok formats).
    { unfold process_validate.
      destruct (negb (py_truthy input_file)); [left; eexists; reflexivity|].
      destruct format_list; try (left; eexists; reflexivity).
      destruct (py_any _); [left|right]; eexists; reflexivity. }
    destruct Hv as [[m Hv]|[formats Hv]]; rewrite Hv; unfold lift.
    { exists m. split; trivial. intros ? [=]. }
    rewrite try_except_eq, bind_eq.
    destruct (py_truthy output_file) eqn:Eo.
    + pose proof (process_config_port input_file output_file formats parameters
                    db_connection locale v w Hport (or_introl Eo)) as Hc.
      rewrite He in Hc. rewrite Hc. eexists. split; [reflexivity|].
      intros ? _ _. reflexivity.
    + destruct input_file as [| | | |s| | |];
        try (unfold process_config; rewrite Eo; simpl;
             eexists; split; [reflexivity|];
             intros ? _ [Hk|[? [=]]]; congruence).
      pose proof (process_config_port (VStr s) output_file formats parameters
                    db_connection locale v w Hport
                    (or_intror (ex_intro _ s eq_refl))) as Hc.
      rewrite He in Hc. rewrite Hc. eexists. split; [reflexivity|].
      intros ? _ _. reflexivity.
  - intros z formats Hz Hv Hout.
    pose proof (process_config_port input_file output_file formats parameters
                  db_connection locale v w Hport Hout) as Hc.
    rewrite Hz in Hc. destruct Hc as (config & Hc & Hp).
    exists config. repeat split; trivial.
    unfold process. rewrite bind_eq, Hv. unfold lift.
    rewrite !try_except_eq, bind_eq, Hc. reflexivity.
Qed.

End Process.

Section ProcessJson.
Context `{RT : Runtime}.

Lemma getitem_if_same (connection : gmap string pyval) (key : string)
    (w : World) :
  getitem_if connection key key w
  = (Ok (default (VDict []) (connection !! key)), w).
Proof.
  unfold getitem_if, py_getitem. by destruct (connection !! key).
Qed.

(** What the body of [if 'url_file' in connection:] does once the method
    is one of the three allowed and the request body [DATA] is resolved. *)
Lemma process_json_fetch_sends (tmp_dir : string)
    (connection : gmap string pyval) (url : pyval) (config : Config)
    (m : string) (DATA : pyval) (w : World) :
  connection !! "url_method" = Some (VStr m) ->
  In m _FORMATS_METHODS_REQUEST ->
  getitem_if connection "url_data_post" "url_data" w = (Ok DATA, w) ->
  let req := Request (VStr m) url DATA
               (default (VDict []) (connection !! "url_header"))
               (default (VDict []) (connection !! "url_params")) in
  let w2 := log (EHttp req) w in
  let file_json := os_path_join tmp_dir "data_report.json" in
  process_json_fetch tmp_dir connection url config w
  = match http_send (trace w) req with
    | Raise e => (Raise (Exn NameError ("Error request: " +:+ py_str e)), w2)
    | Ok resp =>
        if status_code resp =? 200
        then match resp_json resp with
             | Raise e =>
                 (Raise (Exn NameError ("Error request: " +:+ py_str e)), w2)
             | Ok data =>
                 let w3 := log (EFileWrite file_json (json_dumps data)) w2 in
                 match file_write (trace w2) file_json (json_dumps data) with
                 | Some e =>
                     (Raise (Exn NameError ("Error request: " +:+ py_str e)),
                      w3)
                 | None => (Ok (setDataFile (VStr file_json) config), w3)
                 end
             end
        else (Raise (Exn NameError
                       ("Error request: Error request status code: "
                        +:+ py_str_int (status_code resp))), w2)
    end.
Proof.
  intros Hm Hin Hdata. cbv zeta.
  unfold process_json_fetch. rewrite try_except_eq, bind_eq.
  unfold py_getitem at 1. rewrite Hm. unfold ret at 1.
  assert (Hal : in_str_tuple _FORMATS_METHODS_REQUEST (VStr m) = true).
  { apply in_str_tuple_spec. eauto. }
  rewrite Hal. simpl negb. cbv iota.
  rewrite bind_eq. unfold ret at 1.
  rewrite bind_eq, getitem_if_same.
  rewrite bind_eq, Hdata.
  rewrite bind_eq, getitem_if_same.
  rewrite bind_eq. unfold send_request.
  destruct (http_send _ _) as [resp|e]; [|reflexivity].
  destruct (status_code resp =? 200); [|reflexivity].
  rewrite bind_eq. unfold lift.
  destruct (resp_json resp) as [data|e]; [|reflexivity].
  rewrite bind_eq. unfold write_file.
  destruct (file_write _ _ _); reflexivity.
Qed.

(** Whatever the fetch raises has been wrapped by its own handler. *)
Lemma process_json_fetch_wraps tmp_dir connection url config w e w' :
  process_json_fetch tmp_dir connection url config w = (Raise e, w') ->
  exists e0, e = Exn NameError ("Error request: " +:+ py_str e0).
Proof.
  unfold process_json_fetch. rewrite try_except_eq.
  match goal with |- context [match ?X with _ => _ end] => destruct X as [[c|e0] w1] end.
  - discriminate.
  - intros [= <- <-]. by exists e0.
Qed.

Lemma logs_flush_out (P : event -> Prop) :
  (forall s, P (EFlush s)) -> logs P flush_out.
Proof.
  intros HP w. simpl. repeat split; trivial.
  exists [EFlush (sys_out w)]. split; trivial. by constructor.
Qed.

Lemma logs_compile (report : pyval) : logs not_fill (compile report).
Proof.
  unfold compile.
  repeat first [apply logs_flush_out; intros ?; reflexivity
               | logs_step | reflexivity].
Qed.

Lemma logs_send_request (r : http_request) : logs not_fill (send_request r).
Proof.
  intros w. simpl. repeat split; trivial.
  exists [EHttp r]. split; trivial. by constructor.
Qed.

Lemma logs_write_file (path content : string) :
  logs not_fill (write_file path content).
Proof.
  intros w. unfold write_file.
  destruct (file_write _ _ _); simpl; repeat split; trivial;
    exists [EFileWrite path content]; split; trivial; by constructor.
Qed.

Lemma logs_process_json_sources tmp_dir connection config :
  logs not_fill (process_json_sources tmp_dir connection config).
Proof.
  unfold process_json_sources, process_json_fetch, getitem_if, py_getitem.
  repeat first [apply logs_send_request | apply logs_write_file | logs_step].
Qed.

Lemma logs_process_json_start input_file resource config :
  logs not_fill (process_json_start input_file resource config).
Proof.
  unfold process_json_start, process_json_classpath.
  repeat first [apply logs_compile | logs_step | reflexivity].
Qed.

Lemma logs_process_json_fill connection config file_out output_file :
  logs (fun _ => True) (process_json_fill connection config file_out output_file).
Proof.
  unfold process_json_fill, put_if.
  repeat first [logs_step | exact I].
Qed.

Lemma process_json_db_type_congr (connection : gmap string pyval)
    (c c' : Config) :
  c !! "DbType" = c' !! "DbType" ->
  getDbType (process_json_db_type connection c)
  = getDbType (process_json_db_type connection c').
Proof.
  intros Hc. unfold getDbType, process_json_db_type, setDbType, jset.
  destruct (connection !! "driver") as [d|];
    [|by rewrite !lookup_insert_eq].
  destruct (py_eq_str d "json"); [by rewrite !lookup_insert_eq|].
  destruct (py_eq_str d "jsonql"); [by rewrite !lookup_insert_eq|].
  exact Hc.
Qed.

(** [process_json] with arguments that pass the validation and an output
    target that can be computed, laid out: the temporary directory, the
    data source, the start of the engine, the fill block, the clean-up. *)
Lemma process_json_unfold input_file output_file format_list parameters
    (connection : gmap string pyval) locale resource formats :
  process_json_validate input_file format_list = Ok formats ->
  output_known input_file output_file ->
  exists cpre file_out out,
    getDbType cpre = getDbType (process_json_db_type connection jvConfig) /\
    forall w,
      let tmp_dir := mkdtemp (trace w) in
      let body :=
        try_except
          (let* config :=
             if 0 <? Z.of_nat (size connection)
             then process_json_sources tmp_dir connection cpre
             else ret cpre in
           process_json_start input_file resource config ;;
           process_json_fill connection config file_out out ;;
           ret 0)
          (reraise "Error: ") in
      process_json input_file output_file format_list parameters connection
        locale resource w
      = ((body (log (EMkdtemp tmp_dir) w)).1,
         log (ERmtree tmp_dir) (body (log (EMkdtemp tmp_dir) w)).2).
Proof.
  intros Hv Hout.
  set (c0 := if py_truthy locale
             then jset "Locale" (JPy locale) (setInput input_file jvConfig)
             else setInput input_file jvConfig).
  assert (Ho : exists c1 file_out out,
             c1 !! "DbType" = None /\
             forall w, process_json_output input_file output_file c0 w
                       = (Ok (c1, file_out, out), w)).
  { unfold process_json_output.
    assert (Hc0 : c0 !! "DbType" = None).
    { unfold c0. by destruct (py_truthy locale). }
    destruct (py_truthy output_file) eqn:E.
    - do 3 eexists. split; [|intros; reflexivity].
      unfold jset. by rewrite lookup_insert_ne.
    - destruct Hout as [Hout|[s ->]]; [congruence|].
      do 3 eexists. split; [|intros; reflexivity].
      unfold jset. by rewrite lookup_insert_ne. }
  destruct Ho as (c1 & file_out & out & Hc1 & Ho).
  exists (process_json_db_type connection
            (set_params parameters (jset "OutputFormats" (JList formats) c1))),
    file_out, out.
  split.
  - apply process_json_db_type_congr.
    unfold set_params, jset, jvConfig. rewrite lookup_empty.
    destruct parameters; by rewrite ?lookup_insert_ne.
  - intros w. cbv zeta. unfold process_json, with_tmpdir, try_finally.
    rewrite bind_eq, Hv. unfold lift.
    set (w1 := log (EMkdtemp (mkdtemp (trace w))) w).
    rewrite !try_except_eq.
    unfold process_json_prepare, process_json_config. fold c0.
    rewrite !bind_eq, Ho. cbv beta iota. rewrite !bind_eq.
    destruct ((if 0 <? Z.of_nat (size connection)
               then process_json_sources _ _ _ else ret _) w1)
      as [[config|e] w2]; [|reflexivity].
    unfold ret at 1. cbv beta iota. rewrite !bind_eq. simpl fst.
    destruct (process_json_start input_file resource config w2)
      as [[u|e] w3]; [|reflexivity].
    unfold ret at 1. cbv beta iota. rewrite !bind_eq.
    destruct (process_json_fill connection config file_out out w3)
      as [[u'|e] w4]; reflexivity.
Qed.

(** A failure of the data-source block surfaces from [process_json]
    wrapped once more, after the temporary directory is removed. *)
Lemma process_json_sources_raise input_file output_file format_list
    parameters (connection : gmap string pyval) locale resource formats
    (w w2 : World) (e : pyexn) :
  process_json_validate input_file format_list = Ok formats ->
  output_known input_file output_file ->
  size connection <> 0%nat ->
  let tmp_dir := mkdtemp (trace w) in
  (forall c, process_json_sources tmp_dir connection c (log (EMkdtemp tmp_dir) w)
             = (Raise e, w2)) ->
  process_json input_file output_file format_list parameters connection
    locale resource w
  = (Raise (Exn NameError ("Error: " +:+ py_str e)), log (ERmtree tmp_dir) w2).
Proof.
  intros Hv Hout Hsz tmp_dir Hsrc.
  destruct (process_json_unfold input_file output_file format_list parameters
              connection locale resource formats Hv Hout)
    as (cpre & file_out & out & _ & Hpj).
  rewrite Hpj. fold tmp_dir.
  replace (0 <? Z.of_nat (size connection)) with true
    by (symmetry; apply Z.ltb_lt; lia).
  rewrite try_except_eq, bind_eq, Hsrc. reflexivity.
Qed.

Lemma process_json_fetch_db_type tmp_dir connection url c w c' w' :
  process_json_fetch tmp_dir connection url c w = (Ok c', w') ->
  getDbType c' = getDbType c.
Proof.
  unfold process_json_fetch. rewrite try_except_eq.
  repeat (rewrite bind_eq;
          match goal with
          | |- context [match ?m w with _ => _ end] =>
              destruct (m w) as [[?|?] ?]; [|discriminate]
          | |- context [match ?m ?w0 with _ => _ end] =>
              destruct (m w0) as [[?|?] ?]; [|discriminate]
          end).
  destruct (status_code _ =? 200); [|discriminate].
  repeat (rewrite bind_eq;
          match goal with
          | |- context [match ?m ?w0 with _ => _ end] =>
              destruct (m w0) as [[?|?] ?]; [|discriminate]
          end).
  intros [= <- _]. unfold getDbType, setDataFile, jset.
  by rewrite lookup_insert_ne.
Qed.

Lemma process_json_sources_db_type tmp_dir connection c w c' w' :
  process_json_sources tmp_dir connection c w = (Ok c', w') ->
  getDbType c' = getDbType c.
Proof.
  unfold process_json_sources.
  assert (Hcf : forall c0 : Config,
             getDbType (copy_field connection "jsonql_query" "JsonQLQuery" JPy
                          (copy_field connection "json_query" "JsonQuery" JPy c0))
             = getDbType c0).
  { intros c0. unfold getDbType. by rewrite !copy_field_lookup_ne. }
  assert (Hdf : forall v, getDbType (setDataFile v c) = getDbType c).
  { intros v. unfold getDbType, setDataFile, jset. by rewrite lookup_insert_ne. }
  destruct (connection !! "data_file") as [v|];
    destruct (connection !! "url_file") as [u|]; try discriminate.
  - rewrite bind_eq.
    destruct (process_json_fetch _ _ _ _ _) as [[c2|e] w2] eqn:Ef;
      [|discriminate].
    intros [= <- _]. rewrite Hcf.
    rewrite (process_json_fetch_db_type _ _ _ _ _ _ _ Ef). apply Hdf.
  - intros [= <- _]. rewrite Hcf. apply Hdf.
  - rewrite bind_eq.
    destruct (process_json_fetch _ _ _ _ _) as [[c2|e] w2] eqn:Ef;
      [|discriminate].
    intros [= <- _]. rewrite Hcf.
    apply (process_json_fetch_db_type _ _ _ _ _ _ _ Ef).
Qed.

(** The type on the prepared configuration is the one the driver chain
    put there. *)
Lemma process_json_prepare_db_type tmp_dir input_file output_file formats
    parameters (connection : gmap string pyval) locale resource w w'
    config file_out out :
  process_json_prepare tmp_dir input_file output_file formats parameters
    connection locale resource w = (Ok (config, file_out, out), w') ->
  getDbType config = getDbType (process_json_db_type connection jvConfig).
Proof.
  unfold process_json_prepare. rewrite bind_eq.
  destruct (process_json_config _ _ _ _ _ _ _ w) as [[prepared|e] w1] eqn:Ec;
    [|discriminate].
  rewrite bind_eq.
  destruct (process_json_start _ _ _ w1) as [[u|e] w2]; [|discriminate].
  intros [= -> _]. clear u w2.
  revert Ec. unfold process_json_config. rewrite bind_eq.
  destruct (process_json_output _ _ _ w) as [[[[c1 fo] o]|e] w0] eqn:Eo;
    [|discriminate].
  rewrite bind_eq.
  match goal with
  | |- context [match ?m w0 with _ => _ end] =>
      destruct (m w0) as [[c2|e] w3] eqn:Es; [|discriminate]
  end.
  intros [= <- _ _ _].
  assert (Hc1 : c1 !! "DbType" = None).
  { revert Eo. unfold process_json_output.
    destruct (py_truthy output_file).
    - intros [= <- _ _ _]. unfold jset, setInput, jset, jvConfig.
      destruct (py_truthy locale); by rewrite ?lookup_insert_ne.
    - destruct input_file; try discriminate.
      intros [= <- _ _ _]. unfold jset, setInput, jset, jvConfig.
      destruct (py_truthy locale); by rewrite ?lookup_insert_ne. }
  assert (Hpre : getDbType (process_json_db_type connection
                              (set_params parameters
                                 (jset "OutputFormats" (JList formats) c1)))
                 = getDbType (process_json_db_type connection jvConfig)).
  { apply process_json_db_type_congr.
    unfold set_params, jset, jvConfig. rewrite lookup_empty.
    destruct parameters; by rewrite ?lookup_insert_ne. }
  destruct (0 <? Z.of_nat (size connection)).
  - rewrite (process_json_sources_db_type _ _ _ _ _ _ Es). exact Hpre.
  - injection Es as <- _. exact Hpre.
Qed.

(** The first call of the engine part is a call to the engine. *)
Lemma process_json_start_first input_file resource config (w : World) :
  exists ev, engine_event ev = true
             /\ extends (process_json_start input_file resource config) w [ev].
Proof.
  unfold process_json_start, process_json_classpath.
  assert (Hrest : forall u : unit,
             logs not_fill
               (compile input_file ;;
                if hasAskFilter config then jcall EPromptForParams
                else ret tt)).
  { intros _. repeat first [apply logs_compile | logs_step | reflexivity]. }
  assert (Hrest' : forall u : unit,
             logs not_fill
               (jcall (EReportNew config) ;;
                compile input_file ;;
                if hasAskFilter config then jcall EPromptForParams
                else ret tt)).
  { intros _. apply logs_bind; [by apply logs_jcall|exact Hrest]. }
  destruct (os_path_isfile (trace w) resource) eqn:Ef;
    [|destruct (os_path_isdir (trace w) resource) eqn:Ed].
  - eexists. split; [|eapply extends_bind; [|exact Hrest']].
    2:{ unfold extends. rewrite bind_eq. unfold get_trace. rewrite Ef.
        apply extends_jcall. }
    reflexivity.
  - eexists. split; [|eapply extends_bind; [|exact Hrest']].
    2:{ unfold extends. rewrite bind_eq. unfold get_trace. rewrite Ef, Ed.
        apply extends_jcall. }
    reflexivity.
  - exists (EReportNew config). split; [reflexivity|].
    unfold extends. rewrite bind_eq, bind_eq. unfold get_trace.
    rewrite Ef, Ed. unfold ret at 1.
    change (extends (jcall (EReportNew config) ;;
                     compile input_file ;;
                     if hasAskFilter config then jcall EPromptForParams
                     else ret tt) w [EReportNew config]).
    eapply extends_bind; [apply extends_jcall|exact Hrest].
Qed.

(** C6.  With arguments that pass the validation and a known output
    target: a connection that is not empty and has neither ['data_file']
    nor ['url_file'] makes [process_json] raise
    [NameError('Error: No data sources were reported')], with nothing done
    but creating and removing the temporary directory; with the empty
    connection the run goes on past that check, to its first engine call. *)
Theorem process_json_missing_source (input_file output_file format_list : pyval)
    (parameters : list (string * string)) (connection : gmap string pyval)
    (locale : pyval) (resource : string) (formats : list pyval) (w : World) :
  process_json_validate input_file format_list = Ok formats ->
  output_known input_file output_file ->
  let tmp_dir := mkdtemp (trace w) in
  (connection <> ∅ ->
   connection !! "data_file" = None ->
   connection !! "url_file" = None ->
   process_json input_file output_file format_list parameters connection
     locale resource w
   = (Raise (Exn NameError "Error: No data sources were reported"),
      log (ERmtree tmp_dir) (log (EMkdtemp tmp_dir) w))) /\
  (connection = ∅ ->
   exists ev rest,
     engine_event ev = true /\
     trace (process_json input_file output_file format_list parameters
              connection locale resource w).2
     = trace w ++ EMkdtemp tmp_dir :: ev :: rest).
Proof.
  intros Hv Hout tmp_dir. split.
  - intros Hne Hd Hu.
    apply (process_json_sources_raise _ _ _ _ _ _ _ formats w _
             (Exn NameError "No data sources were reported") Hv Hout).
    + intros Hs. by apply map_size_empty_iff in Hs.
    + intros c. unfold process_json_sources. by rewrite Hd, Hu.
  - intros ->.
    destruct (process_json_unfold input_file output_file format_list parameters
                ∅ locale resource formats Hv Hout)
      as (cpre & file_out & out & _ & Hpj).
    rewrite Hpj. fold tmp_dir. simpl snd.
    rewrite map_size_empty. simpl Z.ltb. cbv iota.
    set (w1 := log (EMkdtemp tmp_dir) w).
    destruct (process_json_start_first input_file resource cpre w1)
      as (ev & Hev & Hext).
    assert (Hbody : extends
              (try_except
                 (let* config := ret cpre in
                  process_json_start input_file resource config ;;
                  process_json_fill ∅ config file_out out ;; ret 0)
                 (reraise "Error: ")) w1 [ev]).
    { apply extends_try_except.
      change (extends (process_json_start input_file resource cpre ;;
                       process_json_fill ∅ cpre file_out out ;; ret 0)
                w1 [ev]).
      eapply extends_bind with (P := fun _ => True); [exact Hext|].
      intros _. apply logs_bind; [apply logs_process_json_fill|].
      intros _. apply logs_ret. }
    destruct Hbody as [rest Hbody].
    exists ev, (rest ++ [ERmtree tmp_dir]). split; trivial.
    unfold log at 1. simpl trace. rewrite Hbody. unfold w1, log. simpl.
    rewrite <- !app_assoc. reflexivity.
Qed.

Lemma list_comp_strings (hay : string) (l : list pyval) :
  Forall is_str l ->
  exists tests,
    list_comp (not_in_str hay) l = Ok tests /\
    (py_any tests = true <->
     Exists (fun key => exists s, key = VStr s /\ str_contains hay s = false) l).
Proof.
  induction 1 as [|key l [s ->] Hl (tests & Ht & Hany)]; simpl.
  - exists []. split; trivial. split; [discriminate|]. intros H; inversion H.
  - rewrite Ht. eexists. split; [reflexivity|].
    unfold py_any in *. simpl. rewrite orb_true_iff, Hany, Exists_cons.
    unfold id. split.
    + intros [Hs|Hr]; [left|by right].
      exists s. split; trivial. by apply negb_true_iff.
    + intros [(s' & [= <-] & Hs)|Hr]; [left|by right].
      by apply negb_true_iff.
Qed.

(** C1, as the code has it.  With a truthy [input_file]: every list whose
    elements are all ['pdf'], the empty list included, passes the
    validation of [process_json]; a list of strings one of which does not
    occur inside ['pdf'] makes it raise [NameError('Invalid format
    output!')] with nothing done but creating and removing the temporary
    directory. *)
Theorem process_json_format_validation
    (input_file output_file format_list : pyval)
    (parameters : list (string * string)) (connection : gmap string pyval)
    (locale : pyval) (resource : string) (w : World) :
  py_truthy input_file = true ->
  forall l, format_list = VList l ->
    (Forall (fun key => key = VStr "pdf") l ->
     process_json_validate input_file format_list = Ok l) /\
    (Forall is_str l -> Exists outside_FORMATS_JSON l ->
     let tmp_dir := mkdtemp (trace w) in
     process_json input_file output_file format_list parameters connection
       locale resource w
     = (Raise (Exn NameError "Invalid format output!"),
        log (ERmtree tmp_dir) (log (EMkdtemp tmp_dir) w))).
Proof.
  intros Hin l ->. split.
  - intros Hl. unfold process_json_validate. rewrite Hin. simpl negb. cbv iota.
    destruct (list_comp_strings _FORMATS_JSON l) as (tests & Ht & Hany).
    { eapply Forall_impl; [exact Hl|]. intros key ->. by eexists. }
    rewrite Ht. destruct (py_any tests); [|reflexivity].
    exfalso. destruct Hany as [Hany _]. specialize (Hany eq_refl).
    apply Exists_exists in Hany. destruct Hany as (key & Hk & s & -> & Hs).
    rewrite Forall_forall in Hl. apply Hl in Hk. injection Hk as ->.
    discriminate Hs.
  - intros Hstr Hex tmp_dir.
    unfold process_json, with_tmpdir, try_finally. fold tmp_dir.
    rewrite bind_eq. unfold lift, process_json_validate.
    rewrite Hin. simpl negb. cbv iota.
    destruct (list_comp_strings _FORMATS_JSON l Hstr) as (tests & Ht & Hany).
    rewrite Ht. destruct Hany as [_ Hany]. rewrite (Hany Hex). reflexivity.
Qed.

(** C4, as the code has it.  The data-source type on the configuration
    [process_json] prepares: [json] for the driver ['json'], [jsonql] for
    ['jsonql'], [none] when the connection has no ['driver']; for every
    other driver value no type is set at all. *)
Theorem process_json_db_type_resolved
    (tmp_dir : string) (input_file output_file : pyval)
    (formats : list pyval) (parameters : list (string * string))
    (connection : gmap string pyval) (locale : pyval) (resource : string)
    (w w' : World) (config : Config) (file_out : option string)
    (out : pyval) :
  process_json_prepare tmp_dir input_file output_file formats parameters
    connection locale resource w = (Ok (config, file_out, out), w') ->
  (connection !! "driver" = Some (VStr "json") ->
   getDbType config = Some (JDs json)) /\
  (connection !! "driver" = Some (VStr "jsonql") ->
   getDbType config = Some (JDs jsonql)) /\
  (connection !! "driver" = None -> getDbType config = Some (JDs none)) /\
  (forall d, connection !! "driver" = Some d ->
             d <> VStr "json" -> d <> VStr "jsonql" ->
             getDbType config = None).
Proof.
  intros Hprep.
  assert (Hty : getDbType config
                = getDbType (process_json_db_type connection jvConfig)).
  { apply (process_json_prepare_db_type _ _ _ _ _ _ _ _ _ _ _ _ _ Hprep). }
  rewrite Hty. unfold process_json_db_type, getDbType, setDbType, jset.
  repeat split.
  - intros ->. reflexivity.
  - intros ->. reflexivity.
  - intros ->. reflexivity.
  - intros d -> Hj Hq.
    destruct d; try reflexivity. simpl.
    destruct (String.eqb_spec s "json") as [->|_]; [congruence|].
    destruct (String.eqb_spec s "jsonql") as [->|_]; [congruence|].
    reflexivity.
Qed.

Lemma is_jsonql_true (t : option jval) :
  is_jsonql t = true <-> t = Some (JDs jsonql).
Proof.
  split; [|by intros ->].
  destruct t as [[| |[]| | | | |]|]; simpl; congruence.
Qed.

Lemma process_json_db_type_jsonql (connection : gmap string pyval) :
  getDbType (process_json_db_type connection jvConfig) = Some (JDs jsonql) ->
  connection !! "driver" = Some (VStr "jsonql").
Proof.
  unfold process_json_db_type, getDbType, setDbType, jset, jvConfig.
  destruct (connection !! "driver") as [d|];
    [|rewrite lookup_insert_eq; discriminate].
  destruct d; simpl; try (rewrite lookup_empty; discriminate).
  destruct (String.eqb_spec s "json") as [->|_];
    [rewrite lookup_insert_eq; discriminate|].
  destruct (String.eqb_spec s "jsonql") as [->|_]; [reflexivity|].
  rewrite lookup_empty; discriminate.
Qed.

Lemma logs_process_json_prepare tmp_dir input_file output_file formats
    parameters connection locale resource :
  logs not_fill
    (process_json_prepare tmp_dir input_file output_file formats parameters
       connection locale resource).
Proof.
  unfold process_json_prepare, process_json_config, process_json_output.
  repeat first [ apply logs_process_json_sources
               | apply logs_process_json_start | logs_step ].
Qed.



Lemma getitem_if_body (connection : gmap string pyval) (DATA : pyval)
    (w : World) :
  body_resolves connection DATA ->
  getitem_if connection "url_data_post" "url_data" w = (Ok DATA, w).
Proof.
  unfold getitem_if, py_getitem.
  intros [[-> ->]|[[p ->] ->]]; reflexivity.
Qed.

(** The data-source block when the connection has a ['url_file']. *)
Lemma process_json_sources_url tmp_dir (connection : gmap string pyval)
    (url : pyval) (c : Config) (w : World) :
  connection !! "url_file" = Some url ->
  process_json_sources tmp_dir connection c w
  = match process_json_fetch tmp_dir connection url
            (match connection !! "data_file" with
             | Some v => setDataFile v c
             | None => c
             end) w with
    | (Ok c2, w') =>
        (Ok (copy_field connection "jsonql_query" "JsonQLQuery" JPy
               (copy_field connection "json_query" "JsonQuery" JPy c2)), w')
    | (Raise e, w') => (Raise e, w')
    end.
Proof.
  intros Hu. unfold process_json_sources. rewrite Hu.
  destruct (connection !! "data_file"); rewrite bind_eq;
    by destruct (process_json_fetch _ _ _ _ _) as [[?|?] ?].
Qed.

Lemma process_json_sources_wraps tmp_dir (connection : gmap string pyval)
    (url : pyval) c w e w' :
  connection !! "url_file" = Some url ->
  process_json_sources tmp_dir connection c w = (Raise e, w') ->
  exists e0, e = Exn NameError ("Error request: " +:+ py_str e0).
Proof.
  intros Hu. rewrite (process_json_sources_url _ _ _ _ _ Hu).
  destruct (process_json_fetch _ _ _ _ _) as [[c2|e1] w1] eqn:Ef;
    [discriminate|].
  intros [= <- _]. eapply process_json_fetch_wraps, Ef.
Qed.

(** A method that is not allowed stops the fetch before any request. *)
Lemma process_json_fetch_bad_method tmp_dir (connection : gmap string pyval)
    (url mv : pyval) (config : Config) (w : World) :
  connection !! "url_method" = Some mv ->
  in_str_tuple _FORMATS_METHODS_REQUEST mv = false ->
  process_json_fetch tmp_dir connection url config w
  = (Raise (Exn NameError
              ("Error request: "
               +:+ match mv with
                   | VStr _ => "Invalid method request!"
                   | _ => "'url_method' value is not list!"
                   end)), w).
Proof.
  intros Hm Hbad. unfold process_json_fetch.
  rewrite try_except_eq, bind_eq. unfold py_getitem. rewrite Hm.
  unfold ret at 1. cbv beta iota. rewrite bind_eq.
  destruct mv; try reflexivity. rewrite Hbad. reflexivity.
Qed.

(** With an allowed method and a resolved body, the first thing
    [process_json] does in its temporary directory is the request. *)
Lemma process_json_sends input_file output_file format_list parameters
    (connection : gmap string pyval) locale resource formats url m DATA
    (w : World) :
  process_json_validate input_file format_list = Ok formats ->
  output_known input_file output_file ->
  connection !! "url_file" = Some url ->
  connection !! "url_method" = Some (VStr m) ->
  In m _FORMATS_METHODS_REQUEST ->
  body_resolves connection DATA ->
  extends (process_json input_file output_file format_list parameters
             connection locale resource) w
    [EMkdtemp (mkdtemp (trace w));
     EHttp (Request (VStr m) url DATA
              (default (VDict []) (connection !! "url_header"))
              (default (VDict []) (connection !! "url_params")))].
Proof.
  intros Hv Hout Hu Hm Hin Hbody.
  set (tmp_dir := mkdtemp (trace w)).
  set (req := Request _ _ _ _ _).
  destruct (process_json_unfold input_file output_file format_list parameters
              connection locale resource formats Hv Hout)
    as (cpre & file_out & out & _ & Hpj).
  unfold extends. rewrite Hpj. fold tmp_dir. simpl snd.
  replace (0 <? Z.of_nat (size connection)) with true.
  2:{ symmetry. apply Z.ltb_lt.
      assert (size connection <> 0%nat); [|lia].
      apply map_size_ne_0_lookup. exists "url_file". by rewrite Hu. }
  set (w1 := log (EMkdtemp tmp_dir) w).
  assert (Hsrc : extends (process_json_sources tmp_dir connection cpre) w1
                   [EHttp req]).
  { unfold extends. rewrite (process_json_sources_url _ _ _ _ _ Hu).
    rewrite (process_json_fetch_sends tmp_dir connection url _ m DATA w1 Hm
               Hin (getitem_if_body _ _ _ Hbody)).
    fold req.
    destruct (http_send (trace w1) req) as [resp|e]; [|by exists []].
    destruct (status_code resp =? 200); [|by exists []].
    destruct (resp_json resp) as [data|e]; [|by exists []].
    destruct (file_write _ _ _); eexists; simpl;
      rewrite <- !app_assoc; reflexivity. }
  assert (Hbody' : extends
            (try_except
               (let* config := process_json_sources tmp_dir connection cpre in
                process_json_start input_file resource config ;;
                process_json_fill connection config file_out out ;; ret 0)
               (reraise "Error: ")) w1 [EHttp req]).
  { apply extends_try_except.
    eapply extends_bind with (P := fun _ => True); [exact Hsrc|].
    intros config. apply logs_bind.
    - eapply logs_weaken; [|apply logs_process_json_start]. trivial.
    - intros _. apply logs_bind; [apply logs_process_json_fill|].
      intros _. apply logs_ret. }
  destruct Hbody' as [rest Hrest].
  exists (rest ++ [ERmtree tmp_dir]).
  unfold log at 1. simpl trace. rewrite Hrest. unfold w1, log. simpl.
  rewrite <- !app_assoc. reflexivity.
Qed.

(** C10.  In the remote fetch of [process_json] (valid arguments, a
    ['url_file'], an allowed ['url_method']): without the key
    ['url_data_post'] the request goes out with the empty body [{}],
    whether or not there is a ['url_data']; with ['url_data_post'] the body
    is the value under ['url_data']; and with ['url_data_post'] but no
    ['url_data'] the fetch fails on the missing key before any request,
    the call ending with the wrapped [KeyError]. *)
Theorem process_json_request_body (input_file output_file format_list : pyval)
    (parameters : list (string * string)) (connection : gmap string pyval)
    (locale : pyval) (resource : string) (formats : list pyval)
    (url : pyval) (m : string) (w : World) :
  process_json_validate input_file format_list = Ok formats ->
  output_known input_file output_file ->
  connection !! "url_file" = Some url ->
  connection !! "url_method" = Some (VStr m) ->
  In m _FORMATS_METHODS_REQUEST ->
  let tmp_dir := mkdtemp (trace w) in
  let run := process_json input_file output_file format_list parameters
               connection locale resource in
  let request DATA :=
    Request (VStr m) url DATA
      (default (VDict []) (connection !! "url_header"))
      (default (VDict []) (connection !! "url_params")) in
  (connection !! "url_data_post" = None ->
   extends run w [EMkdtemp tmp_dir; EHttp (request (VDict []))]) /\
  (forall p data,
     connection !! "url_data_post" = Some p ->
     connection !! "url_data" = Some data ->
     extends run w [EMkdtemp tmp_dir; EHttp (request data)]) /\
  (forall p,
     connection !! "url_data_post" = Some p ->
     connection !! "url_data" = None ->
     run w = (Raise (Exn NameError "Error: Error request: 'url_data'"),
              log (ERmtree tmp_dir) (log (EMkdtemp tmp_dir) w))).
Proof.
  intros Hv Hout Hu Hm Hin tmp_dir run request.
  split; [|split].
  - intros Hp.
    apply (process_json_sends _ _ _ _ _ _ _ formats url m (VDict []) w
             Hv Hout Hu Hm Hin).
    left. by split.
  - intros p data Hp Hd.
    apply (process_json_sends _ _ _ _ _ _ _ formats url m data w
             Hv Hout Hu Hm Hin).
    right. split; [by rewrite Hp|trivial].
  - intros p Hp Hd.
    apply (process_json_sources_raise _ _ _ _ _ _ _ formats w _
             (Exn NameError "Error request: 'url_data'") Hv Hout).
    + apply map_size_ne_0_lookup. exists "url_file". by rewrite Hu.
    + intros c. rewrite (process_json_sources_url _ _ _ _ _ Hu).
      unfold process_json_fetch.
      rewrite try_except_eq, bind_eq. unfold py_getitem at 1. rewrite Hm.
      unfold ret at 1. cbv beta iota.
      assert (Hal : in_str_tuple _FORMATS_METHODS_REQUEST (VStr m) = true).
      { apply in_str_tuple_spec. eauto. }
      rewrite Hal. simpl negb. cbv iota.
      rewrite bind_eq. unfold ret at 1. cbv beta iota.
      rewrite bind_eq, getitem_if_same. cbv beta iota.
      rewrite bind_eq. unfold getitem_if, py_getitem. rewrite Hp, Hd.
      reflexivity.
Qed.

End ProcessJson.

(** * The properties at concrete inputs *)

(** C2 at concrete inputs: ['doc'] is outside the enum, a tuple is not a
    list, and [['pdf', 'xls']] passes. *)
Lemma process_format_validation_witness :
  py_truthy (VStr "/a/r.jasper") = true /\
  @process quiet (VStr "/a/r.jasper") (VBool false)
    (VList [VStr "pdf"; VStr "doc"]) [] ∅ (VStr "pt_BR") EmptyString w0
  = (Raise (Exn NameError "Invalid format!"), w0) /\
  process_validate (VStr "/a/r.jasper") (VList [VStr "pdf"; VStr "xls"])
  = Ok [VStr "pdf"; VStr "xls"] /\
  @process quiet (VStr "/a/r.jasper") (VBool false) (VTuple [VStr "pdf"]) []
    ∅ (VStr "pt_BR") EmptyString w0
  = (Raise (Exn NameError "'format_list' value is not list!"), w0).
Proof.
  split; [reflexivity|]. split; [|split].
  - apply (proj1 (proj1 (@process_format_validation quiet (VStr "/a/r.jasper")
                           (VBool false) (VList [VStr "pdf"; VStr "doc"]) []
                           ∅ (VStr "pt_BR") EmptyString w0 eq_refl) _ eq_refl)).
    right. left. intros (s & [= <-] & Hin). simpl in Hin.
    repeat (destruct Hin as [Hin|Hin]; [discriminate Hin|]). exact Hin.
  - apply (proj2 (proj1 (@process_format_validation quiet (VStr "/a/r.jasper")
                           (VBool false) (VList [VStr "pdf"; VStr "xls"]) []
                           ∅ (VStr "pt_BR") EmptyString w0 eq_refl) _ eq_refl)).
    repeat constructor; eexists; (split; [reflexivity|]); simpl; tauto.
  - apply (proj2 (@process_format_validation quiet (VStr "/a/r.jasper")
                    (VBool false) (VTuple [VStr "pdf"]) [] ∅ (VStr "pt_BR")
                    EmptyString w0 eq_refl)).
    intros l. discriminate.
Defined.

(** C2 as stated fails on the empty list: it passes the validation, and
    with an engine that never fails [process] fills, exports nothing and
    returns 0. *)
Lemma process_empty_format_list_counterexample :
  process_validate (VStr "/a/r.jasper") (VList []) = Ok [] /\
  exists config,
    @process quiet (VStr "/a/r.jasper") (VBool false) (VList []) [] ∅
      (VStr "pt_BR") EmptyString w0
    = (Ok 0,
       {| sys_in := Original 0; sys_out := Original 1;
          trace := [EClasspathAdd (JFile (VStr (@JDBC_FILE quiet)));
                    EReportNew config;
                    ESetOut (PrintStreamOver 2); EFill;
                    EFlush (PrintStreamOver 2);
                    ESetIn (Original 0); ESetOut (Original 1)] |}).
Proof.
  split; [reflexivity|]. eexists. vm_compute. reflexivity.
Qed.

(** C7 at concrete inputs: the port ['not-a-number'] and the port
    ['5432']. *)
Lemma process_port_parsed_witness :
  let bad := conn [("driver", VStr "postgres"); ("port", VStr "not-a-number")] in
  let good := conn [("driver", VStr "postgres"); ("port", VStr "5432")] in
  (bad !! "port" = Some (VStr "not-a-number") /\
   @process quiet (VStr "/a/r.jasper") (VBool false) (VList [VStr "pdf"]) []
     bad (VStr "pt_BR") EmptyString w0
   = (Raise (Exn NameError
               "Error: invalid literal for int() with base 10: 'not-a-number'"),
      w0)) /\
  (good !! "port" = Some (VStr "5432") /\
   exists config,
     @process_config quiet (VStr "/a/r.jasper") (VBool false) [VStr "pdf"] []
       good (VStr "pt_BR") w0 = (Ok config, w0)
     /\ config !! "DbPort" = Some (JInt 5432)).
Proof.
  intros bad good. split; (split; [reflexivity|]).
  - destruct (proj1 (@process_port_parsed quiet (VStr "/a/r.jasper")
                       (VBool false) (VList [VStr "pdf"]) [] bad (VStr "pt_BR")
                       EmptyString (VStr "not-a-number") w0 eq_refl)
                _ eq_refl) as (msg & Hrun & Hmsg).
    rewrite Hrun, (Hmsg [VStr "pdf"] eq_refl).
    + reflexivity.
    + right. by eexists.
  - destruct (proj2 (@process_port_parsed quiet (VStr "/a/r.jasper")
                       (VBool false) (VList [VStr "pdf"]) [] good (VStr "pt_BR")
                       EmptyString (VStr "5432") w0 eq_refl)
                5432 [VStr "pdf"] eq_refl eq_refl)
      as (config & Hc & Hp & _).
    + right. by eexists.
    + exists config. by split.
Defined.

(** C6 at concrete inputs: a connection with a driver only, and the empty
    connection. *)
Lemma process_json_missing_source_witness :
  let only_driver := conn [("driver", VStr "jsonql")] in
  let tmp_dir := @mkdtemp quiet (trace w0) in
  process_json_validate (VStr "/a/r.jrxml") (VList [VStr "pdf"])
  = Ok [VStr "pdf"] /\
  output_known (VStr "/a/r.jrxml") (VBool false) /\
  (only_driver <> ∅ /\
   only_driver !! "data_file" = None /\
   only_driver !! "url_file" = None /\
   @process_json quiet (VStr "/a/r.jrxml") (VBool false) (VList [VStr "pdf"])
     [] only_driver (VBool false) EmptyString w0
   = (Raise (Exn NameError "Error: No data sources were reported"),
      log (ERmtree tmp_dir) (log (EMkdtemp tmp_dir) w0))) /\
  exists ev rest,
    engine_event ev = true /\
    trace (@process_json quiet (VStr "/a/r.jrxml") (VBool false)
             (VList [VStr "pdf"]) [] ∅ (VBool false) EmptyString w0).2
    = trace w0 ++ EMkdtemp tmp_dir :: ev :: rest.
Proof.
  intros only_driver tmp_dir.
  assert (Hout : output_known (VStr "/a/r.jrxml") (VBool false)).
  { right. by eexists. }
  assert (Hne : only_driver <> ∅).
  { intros H. apply (f_equal (fun m => m !! "driver")) in H.
    vm_compute in H. discriminate H. }
  split; [reflexivity|]. split; [exact Hout|]. split.
  - split; [exact Hne|]. split; [reflexivity|]. split; [reflexivity|].
    apply (proj1 (@process_json_missing_source quiet (VStr "/a/r.jrxml")
                    (VBool false) (VList [VStr "pdf"]) [] only_driver
                    (VBool false) EmptyString [VStr "pdf"] w0 eq_refl Hout));
      [exact Hne|reflexivity|reflexivity].
  - apply (proj2 (@process_json_missing_source quiet (VStr "/a/r.jrxml")
                    (VBool false) (VList [VStr "pdf"]) [] ∅
                    (VBool false) EmptyString [VStr "pdf"] w0 eq_refl Hout)).
    reflexivity.
Defined.

(** C1 at concrete inputs: [['pdf']] passes, [['xls']] does not. *)
Lemma process_json_format_validation_witness :
  let tmp_dir := @mkdtemp quiet (trace w0) in
  py_truthy (VStr "/a/r.jrxml") = true /\
  process_json_validate (VStr "/a/r.jrxml") (VList [VStr "pdf"])
  = Ok [VStr "pdf"] /\
  @process_json quiet (VStr "/a/r.jrxml") (VBool false) (VList [VStr "xls"])
    [] ∅ (VBool false) EmptyString w0
  = (Raise (Exn NameError "Invalid format output!"),
     log (ERmtree tmp_dir) (log (EMkdtemp tmp_dir) w0)).
Proof.
  intros tmp_dir. split; [reflexivity|]. split.
  - apply (proj1 (@process_json_format_validation quiet (VStr "/a/r.jrxml")
                    (VBool false) (VList [VStr "pdf"]) [] ∅ (VBool false)
                    EmptyString w0 eq_refl _ eq_refl)).
    by repeat constructor.
  - apply (proj2 (@process_json_format_validation quiet (VStr "/a/r.jrxml")
                    (VBool false) (VList [VStr "xls"]) [] ∅ (VBool false)
                    EmptyString w0 eq_refl _ eq_refl)).
    + repeat constructor. by eexists.
    + left. eexists. split; reflexivity.
Defined.

(** C1 as stated fails: the empty list and [['pdf', 'pdf']] pass the
    validation although neither is the list [['pdf']], and with the empty
    list, the driver ['jsonql'] and an engine that never fails the call
    fills, exports and returns 0. *)
Lemma process_json_format_list_counterexample :
  process_json_validate (VStr "/a/r.jrxml") (VList []) = Ok [] /\
  process_json_validate (VStr "/a/r.jrxml") (VList [VStr "pdf"; VStr "pdf"])
  = Ok [VStr "pdf"; VStr "pdf"] /\
  let run := @process_json quiet (VStr "/a/r.jrxml") (VBool false) (VList [])
               [] (conn [("driver", VStr "jsonql");
                         ("data_file", VStr "/a/d.json")])
               (VBool false) EmptyString w0 in
  run.1 = Ok 0 /\
  In (EFillReport "/a/r.jasper") (trace run.2) /\
  In (EExportReportToPdfFile (VStr "/a/r.pdf")) (trace run.2).
Proof.
  split; [reflexivity|]. split; [reflexivity|].
  vm_compute. split; [reflexivity|]. split.
  - do 6 right. left. reflexivity.
  - do 7 right. left. reflexivity.
Qed.

(** The comma missing from [_FORMATS_JSON]: strings that merely occur
    inside ['pdf'] pass the validation of [process_json] as well. *)
Example process_json_validate_substrings :
  process_json_validate (VStr "/a/r.jrxml")
    (VList [VStr "pd"; VStr "f"; VStr EmptyString])
  = Ok [VStr "pd"; VStr "f"; VStr EmptyString].
Proof. reflexivity. Qed.

(** C4 at concrete inputs: the driver ['json']. *)
Lemma process_json_db_type_resolved_witness :
  let connection := conn [("driver", VStr "json");
                          ("data_file", VStr "/a/d.json")] in
  exists config file_out out w',
    @process_json_prepare quiet "/tmp/tmpk3v9x2aa" (VStr "/a/r.jrxml")
      (VBool false) [VStr "pdf"] [] connection (VBool false) EmptyString w0
    = (Ok (config, file_out, out), w')
    /\ connection !! "driver" = Some (VStr "json")
    /\ getDbType config = Some (JDs json).
Proof.
  intros connection.
  destruct (@process_json_prepare quiet "/tmp/tmpk3v9x2aa" (VStr "/a/r.jrxml")
              (VBool false) [VStr "pdf"] [] connection (VBool false)
              EmptyString w0) as [[[[config file_out] out]|e] w'] eqn:E.
  - exists config, file_out, out, w'. split; [reflexivity|].
    split; [reflexivity|].
    apply (proj1 (@process_json_db_type_resolved quiet _ _ _ _ _ _ _ _ _ _ _
                    _ _ E)).
    reflexivity.
  - exfalso. vm_compute in E. discriminate E.
Defined.

(** C4 as stated fails on the driver ['postgres']: the prepared
    configuration has no data-source type at all, so not the [none]
    constant either. *)
Lemma process_json_other_driver_counterexample :
  exists config file_out out w',
    @process_json_prepare quiet "/tmp/tmpk3v9x2aa" (VStr "/a/r.jrxml")
      (VBool false) [VStr "pdf"] []
      (conn [("driver", VStr "postgres"); ("data_file", VStr "/a/d.json")])
      (VBool false) EmptyString w0
    = (Ok (config, file_out, out), w')
    /\ getDbType config = None
    /\ getDbType config <> Some (JDs none).
Proof.
  do 4 eexists. split; [vm_compute; reflexivity|].
  split; [reflexivity|discriminate].
Qed.


(** C10 at concrete inputs: a connection with ['url_data'] only, one with
    both keys, and one with ['url_data_post'] only. *)
Lemma process_json_request_body_witness :
  let base := [("driver", VStr "jsonql"); ("url_file", VStr "http://h/d");
               ("url_method", VStr "POST")] in
  let only_data := conn (("url_data", VStr "payload") :: base) in
  let both := conn (("url_data_post", VBool true)
                    :: ("url_data", VStr "payload") :: base) in
  let only_flag := conn (("url_data_post", VBool true) :: base) in
  let tmp_dir := "/tmp/tmpk3v9x2aa" in
  let run c := @process_json quiet (VStr "/a/r.jrxml") (VBool false)
                 (VList [VStr "pdf"]) [] c (VBool false) EmptyString in
  let request DATA := Request (VStr "POST") (VStr "http://h/d") DATA
                        (VDict []) (VDict []) in
  process_json_validate (VStr "/a/r.jrxml") (VList [VStr "pdf"])
  = Ok [VStr "pdf"] /\
  output_known (VStr "/a/r.jrxml") (VBool false) /\
  In "POST" _FORMATS_METHODS_REQUEST /\
  (only_data !! "url_data_post" = None /\
   extends (run only_data) w0 [EMkdtemp tmp_dir; EHttp (request (VDict []))]) /\
  (both !! "url_data_post" = Some (VBool true) /\
   both !! "url_data" = Some (VStr "payload") /\
   extends (run both) w0 [EMkdtemp tmp_dir; EHttp (request (VStr "payload"))]) /\
  (only_flag !! "url_data_post" = Some (VBool true) /\
   only_flag !! "url_data" = None /\
   run only_flag w0
   = (Raise (Exn NameError "Error: Error request: 'url_data'"),
      log (ERmtree tmp_dir) (log (EMkdtemp tmp_dir) w0))).
Proof.
  intros base only_data both only_flag tmp_dir run request.
  assert (Hout : output_known (VStr "/a/r.jrxml") (VBool false)).
  { right. by eexists. }
  assert (Hin : In "POST" _FORMATS_METHODS_REQUEST) by (simpl; tauto).
  split; [reflexivity|]. split; [exact Hout|]. split; [exact Hin|].
  split; [|split].
  - split; [reflexivity|].
    apply (proj1 (@process_json_request_body quiet (VStr "/a/r.jrxml")
                    (VBool false) (VList [VStr "pdf"]) [] only_data
                    (VBool false) EmptyString [VStr "pdf"] (VStr "http://h/d")
                    "POST" w0 eq_refl Hout eq_refl eq_refl Hin)).
    reflexivity.
  - split; [reflexivity|]. split; [reflexivity|].
    apply (proj1 (proj2 (@process_json_request_body quiet (VStr "/a/r.jrxml")
                           (VBool false) (VList [VStr "pdf"]) [] both
                           (VBool false) EmptyString [VStr "pdf"]
                           (VStr "http://h/d") "POST" w0 eq_refl Hout eq_refl
                           eq_refl Hin))
             (VBool true) (VStr "payload")); reflexivity.
  - split; [reflexivity|]. split; [reflexivity|].
    apply (proj2 (proj2 (@process_json_request_body quiet (VStr "/a/r.jrxml")
                           (VBool false) (VList [VStr "pdf"]) [] only_flag
                           (VBool false) EmptyString [VStr "pdf"]
                           (VStr "http://h/d") "POST" w0 eq_refl Hout eq_refl
                           eq_refl Hin))
             (VBool true)); reflexivity.
Defined.

(** [process] when an export fails: the engine rejects [exportXls], the
    call raises the wrapped error, and the streams are flushed and set
    back all the same. *)
Example process_export_failure :
  let rt := sample_runtime
              (fun ev => match ev with
                         | EExport "exportXls" => Some "disk full"
                         | _ => None
                         end)
              (Ok (Response 200 (Ok (VDict [])))) in
  let run := @process rt (VStr "/a/r.jasper") (VBool false)
               (VList [VStr "pdf"; VStr "xls"; VStr "csv"]) [] ∅
               (VStr "pt_BR") EmptyString w0 in
  run.1 = Raise (Exn NameError "Error: disk full") /\
  sys_in run.2 = Original 0 /\ sys_out run.2 = Original 1 /\
  drop 2 (trace run.2)
  = [ESetOut (PrintStreamOver 2); EFill; EExport "exportPdf";
     EExport "exportXls"; EFlush (PrintStreamOver 2); ESetIn (Original 0);
     ESetOut (Original 1)].
Proof. vm_compute. repeat split. Qed.

(** [process_json] with an explicit [output_file]: [file_out] is bound
    only on the branch that derives the names from the input file, so with
    the driver ['jsonql'] the fill block stops on the unbound variable
    before [fillReport] is called. *)
Example process_json_explicit_output :
  let run := @process_json quiet (VStr "/a/r.jrxml") (VStr "/out/r.pdf")
               (VList [VStr "pdf"]) []
               (conn [("driver", VStr "jsonql");
                      ("data_file", VStr "/a/d.json")])
               (VBool false) EmptyString w0 in
  run.1 = Raise (Exn NameError
                   ("Error: Error: " +:+ @unbound_local_msg quiet "file_out"))
  /\ Forall not_fill (trace run.2).
Proof.
  vm_compute. split; [reflexivity|]. repeat constructor.
Qed.

(** * Further properties of the driver *)

Section Appends.
Context `{RT : Runtime}.
Context {A B : Type} (P : event -> Prop).

Lemma appends_nothing (m : M A) :
  (forall w, (m w).2 = w) -> appends P m.
Proof.
  intros Hm w. rewrite Hm. exists []. by rewrite app_nil_r.
Qed.

Lemma appends_bind (m : M A) (k : A -> M B) :
  appends P m -> (forall w a w', m w = (Ok a, w') -> appends P (k a)) ->
  appends P (bind m k).
Proof.
  intros Hm Hk w. rewrite bind_eq.
  destruct (Hm w) as (evs & Ht & Hp).
  destruct (m w) as [[a|e] w1] eqn:E; simpl in *; [|by exists evs].
  destruct (Hk w a w1 E w1) as (evs' & Ht' & Hp').
  exists (evs ++ evs'). rewrite Ht', Ht, app_assoc. split; trivial.
  by apply Forall_app.
Qed.

Lemma appends_try_except (m : M A) (h : pyexn -> M A) :
  appends P m -> (forall e, appends P (h e)) -> appends P (try_except m h).
Proof.
  intros Hm Hh w. rewrite try_except_eq.
  destruct (Hm w) as (evs & Ht & Hp).
  destruct (m w) as [[a|e] w1]; simpl in *; [by exists evs|].
  destruct (Hh e w1) as (evs' & Ht' & Hp').
  exists (evs ++ evs'). rewrite Ht', Ht, app_assoc. split; trivial.
  by apply Forall_app.
Qed.

Lemma appends_try_finally (m : M A) (f : M unit) :
  appends P m -> appends P f -> appends P (try_finally m f).
Proof.
  intros Hm Hf w. unfold try_finally.
  destruct (Hm w) as (evs & Ht & Hp).
  destruct (m w) as [r w1]; simpl in *.
  destruct (Hf w1) as (evs' & Ht' & Hp').
  destruct (f w1) as [[u|e] w2]; simpl in *;
    exists (evs ++ evs'); rewrite Ht', Ht, app_assoc; split; trivial;
    by apply Forall_app.
Qed.

Lemma appends_one (ev : event) (m : M A) :
  P ev -> (forall w, trace (m w).2 = trace w ++ [ev]) -> appends P m.
Proof.
  intros Hev Hm w. exists [ev]. split; [apply Hm|]. by constructor.
Qed.

Lemma appends_jcall (ev : event) : P ev -> appends P (jcall ev).
Proof.
  intros Hev w. exists [ev]. split; [|by constructor].
  unfold jcall. by destruct (engine_raises (trace w) ev).
Qed.

Lemma appends_for_each (f : A -> M unit) (l : list A) :
  (forall x, appends P (f x)) -> appends P (for_each f l).
Proof.
  intros Hf. induction l as [|x xs IH]; simpl.
  - intros w. exists []. by rewrite app_nil_r.
  - intros w. rewrite bind_eq.
    destruct (Hf x w) as (evs & Ht & Hp).
    destruct (f x w) as [[u|e] w1]; simpl in *; [|by exists evs].
    destruct (IH w1) as (evs' & Ht' & Hp').
    exists (evs ++ evs'). rewrite Ht', Ht, app_assoc. split; trivial.
    by apply Forall_app.
Qed.

End Appends.



(** [appends] goals follow the shape of the code; what is left are the
    conditions on the single events. *)
Ltac appends_step :=
  first
    [ apply appends_bind; [|intros ? ? ? _]
    | apply appends_try_except; [|intros ?]
    | apply appends_try_finally
    | apply appends_for_each; intros ?
    | apply appends_jcall
    | apply appends_nothing; intros ?; reflexivity
    | match goal with
      | |- appends _ (if ?b then _ else _) => destruct b
      | |- appends _ (match ?x with _ => _ end) => destruct x
      end ].

Section ProcessMore.
Context `{RT : Runtime}.

Lemma process_validate_ok (input_file format_list : pyval) (l : list pyval) :
  process_validate input_file format_list = Ok l ->
  py_truthy input_file = true /\ format_list = VList l /\ Forall in_FORMATS l.
Proof.
  unfold process_validate.
  destruct (py_truthy input_file); simpl; [|discriminate].
  destruct format_list; try discriminate.
  destruct (py_any _) eqn:E; [discriminate|]. intros [= <-].
  repeat split. apply py_any_map_false in E.
  eapply Forall_impl; [exact E|]. intros key Hk; simpl in Hk.
  apply in_str_tuple_spec. by apply negb_false_iff.
Qed.

Lemma export_method_FORMATS (s : string) :
  In s _FORMATS <-> exists m, export_method s = Some m.
Proof.
  split.
  - intros Hin. simpl in Hin.
    repeat (destruct Hin as [<-|Hin]; [eexists; reflexivity|]).
    destruct Hin.
  - intros [m Hm]. revert Hm. unfold export_method, EXPORT_METHODS, _FORMATS.
    simpl.
    repeat match goal with
           | |- context [String.eqb s ?x] =>
               destruct (String.eqb_spec s x) as [->|_];
               [intros _; simpl; tauto|]
           end.
    discriminate.
Qed.

Lemma in_FORMATS_exports (key : pyval) :
  in_FORMATS key -> exists s m, key = VStr s /\ export_method s = Some m.
Proof.
  intros (s & -> & Hin). apply export_method_FORMATS in Hin.
  destruct Hin as [m Hm]. eauto.
Qed.

Lemma jcall_eq (ev : event) (w : World) :
  jcall ev w = (match engine_raises (trace w) ev with
                | None => Ok tt
                | Some msg => Raise (Exn RuntimeError msg)
                end, log ev w).
Proof. unfold jcall. by destruct (engine_raises (trace w) ev). Qed.

(** The export loop on a validated list: the exports called are those of
    a prefix of the list, in its order; the loop ends normally only after
    the whole list, and otherwise on the export the engine rejected, which
    is the last one called. *)
Lemma for_each_process_export (formats : list pyval) (w : World) :
  Forall in_FORMATS formats ->
  exists ms,
    Forall2 exports (take (length ms) formats) ms /\
    (for_each process_export formats w).2
    = {| sys_in := sys_in w; sys_out := sys_out w;
         trace := trace w ++ map EExport ms |} /\
    match (for_each process_export formats w).1 with
    | Ok _ => length ms = length formats
    | Raise e =>
        exists ms' m,
          ms = ms' ++ [m] /\
          engine_raises (trace w ++ map EExport ms') (EExport m)
          = Some (py_str e) /\
          exn_class_of e = RuntimeError
    end.
Proof.
  intros Hf. revert w. induction Hf as [|key formats Hkey Hf IH]; intros w.
  - exists []. simpl. rewrite app_nil_r. repeat split; [constructor|].
    by destruct w.
  - destruct (in_FORMATS_exports key Hkey) as (s & m & -> & Hm).
    assert (Hpe : process_export (VStr s) w = jcall (EExport m) w).
    { unfold process_export. by rewrite Hm. }
    change (for_each process_export (VStr s :: formats))
      with (process_export (VStr s) ;; for_each process_export formats).
    rewrite bind_eq, Hpe, jcall_eq.
    destruct (engine_raises (trace w) (EExport m)) as [msg|] eqn:E.
    + exists [m]. simpl. repeat split.
      * constructor; [|constructor]. exists s. by split.
      * exists [], m. simpl. rewrite app_nil_r. by repeat split.
    + cbv beta iota.
      destruct (IH (log (EExport m) w)) as (ms & H2 & Hw & Hr).
      destruct (for_each process_export formats (log (EExport m) w))
        as [r w2].
      simpl fst in *. simpl snd in *. subst w2.
      exists (m :: ms). split; [|split].
      * simpl. constructor; [|exact H2]. exists s. by split.
      * simpl. by rewrite <- app_assoc.
      * destruct r as [u|e]; [simpl; by rewrite Hr|].
        destruct Hr as (ms' & m' & -> & He & Hc).
        exists (m :: ms'), m'. repeat split; trivial.
        simpl in He |- *. by rewrite <- app_assoc in He.
Qed.

(** X4.  The two tables of [process] agree: a string is in [_FORMATS]
    exactly when the export chain has a method for it, so on a list that
    passed the validation the branch that raises "not implemented" is never
    taken, and the only exception of the export loop is the engine's. *)
Theorem process_export_chain_total (formats : list pyval) (w : World) :
  (forall s, In s _FORMATS <-> exists m, export_method s = Some m) /\
  (Forall in_FORMATS formats ->
   forall e w', for_each process_export formats w = (Raise e, w') ->
                exn_class_of e = RuntimeError).
Proof.
  split; [apply export_method_FORMATS|].
  intros Hf e w' Hrun.
  destruct (for_each_process_export formats w Hf) as (ms & _ & _ & Hr).
  rewrite Hrun in Hr. simpl in Hr. by destruct Hr as (? & ? & _ & _ & Hc).
Qed.

(** The fill+export block with its [finally], on a validated list. *)
Lemma process_phase_exports (tmpStdout : nat) (formats : list pyval)
    (w : World) :
  Forall in_FORMATS formats ->
  exists ms r,
    try_finally (process_fill_export tmpStdout formats)
      (process_restore (sys_in w) (sys_out w)) w
    = (r, {| sys_in := sys_in w; sys_out := sys_out w;
             trace := trace w
                      ++ [ESetOut (PrintStreamOver tmpStdout); EFill]
                      ++ map EExport ms
                      ++ [EFlush (PrintStreamOver tmpStdout);
                          ESetIn (sys_in w); ESetOut (sys_out w)] |}) /\
    Forall2 exports (take (length ms) formats) ms /\
    (forall u, r = Ok u -> length ms = length formats).
Proof.
  intros Hf. unfold try_finally, process_fill_export.
  rewrite bind_eq. unfold setOut at 1.
  set (w1 := log (ESetOut (PrintStreamOver tmpStdout))
               {| sys_in := sys_in w; sys_out := PrintStreamOver tmpStdout;
                  trace := trace w |}).
  cbv beta iota. rewrite bind_eq, jcall_eq.
  destruct (engine_raises (trace w1) EFill) as [msg|].
  - exists [], (Raise (Exn RuntimeError msg)). split; [|split].
    + unfold process_restore, bind, flush_out, setIn, setOut, log, w1; simpl.
      by rewrite <- !app_assoc.
    + constructor.
    + discriminate.
  - destruct (for_each_process_export formats (log EFill w1) Hf)
      as (ms & H2 & Hw & Hr).
    destruct (for_each process_export formats (log EFill w1)) as [r w2].
    simpl in Hw, Hr. subst w2.
    exists ms, r. split; [|split; [exact H2|]].
    + unfold process_restore, bind, flush_out, setIn, setOut, log, w1; simpl.
      by rewrite <- !app_assoc.
    + intros u ->. exact Hr.
Qed.

Lemma process_run_exports (config : Config) (formats : list pyval)
    (w : World) :
  Forall in_FORMATS formats ->
  exists r w' phase,
    process_run config formats w = (r, w') /\
    trace w' = trace w ++ EReportNew config :: phase /\
    ((phase = [] /\ forall u, r <> Ok u) \/
     exists n ms,
       phase = [ESetOut (PrintStreamOver n); EFill] ++ map EExport ms
               ++ [EFlush (PrintStreamOver n); ESetIn (sys_in w);
                   ESetOut (sys_out w)]
       /\ Forall2 exports (take (length ms) formats) ms
       /\ (forall u, r = Ok u -> length ms = length formats)).
Proof.
  intros Hf. unfold process_run. rewrite bind_eq, jcall_eq.
  destruct (engine_raises (trace w) (EReportNew config)) as [msg|].
  - do 2 eexists. exists []. split; [reflexivity|]. split; [reflexivity|].
    left. split; [trivial|discriminate].
  - set (w1 := log (EReportNew config) w).
    destruct (process_phase_exports (length (trace w1)) formats w1 Hf)
      as (ms & r & Hrun & H2 & Hr).
    match goal with
    | |- context [(bind get_in ?k) w1] =>
        change (bind get_in k w1)
          with (try_finally (process_fill_export (length (trace w1)) formats)
                  (process_restore (sys_in w1) (sys_out w1)) w1)
    end.
    rewrite Hrun. do 3 eexists. split; [reflexivity|]. split.
    + simpl. rewrite <- app_assoc. reflexivity.
    + right. exists (length (trace w1)), ms. repeat split; trivial.
Qed.

(** What a run of [process] leaves on the trace, for a list argument. *)
Lemma process_trace_exports (input_file output_file : pyval)
    (formats : list pyval) (parameters : list (string * string))
    (db_connection : gmap string pyval) (locale : pyval) (resource : string)
    (w : World) :
  let rw := process input_file output_file (VList formats) parameters
              db_connection locale resource w in
  exists pre phase,
    trace rw.2 = trace w ++ pre ++ phase /\
    Forall quiet_event pre /\
    ((phase = [] /\ forall z, rw.1 <> Ok z) \/
     exists n ms,
       phase = [ESetOut (PrintStreamOver n); EFill] ++ map EExport ms
               ++ [EFlush (PrintStreamOver n); ESetIn (sys_in w);
                   ESetOut (sys_out w)]
       /\ Forall2 exports (take (length ms) formats) ms
       /\ (forall z, rw.1 = Ok z -> z = 0 /\ length ms = length formats)).
Proof.
  cbv zeta. unfold process. rewrite bind_eq. unfold lift.
  destruct (process_validate input_file (VList formats)) as [l|e] eqn:Hv.
  2:{ exists [], []. rewrite !app_nil_r.
      split; [reflexivity|]. split; [constructor|].
      left. split; [trivial|discriminate]. }
  destruct (process_validate_ok _ _ _ Hv) as (_ & [= <-] & Hf).
  rewrite try_except_eq, bind_eq.
  destruct (logs_process_config input_file output_file formats parameters
              db_connection locale w) as (Hi1 & Ho1 & ev1 & Ht1 & Hp1).
  destruct (process_config input_file output_file formats parameters
              db_connection locale w) as [[config|e] w1]; simpl in *.
  2:{ exists ev1, []. rewrite app_nil_r.
      split; [exact Ht1|]. split; [exact Hp1|].
      left. split; [trivial|discriminate]. }
  rewrite bind_eq.
  destruct (logs_process_classpath resource w1) as (Hi2 & Ho2 & ev2 & Ht2 & Hp2).
  destruct (process_classpath resource w1) as [[u|e] w2]; simpl in *.
  2:{ exists (ev1 ++ ev2), []. rewrite app_nil_r, Ht2, Ht1, app_assoc.
      split; [reflexivity|]. split; [by apply Forall_app|].
      left. split; [trivial|discriminate]. }
  rewrite bind_eq.
  destruct (process_run_exports config formats w2 Hf)
    as (r & w3 & phase & Hrun & Ht3 & Hph).
  rewrite Hrun. destruct r as [u'|e]; simpl in *.
  - exists (ev1 ++ ev2 ++ [EReportNew config]), phase.
    rewrite Ht3, Ht2, Ht1. split; [by rewrite <- !app_assoc|]. split.
    + apply Forall_app; split; [exact Hp1|].
      apply Forall_app; split; [exact Hp2|].
      constructor; [split; reflexivity|constructor].
    + destruct Hph as [[_ Hno]|(n & ms & -> & H2 & Hr)];
        [by destruct (Hno u')|].
      right. exists n, ms. rewrite Hi2, Hi1, Ho2, Ho1.
      split; [reflexivity|]. split; [exact H2|].
      intros z0 [= <-]. split; [reflexivity|by apply (Hr u')].
  - exists (ev1 ++ ev2 ++ [EReportNew config]), phase.
    rewrite Ht3, Ht2, Ht1. split; [by rewrite <- !app_assoc|]. split.
    + apply Forall_app; split; [exact Hp1|].
      apply Forall_app; split; [exact Hp2|].
      constructor; [split; reflexivity|constructor].
    + destruct Hph as [[-> _]|(n & ms & -> & H2 & Hr)].
      * left. split; [trivial|discriminate].
      * right. exists n, ms. rewrite Hi2, Hi1, Ho2, Ho1.
        split; [reflexivity|]. split; [exact H2|]. discriminate.
Qed.

(** X2.  [process] returns only 0, and only after the fill and after the
    export of every format of the list, called in the order of the list,
    each through the method of its format (a format listed twice is
    exported twice). *)
Theorem process_success_exports_all (input_file output_file format_list : pyval)
    (parameters : list (string * string)) (db_connection : gmap string pyval)
    (locale : pyval) (resource : string) (z : Z) (w w' : World) :
  process input_file output_file format_list parameters db_connection locale
    resource w = (Ok z, w') ->
  z = 0 /\
  exists formats pre n ms,
    format_list = VList formats /\
    Forall2 exports formats ms /\
    Forall quiet_event pre /\
    trace w' = trace w ++ pre
               ++ [ESetOut (PrintStreamOver n); EFill] ++ map EExport ms
               ++ [EFlush (PrintStreamOver n); ESetIn (sys_in w);
                   ESetOut (sys_out w)].
Proof.
  intros Hrun.
  assert (Hl : exists formats, format_list = VList formats).
  { revert Hrun. unfold process. rewrite bind_eq. unfold lift.
    destruct (process_validate input_file format_list) as [l|e] eqn:Hv;
      [|discriminate].
    intros _. destruct (process_validate_ok _ _ _ Hv) as (_ & -> & _).
    by eexists. }
  destruct Hl as [formats ->].
  destruct (process_trace_exports input_file output_file formats parameters
              db_connection locale resource w) as (pre & phase & Ht & Hp & Hph).
  rewrite Hrun in Ht, Hph. simpl in Ht, Hph.
  destruct Hph as [[_ Hno]|(n & ms & -> & H2 & Hr)]; [by destruct (Hno z)|].
  destruct (Hr z eq_refl) as [-> Hlen]. split; trivial.
  exists formats, pre, n, ms. repeat split; trivial.
  rewrite Hlen, take_ge in H2; [exact H2|lia].
Qed.

(** X3.  In every run of [process] on a list, successful or not, the
    exports that were called are those of a prefix of the list, in the
    order of the list: no format is skipped, none is exported before an
    earlier one, and nothing is exported without the fill before it. *)
Theorem process_exports_in_order (input_file output_file : pyval)
    (formats : list pyval) (parameters : list (string * string))
    (db_connection : gmap string pyval) (locale : pyval) (resource : string)
    (w : World) :
  let w' := (process input_file output_file (VList formats) parameters
               db_connection locale resource w).2 in
  exists pre phase,
    trace w' = trace w ++ pre ++ phase /\
    Forall quiet_event pre /\
    (phase = [] \/
     exists n ms,
       phase = [ESetOut (PrintStreamOver n); EFill] ++ map EExport ms
               ++ [EFlush (PrintStreamOver n); ESetIn (sys_in w);
                   ESetOut (sys_out w)]
       /\ Forall2 exports (take (length ms) formats) ms).
Proof.
  destruct (process_trace_exports input_file output_file formats parameters
              db_connection locale resource w) as (pre & phase & Ht & Hp & Hph).
  exists pre, phase. repeat split; trivial.
  destruct Hph as [[-> _]|(n & ms & -> & H2 & _)]; [by left|right; eauto].
Qed.

End ProcessMore.

Section ProcessConfig.
Context `{RT : Runtime}.

Lemma process_copy_fields_eq (conn : gmap string pyval) (c : Config)
    (w : World) :
  process_copy_fields conn c w
  = match conn !! "port" with
    | None => (Ok (copy_after_port conn (copy_before_port conn c)), w)
    | Some v =>
        match py_int v with
        | Ok z =>
            (Ok (copy_after_port conn (setDbPort z (copy_before_port conn c))),
             w)
        | Raise e => (Raise e, w)
        end
    end.
Proof.
  unfold process_copy_fields. rewrite bind_eq.
  destruct (conn !! "port") as [v|]; [|reflexivity].
  rewrite bind_eq. unfold lift. by destruct (py_int v).
Qed.

(** What a configuration built by [process] looks like. *)
Lemma process_config_shape input_file output_file formats parameters
    (conn : gmap string pyval) locale (w w' : World) (config : Config) :
  process_config input_file output_file formats parameters conn locale w
  = (Ok config, w') ->
  w' = w /\
  exists out,
    let c1 := process_db_type conn
                (base_config input_file out formats parameters locale) in
    (conn = ∅ /\ config = c1) \/
    (conn <> ∅ /\ conn !! "port" = None
     /\ config = copy_after_port conn (copy_before_port conn c1)) \/
    (conn <> ∅ /\
     exists v z, conn !! "port" = Some v /\ py_int v = Ok z
                 /\ config = copy_after_port conn
                               (setDbPort z (copy_before_port conn c1))).
Proof.
  unfold process_config. rewrite bind_eq.
  assert (Ho : exists out,
             (if py_truthy output_file
              then ret (jset "Output" (JPy output_file)
                          (jset "Locale" (JPy locale)
                             (setInput input_file jvConfig)))
              else let* d := py_dirname input_file in
                   ret (jset "Output" (JPy (VStr d))
                          (jset "Locale" (JPy locale)
                             (setInput input_file jvConfig)))) w
             = (Ok (jset "Output" (JPy out)
                      (jset "Locale" (JPy locale)
                         (setInput input_file jvConfig))), w)
             \/ exists e,
                 (if py_truthy output_file
                  then ret (jset "Output" (JPy output_file)
                              (jset "Locale" (JPy locale)
                                 (setInput input_file jvConfig)))
                  else let* d := py_dirname input_file in
                       ret (jset "Output" (JPy (VStr d))
                              (jset "Locale" (JPy locale)
                                 (setInput input_file jvConfig)))) w
                 = (Raise e, w)).
  { destruct (py_truthy output_file); [exists output_file; by left|].
    destruct input_file;
      try (exists VNone; right; eexists; reflexivity).
    eexists. left. reflexivity. }
  destruct Ho as [out [Ho|[e Ho]]]; rewrite Ho; [|discriminate].
  fold (base_config input_file out formats parameters locale).
  destruct (0 <? Z.of_nat (size conn)) eqn:Es.
  - rewrite process_copy_fields_eq.
    assert (Hne : conn <> ∅).
    { intros ->. rewrite map_size_empty in Es. discriminate. }
    destruct (conn !! "port") as [v|] eqn:Ep.
    + destruct (py_int v) as [z|e] eqn:Ez; [|discriminate].
      intros [= <- <-]. split; trivial. exists out. right. right.
      split; trivial. exists v, z. by repeat split.
    + intros [= <- <-]. split; trivial. exists out. right. left.
      by repeat split.
  - intros [= <- <-]. split; trivial. exists out. left. split; trivial.
    apply map_size_empty_iff. apply Z.ltb_ge in Es. lia.
Qed.

Lemma copy_field_lookup_eq (conn : gmap string pyval) key prop wrap
    (c : Config) :
  copy_field conn key prop wrap c !! prop
  = match conn !! key with
    | Some v => Some (wrap v)
    | None => c !! prop
    end.
Proof.
  unfold copy_field, jset.
  destruct (conn !! key); [by rewrite lookup_insert_eq|reflexivity].
Qed.

Lemma process_db_type_lookup_ne (conn : gmap string pyval) (c : Config)
    (p : string) :
  p <> "DbType" -> process_db_type conn c !! p = c !! p.
Proof.
  intros Hp. unfold process_db_type, setDbType, jset.
  destruct (conn !! "driver") as [d|]; [|by rewrite lookup_insert_ne].
  repeat match goal with
         | |- context [if ?b then _ else _] =>
             destruct b; [by rewrite lookup_insert_ne|]
         end.
  reflexivity.
Qed.

Lemma base_config_fresh input_file out formats parameters locale (p : string) :
  p <> "Input" -> p <> "Locale" -> p <> "Output" -> p <> "OutputFormats" ->
  p <> "Params" ->
  base_config input_file out formats parameters locale !! p = None.
Proof.
  intros. unfold base_config, set_params, setInput, jset, jvConfig.
  destruct parameters; by rewrite ?lookup_insert_ne by done.
Qed.

(** Lookups in a configuration built by [process]. *)
Ltac config_lookup :=
  unfold copy_after_port, copy_before_port, setDbPort, jset;
  rewrite ?copy_field_lookup_ne by done;
  rewrite ?lookup_insert_ne by done;
  rewrite ?copy_field_lookup_ne by done;
  rewrite ?copy_field_lookup_eq;
  rewrite ?copy_field_lookup_ne by done;
  rewrite ?lookup_insert_ne by done;
  rewrite ?copy_field_lookup_ne by done;
  rewrite ?process_db_type_lookup_ne by done;
  rewrite ?base_config_fresh by done.

(** X7.  Every recognised connection field of [process] lands on its own
    property of the configuration, wrapped as the source wraps it (a path
    for [jdbc_dir] and [data_file], the flag [true] for [csv_first_row],
    the value itself otherwise), and a field that is absent leaves its
    property unset. *)
Theorem process_copies_fields (input_file output_file : pyval)
    (formats : list pyval) (parameters : list (string * string))
    (db_connection : gmap string pyval) (locale : pyval) (w w' : World)
    (config : Config) :
  process_config input_file output_file formats parameters db_connection
    locale w = (Ok config, w') ->
  Forall (fun f => config !! f.1.2 = f.2 <$> (db_connection !! f.1.1))
         COPIED_FIELDS.
Proof.
  intros Hc. apply process_config_shape in Hc.
  destruct Hc as (_ & out & [[-> ->]|[(_ & _ & ->)|(_ & v & z & _ & _ & ->)]]);
    unfold COPIED_FIELDS; repeat constructor; simpl;
    rewrite ?lookup_empty; config_lookup;
    try match goal with
        | |- context [db_connection !! ?k] => by destruct (db_connection !! k)
        end; reflexivity.
Qed.

(** X6.  [csv_first_row] is a presence flag: whatever value the connection
    gives it, [False] included, the configuration gets [true], and no
    connection makes [process] set it to [false]. *)
Theorem process_csv_first_row (input_file output_file : pyval)
    (formats : list pyval) (parameters : list (string * string))
    (db_connection : gmap string pyval) (locale : pyval) (w w' : World)
    (config : Config) :
  process_config input_file output_file formats parameters db_connection
    locale w = (Ok config, w') ->
  (forall v, db_connection !! "csv_first_row" = Some v ->
             config !! "CsvFirstRow" = Some (JBool true)) /\
  config !! "CsvFirstRow" <> Some (JBool false).
Proof.
  intros Hc. apply process_config_shape in Hc.
  assert (Hl : config !! "CsvFirstRow"
               = (fun _ => JBool true) <$> (db_connection !! "csv_first_row")).
  { destruct Hc as (_ & out & [[-> ->]|[(_ & _ & ->)|(_ & v & z & _ & _ & ->)]]);
      rewrite ?lookup_empty; config_lookup;
      try (by destruct (db_connection !! "csv_first_row")); reflexivity. }
  rewrite Hl. split.
  - by intros v ->.
  - by destruct (db_connection !! "csv_first_row").
Qed.

(** X5.  The data-source type [process] puts on the configuration: each of
    the eight recognised driver tags gives its own constant, a connection
    without ['driver'] gives [none], and any other driver value leaves the
    type unset. *)
Theorem process_db_type_resolved (input_file output_file : pyval)
    (formats : list pyval) (parameters : list (string * string))
    (db_connection : gmap string pyval) (locale : pyval) (w w' : World)
    (config : Config) :
  process_config input_file output_file formats parameters db_connection
    locale w = (Ok config, w') ->
  Forall (fun d => db_connection !! "driver" = Some (VStr d.1) ->
                   getDbType config = Some (JDs d.2)) DRIVERS /\
  (db_connection !! "driver" = None -> getDbType config = Some (JDs none)) /\
  (forall v, db_connection !! "driver" = Some v ->
             Forall (fun d => v <> VStr d.1) DRIVERS ->
             getDbType config = None).
Proof.
  intros Hc. apply process_config_shape in Hc.
  assert (Hl : exists out,
             getDbType config
             = getDbType (process_db_type db_connection
                            (base_config input_file out formats parameters
                               locale))).
  { destruct Hc as (_ & out & [[-> ->]|[(_ & _ & ->)|(_ & v & z & _ & _ & ->)]]);
      exists out; unfold getDbType; trivial;
      unfold copy_after_port, copy_before_port, setDbPort, jset;
      rewrite ?copy_field_lookup_ne by done;
      rewrite ?lookup_insert_ne by done;
      by rewrite ?copy_field_lookup_ne by done. }
  destruct Hl as [out ->].
  unfold getDbType, process_db_type, setDbType, jset.
  split; [|split].
  - unfold DRIVERS. repeat constructor; simpl; intros ->; simpl;
      by rewrite lookup_insert_eq.
  - intros ->. by rewrite lookup_insert_eq.
  - intros v -> Hv. unfold DRIVERS in Hv.
    repeat match goal with
           | H : Forall _ (_ :: _) |- _ => inversion_clear H
           end.
    simpl in *.
    destruct v; simpl; try (apply base_config_fresh; done).
    repeat match goal with
           | |- context [String.eqb s ?x] =>
               destruct (String.eqb_spec s x) as [->|_]; [congruence|]
           end.
    by apply base_config_fresh.
Qed.

End ProcessConfig.

Section ProcessKeys.
Context `{RT : Runtime}.

Lemma copy_field_insert (conn : gmap string pyval) (k : string) (v : pyval)
    key prop wrap (c : Config) :
  key <> k ->
  copy_field (<[k:=v]> conn) key prop wrap c = copy_field conn key prop wrap c.
Proof. intros Hk. unfold copy_field. by rewrite lookup_insert_ne. Qed.

Lemma process_copy_fields_insert (conn : gmap string pyval) (k : string)
    (v : pyval) (c : Config) (w : World) :
  ~ In k PROCESS_KEYS ->
  process_copy_fields (<[k:=v]> conn) c w = process_copy_fields conn c w.
Proof.
  intros Hk. rewrite !process_copy_fields_eq.
  rewrite lookup_insert_ne
    by (intros ->; apply Hk; unfold PROCESS_KEYS; simpl; tauto).
  assert (Ha : forall c0, copy_after_port (<[k:=v]> conn) c0
                          = copy_after_port conn c0).
  { intros c0. unfold copy_after_port.
    by rewrite !copy_field_insert
      by (intros <-; apply Hk; unfold PROCESS_KEYS; simpl; tauto). }
  assert (Hb : forall c0, copy_before_port (<[k:=v]> conn) c0
                          = copy_before_port conn c0).
  { intros c0. unfold copy_before_port.
    by rewrite !copy_field_insert
      by (intros <-; apply Hk; unfold PROCESS_KEYS; simpl; tauto). }
  destruct (conn !! "port") as [p|]; [|by rewrite Ha, Hb].
  destruct (py_int p); [|reflexivity]. by rewrite Ha, Hb.
Qed.

Lemma process_copy_fields_empty (c : Config) (w : World) :
  process_copy_fields ∅ c w = (Ok c, w).
Proof.
  rewrite process_copy_fields_eq. rewrite lookup_empty.
  unfold copy_after_port, copy_before_port, copy_field.
  by rewrite !lookup_empty.
Qed.

(** X8.  A connection key that [process] does not know is ignored: adding
    it, with any value, to any connection (the empty one included) changes
    neither the result nor a single call of the run. *)
Theorem process_ignores_unknown_keys (input_file output_file format_list : pyval)
    (parameters : list (string * string)) (db_connection : gmap string pyval)
    (locale : pyval) (resource : string) (k : string) (v : pyval)
    (w : World) :
  ~ In k PROCESS_KEYS ->
  process input_file output_file format_list parameters
    (<[k:=v]> db_connection) locale resource w
  = process input_file output_file format_list parameters db_connection
      locale resource w.
Proof.
  intros Hk. unfold process. rewrite !bind_eq. unfold lift.
  destruct (process_validate input_file format_list) as [formats|e];
    [|reflexivity].
  rewrite !try_except_eq, !bind_eq.
  assert (Hc : process_config input_file output_file formats parameters
                 (<[k:=v]> db_connection) locale w
               = process_config input_file output_file formats parameters
                   db_connection locale w).
  { unfold process_config. rewrite !bind_eq.
    match goal with
    | |- context [match ?X with _ => _ end] => destruct X as [[c|e] w1]
    end; [|reflexivity].
    assert (Hd : process_db_type (<[k:=v]> db_connection)
                   (set_params parameters
                      (jset "OutputFormats" (JList formats) c))
                 = process_db_type db_connection
                     (set_params parameters
                        (jset "OutputFormats" (JList formats) c))).
    { unfold process_db_type. rewrite lookup_insert_ne; [reflexivity|].
      intros ->. apply Hk. unfold PROCESS_KEYS. simpl. tauto. }
    rewrite Hd.
    replace (0 <? Z.of_nat (size (<[k:=v]> db_connection))) with true.
    2:{ symmetry. apply Z.ltb_lt.
        assert (size (<[k:=v]> db_connection) <> 0%nat); [|lia].
        apply map_size_ne_0_lookup. exists k. by rewrite lookup_insert_eq. }
    rewrite process_copy_fields_insert by exact Hk.
    destruct (0 <? Z.of_nat (size db_connection)) eqn:Es; [reflexivity|].
    assert (db_connection = ∅) as ->.
    { apply map_size_empty_iff. apply Z.ltb_ge in Es. lia. }
    apply process_copy_fields_empty. }
  rewrite Hc. reflexivity.
Qed.

Lemma appends_streams (s : jstream) :
  appends in_process_event (setOut s) /\ appends in_process_event (setIn s)
  /\ appends in_process_event flush_out.
Proof.
  repeat split; intros w0; eexists; (split; [reflexivity|]);
    (constructor; [by right|constructor]).
Qed.

Lemma process_config_world input_file output_file formats parameters
    (db_connection : gmap string pyval) locale (w : World) :
  (process_config input_file output_file formats parameters db_connection
     locale w).2 = w.
Proof.
  unfold process_config. rewrite bind_eq.
  assert (Ho : forall m : M Config,
             (forall w0, (m w0).2 = w0) -> (m w).2 = w) by auto.
  match goal with
  | |- context [match ?X with _ => _ end] =>
      assert (Hx : X.2 = w);
      [|destruct X as [[c|e] w1]; simpl in Hx; subst w1; [|reflexivity]]
  end.
  { destruct (py_truthy output_file); [reflexivity|].
    by destruct input_file. }
  destruct (0 <? Z.of_nat (size db_connection)); [|reflexivity].
  rewrite process_copy_fields_eq.
  destruct (db_connection !! "port") as [v|]; [|reflexivity].
  by destruct (py_int v).
Qed.

(** X9.  [process] stays inside the Java runtime: every call of a run is a
    call to the engine (class path, report, fill, export) or one of the
    three stream operations; it sends no request, writes no file of its
    own and creates no temporary directory. *)
Theorem process_only_engine_and_streams
    (input_file output_file format_list : pyval)
    (parameters : list (string * string)) (db_connection : gmap string pyval)
    (locale : pyval) (resource : string) (w : World) :
  exists evs,
    trace (process input_file output_file format_list parameters
             db_connection locale resource w).2 = trace w ++ evs
    /\ Forall in_process_event evs
    /\ Forall (fun ev => remote_event ev = false /\ tmpdir_event ev = false)
              evs.
Proof.
  assert (Hex : forall x, appends in_process_event (process_export x)).
  { intros x. unfold process_export.
    destruct x; try (apply appends_nothing; intros ?; reflexivity).
    destruct (export_method s); [|apply appends_nothing; intros ?; reflexivity].
    apply appends_jcall. by left. }
  assert (Happ : appends in_process_event
                   (process input_file output_file format_list parameters
                      db_connection locale resource)).
  { unfold process.
    apply appends_bind; [apply appends_nothing; intros ?; reflexivity|].
    intros _ formats _ _.
    apply appends_try_except;
      [|intros ?; apply appends_nothing; intros ?; reflexivity].
    apply appends_bind; [apply appends_nothing, process_config_world|].
    intros _ config _ _.
    apply appends_bind.
    { unfold process_classpath.
      repeat first [ apply appends_jcall; by left | appends_step ]. }
    intros _ _ _ _.
    apply appends_bind; [|intros; apply appends_nothing; intros ?; reflexivity].
    unfold process_run, process_fill_export, process_restore.
    repeat first
      [ apply Hex
      | apply appends_jcall; by left
      | apply (proj1 (appends_streams _))
      | apply (proj1 (proj2 (appends_streams _)))
      | apply (proj2 (proj2 (appends_streams (Original 0))))
      | appends_step ]. }
  destruct (Happ w) as (evs & Ht & Hp). exists evs. repeat split; trivial.
  eapply Forall_impl; [exact Hp|].
  intros ev [He|Hs]; destruct ev; try discriminate; by split.
Qed.

(** The loop that adds the archives of a resource directory, when the
    class path accepts every entry. *)
Lemma add_jars_trace (jars : list string) (w : World) :
  (forall tr a, engine_raises tr (EClasspathAdd a) = None) ->
  for_each (fun res_file => jcall (EClasspathAdd (JFile (VStr res_file)))) jars w
  = (Ok tt,
     {| sys_in := sys_in w; sys_out := sys_out w;
        trace := trace w
                 ++ map (fun f => EClasspathAdd (JFile (VStr f))) jars |}).
Proof.
  intros Hok. revert w. induction jars as [|j jars IH]; intros w.
  - simpl. rewrite app_nil_r. by destruct w.
  - simpl for_each. rewrite bind_eq, jcall_eq, Hok, IH. simpl.
    by rewrite <- app_assoc.
Qed.

(** X10.  The class path [process] builds, when every entry is accepted:
    always the bundled JDBC driver first; then, for a resource that is a
    file, that file and nothing else; for a directory, the directory
    itself followed by each archive that [glob] finds in it, in that
    order; and for a path that is neither, nothing more. *)
Theorem process_classpath_entries (resource : string) (w : World) :
  (forall tr a, engine_raises tr (EClasspathAdd a) = None) ->
  let jdbc := EClasspathAdd (JFile (VStr JDBC_FILE)) in
  let tr1 := trace w ++ [jdbc] in
  let tr2 := tr1 ++ [EClasspathAdd (JPy (VStr resource))] in
  let entries :=
    if os_path_isfile tr1 resource
    then [EClasspathAdd (JFile (VStr resource))]
    else if os_path_isdir tr1 resource
    then EClasspathAdd (JPy (VStr resource))
         :: map (fun f => EClasspathAdd (JFile (VStr f)))
                (glob_jars tr2 resource)
    else [] in
  process_classpath resource w
  = (Ok tt, {| sys_in := sys_in w; sys_out := sys_out w;
               trace := trace w ++ jdbc :: entries |}).
Proof.
  intros Hok. cbv zeta. unfold process_classpath.
  rewrite bind_eq, jcall_eq, Hok. cbv beta iota.
  rewrite bind_eq. unfold get_trace. cbv beta iota. simpl trace.
  destruct (os_path_isfile _ resource).
  - rewrite jcall_eq, Hok. unfold log; simpl.
    by rewrite <- app_assoc.
  - destruct (os_path_isdir _ resource).
    + rewrite bind_eq, jcall_eq, Hok. cbv beta iota.
      rewrite bind_eq. cbv beta iota. simpl trace.
      rewrite add_jars_trace by exact Hok. unfold log; simpl.
      by rewrite <- !app_assoc.
    + reflexivity.
Qed.

End ProcessKeys.

Section ProcessStreams.
Context `{RT : Runtime}.

Lemma logs_classpath_events (resource : string) :
  logs classpath_event (process_classpath resource).
Proof.
  unfold process_classpath.
  repeat first
    [ apply logs_bind; [|intros ?]
    | apply logs_ret | apply logs_get_trace
    | apply logs_for_each; intros ?
    | apply logs_jcall; by eexists
    | match goal with
      | |- logs _ (if ?b then _ else _) => destruct b
      end ].
Qed.

(** From the [Report] constructor on: the constructor fails and nothing
    else is called, or the phase is entered and closed. *)
Lemma process_run_streams (config : Config) (formats : list pyval)
    (w : World) :
  Forall in_FORMATS formats ->
  match engine_raises (trace w) (EReportNew config) with
  | Some msg =>
      process_run config formats w
      = (Raise (Exn RuntimeError msg), log (EReportNew config) w)
  | None =>
      exists r n ms,
        process_run config formats w
        = (r, {| sys_in := sys_in w; sys_out := sys_out w;
                 trace := trace w ++ [EReportNew config]
                          ++ [ESetOut (PrintStreamOver n); EFill]
                          ++ map EExport ms
                          ++ [EFlush (PrintStreamOver n); ESetIn (sys_in w);
                              ESetOut (sys_out w)] |})
  end.
Proof.
  intros Hf. unfold process_run. rewrite bind_eq, jcall_eq.
  destruct (engine_raises (trace w) (EReportNew config)) as [msg|];
    [reflexivity|].
  set (w1 := log (EReportNew config) w).
  destruct (process_phase_exports (length (trace w1)) formats w1 Hf)
    as (ms & r & Hrun & _ & _).
  match goal with
  | |- context [(bind get_in ?k) w1] =>
      change (bind get_in k w1)
        with (try_finally (process_fill_export (length (trace w1)) formats)
                (process_restore (sys_in w1) (sys_out w1)) w1)
  end.
  rewrite Hrun. exists r, (length (trace w1)), ms.
  simpl. by rewrite <- !app_assoc.
Qed.

(** C8.  Along every run of [process], whatever the arguments and whatever
    the engine answers.  Before the [Report] object is built the only calls
    are additions to the class path, and a run that stops there raises.
    Once the [Report] constructor has returned, the fill+export phase is
    always entered and always closed: the output stream is redirected to a
    fresh in-memory print stream, then come the fill and the exports, and
    then, on normal return and on exception alike, the flush of that stream
    and the setting of the input and of the output handle back to the ones
    [process] found; a run that returns has gone through all of this.  A
    constructor that raises ends the run before any redirection.  And in
    every case the handles at exit are the handles at entry. *)
Theorem process_restores_streams (input_file output_file format_list : pyval)
    (parameters : list (string * string)) (db_connection : gmap string pyval)
    (locale : pyval) (resource : string) (w : World) :
  let run := process input_file output_file format_list parameters
               db_connection locale resource w in
  sys_in run.2 = sys_in w /\ sys_out run.2 = sys_out w /\
  exists cp report phase,
    trace run.2 = trace w ++ cp ++ report ++ phase /\
    Forall classpath_event cp /\
    ((report = [] /\ phase = [] /\ exists e, run.1 = Raise e)
     \/ exists config,
          report = [EReportNew config] /\
          match engine_raises (trace w ++ cp) (EReportNew config) with
          | Some msg =>
              phase = [] /\
              run.1 = Raise (Exn NameError ("Error: " +:+ msg))
          | None =>
              exists n ms,
                phase = [ESetOut (PrintStreamOver n); EFill]
                        ++ map EExport ms
                        ++ [EFlush (PrintStreamOver n); ESetIn (sys_in w);
                            ESetOut (sys_out w)]
          end).
Proof.
  cbv zeta. unfold process. rewrite bind_eq. unfold lift.
  destruct (process_validate input_file format_list) as [formats|e] eqn:Hv.
  2:{ simpl. split; [reflexivity|]. split; [reflexivity|].
      exists [], [], []. simpl. rewrite app_nil_r.
      split; [reflexivity|]. split; [constructor|].
      left. split; [reflexivity|]. split; [reflexivity|]. by exists e. }
  destruct (process_validate_ok _ _ _ Hv) as (_ & _ & Hf).
  rewrite try_except_eq, bind_eq.
  pose proof (process_config_world input_file output_file formats parameters
                db_connection locale w) as Hcw.
  destruct (process_config input_file output_file formats parameters
              db_connection locale w) as [[config|e] w1];
    simpl in Hcw; subst w1.
  2:{ simpl. split; [reflexivity|]. split; [reflexivity|].
      exists [], [], []. simpl. rewrite app_nil_r.
      split; [reflexivity|]. split; [constructor|].
      left. split; [reflexivity|]. split; [reflexivity|]. by eexists. }
  rewrite bind_eq.
  destruct (logs_classpath_events resource w) as (Hi2 & Ho2 & cp & Ht2 & Hp2).
  destruct (process_classpath resource w) as [[u|e] w2];
    simpl in Hi2, Ho2, Ht2.
  2:{ simpl. split; [exact Hi2|]. split; [exact Ho2|].
      exists cp, [], []. simpl. rewrite app_nil_r.
      split; [exact Ht2|]. split; [exact Hp2|].
      left. split; [reflexivity|]. split; [reflexivity|]. by eexists. }
  rewrite bind_eq.
  pose proof (process_run_streams config formats w2 Hf) as Hrun.
  rewrite Ht2 in Hrun.
  destruct (engine_raises (trace w ++ cp) (EReportNew config)) as [msg|] eqn:E.
  - rewrite Hrun. simpl. rewrite Ht2.
    split; [exact Hi2|]. split; [exact Ho2|].
    exists cp, [EReportNew config], []. rewrite app_nil_r.
    split; [by rewrite <- app_assoc|]. split; [exact Hp2|].
    right. exists config. split; [reflexivity|]. rewrite E. by split.
  - destruct Hrun as (r & n & ms & Hrun). rewrite Hrun.
    split; [|split].
    + destruct r; simpl; exact Hi2.
    + destruct r; simpl; exact Ho2.
    + exists cp, [EReportNew config],
        ([ESetOut (PrintStreamOver n); EFill] ++ map EExport ms
         ++ [EFlush (PrintStreamOver n); ESetIn (sys_in w);
             ESetOut (sys_out w)]).
      split; [|split; [exact Hp2|]].
      * destruct r; simpl; rewrite Hi2, Ho2; by rewrite <- !app_assoc.
      * right. exists config. split; [reflexivity|]. rewrite E.
        by exists n, ms.
Qed.

End ProcessStreams.

Section ProcessFailures.
Context `{RT : Runtime}.









End ProcessFailures.

Section ProcessJsonFetch.
Context `{RT : Runtime}.

(** The engine part of [process_json] opens with at most one addition to
    the class path and then builds the [Report] object from the
    configuration it is given; it stops before that only when the addition
    is rejected. *)
Lemma process_json_start_report (input_file : pyval) (resource : string)
    (config : Config) (w : World) :
  (exists a msg,
     engine_raises (trace w) (EClasspathAdd a) = Some msg /\
     process_json_start input_file resource config w
     = (Raise (Exn RuntimeError msg), log (EClasspathAdd a) w))
  \/ (exists cp,
        Forall classpath_event cp /\
        extends (process_json_start input_file resource config) w
          (cp ++ [EReportNew config])).
Proof.
  assert (Hrest : forall u : unit,
             logs not_fill
               (compile input_file ;;
                if hasAskFilter config then jcall EPromptForParams
                else ret tt)).
  { intros _. repeat first [apply logs_compile | logs_step | reflexivity]. }
  assert (Hrep : forall w1,
             extends (jcall (EReportNew config) ;;
                      compile input_file ;;
                      if hasAskFilter config then jcall EPromptForParams
                      else ret tt) w1 [EReportNew config]).
  { intros w1. eapply extends_bind; [apply extends_jcall|exact Hrest]. }
  assert (Hadd : forall a,
             process_json_start input_file resource config w
             = (jcall (EClasspathAdd a) ;;
                jcall (EReportNew config) ;;
                compile input_file ;;
                if hasAskFilter config then jcall EPromptForParams
                else ret tt) w ->
             (exists a msg,
                engine_raises (trace w) (EClasspathAdd a) = Some msg /\
                process_json_start input_file resource config w
                = (Raise (Exn RuntimeError msg), log (EClasspathAdd a) w))
             \/ (exists cp,
                   Forall classpath_event cp /\
                   extends (process_json_start input_file resource config) w
                     (cp ++ [EReportNew config]))).
  { intros a Heq. rewrite bind_eq, jcall_eq in Heq.
    destruct (engine_raises (trace w) (EClasspathAdd a)) as [msg|] eqn:E.
    - left. exists a, msg. by split.
    - right. exists [EClasspathAdd a]. split.
      + constructor; [by eexists|constructor].
      + unfold extends. rewrite Heq.
        destruct (Hrep (log (EClasspathAdd a) w)) as [rest Hr].
        exists rest. rewrite Hr. simpl. by rewrite <- !app_assoc. }
  unfold process_json_start, process_json_classpath in *.
  destruct (os_path_isfile (trace w) resource) eqn:Ef;
    [|destruct (os_path_isdir (trace w) resource) eqn:Ed].
  - apply (Hadd (JPy (VStr (os_path_dirname resource)))).
    rewrite bind_eq, bind_eq. unfold get_trace. rewrite Ef.
    by rewrite bind_eq.
  - apply (Hadd (JPy (VStr resource))).
    rewrite bind_eq, bind_eq. unfold get_trace. rewrite Ef, Ed.
    by rewrite bind_eq.
  - right. exists []. split; [constructor|].
    unfold extends. rewrite bind_eq, bind_eq. unfold get_trace.
    rewrite Ef, Ed. unfold ret at 1. apply Hrep.
Qed.

(** C5.  [process_json] with valid arguments and a connection that has a
    ['url_file'].  A ['url_method'] that is not one of GET, POST, PUT ends
    the call with the [NameError] of the method check, wrapped by the fetch
    handler and by the outer one, before any request.  Otherwise the
    request is made; an exception of the request, of [resp.json()] or of
    the write is wrapped the same way (as is the [KeyError] of a missing
    ['url_method']); a status code other than 200 ends
    the call with the wrapped [NameError] whose message carries the code; on
    200 the parsed body is serialised again and written to
    [data_report.json] in the temporary directory, the write being the
    call that follows the request in the run, and that file is the data
    file of the configuration the run goes on with: the one the [Report]
    object is built from, which is the next call of the run after the
    additions to the class path (unless such an addition is rejected,
    which ends the call).  Whatever the block raises is a [NameError]
    whose message starts with ['Error request: ']. *)
Theorem process_json_remote_fetch (input_file output_file format_list : pyval)
    (parameters : list (string * string)) (connection : gmap string pyval)
    (locale : pyval) (resource : string) (formats : list pyval) (url : pyval)
    (w : World) :
  process_json_validate input_file format_list = Ok formats ->
  output_known input_file output_file ->
  connection !! "url_file" = Some url ->
  let tmp_dir := mkdtemp (trace w) in
  let w1 := log (EMkdtemp tmp_dir) w in
  let file_json := os_path_join tmp_dir "data_report.json" in
  let run := process_json input_file output_file format_list parameters
               connection locale resource w in
  let wrapped msg := Raise (Exn NameError ("Error: Error request: " +:+ msg)) in
  (forall mv,
     connection !! "url_method" = Some mv ->
     ~ (exists m, mv = VStr m /\ In m _FORMATS_METHODS_REQUEST) ->
     run = (wrapped match mv with
                    | VStr _ => "Invalid method request!"
                    | _ => "'url_method' value is not list!"
                    end, log (ERmtree tmp_dir) w1)) /\
  (forall m DATA,
     connection !! "url_method" = Some (VStr m) ->
     In m _FORMATS_METHODS_REQUEST ->
     body_resolves connection DATA ->
     let req := Request (VStr m) url DATA
                  (default (VDict []) (connection !! "url_header"))
                  (default (VDict []) (connection !! "url_params")) in
     let w2 := log (EHttp req) w1 in
     match http_send (trace w1) req with
     | Raise e => run = (wrapped (py_str e), log (ERmtree tmp_dir) w2)
     | Ok resp =>
         if status_code resp =? 200
         then match resp_json resp with
              | Raise e => run = (wrapped (py_str e), log (ERmtree tmp_dir) w2)
              | Ok data =>
                  let w3 := log (EFileWrite file_json (json_dumps data)) w2 in
                  match file_write (trace w2) file_json (json_dumps data) with
                  | Some e =>
                      run = (wrapped (py_str e), log (ERmtree tmp_dir) w3)
                  | None =>
                      (exists a msg,
                         engine_raises (trace w3) (EClasspathAdd a) = Some msg /\
                         run = (Raise (Exn NameError ("Error: " +:+ msg)),
                                log (ERmtree tmp_dir)
                                  (log (EClasspathAdd a) w3)))
                      \/
                      (exists cp config rest,
                         trace run.2
                         = trace w3 ++ cp ++ EReportNew config :: rest /\
                         Forall classpath_event cp /\
                         config !! "DataFile" = Some (JFile (VStr file_json)))
                  end
              end
         else run = (wrapped ("Error request status code: "
                              +:+ py_str_int (status_code resp)),
                     log (ERmtree tmp_dir) w2)
     end) /\
  (forall c w' e w2,
     process_json_sources tmp_dir connection c w' = (Raise e, w2) ->
     exists e0, e = Exn NameError ("Error request: " +:+ py_str e0)) /\
  (connection !! "url_method" = None ->
   run = (wrapped "'url_method'", log (ERmtree tmp_dir) w1)).
Proof.
  intros Hv Hout Hu tmp_dir w1 file_json run wrapped.
  assert (Hsz : size connection <> 0%nat).
  { apply map_size_ne_0_lookup. exists "url_file". by rewrite Hu. }
  assert (Hfail : forall msg w2,
             (forall c, process_json_sources tmp_dir connection c w1
                        = (Raise (Exn NameError ("Error request: " +:+ msg)),
                           w2)) ->
             run = (wrapped msg, log (ERmtree tmp_dir) w2)).
  { intros msg w2 Hsrc.
    apply (process_json_sources_raise _ _ _ _ _ _ _ formats w w2
             (Exn NameError ("Error request: " +:+ msg)) Hv Hout Hsz Hsrc). }
  split; [|split; [|split]].
  - intros mv Hm Hbad. apply Hfail. intros c.
    rewrite (process_json_sources_url _ _ _ _ _ Hu).
    rewrite (process_json_fetch_bad_method _ _ _ mv _ _ Hm); [reflexivity|].
    destruct (in_str_tuple _FORMATS_METHODS_REQUEST mv) eqn:E; trivial.
    exfalso. apply Hbad. by apply in_str_tuple_spec.
  - intros m DATA Hm Hin Hbody req w2.
    assert (Hsrc : forall c,
               process_json_sources tmp_dir connection c w1
               = match process_json_fetch tmp_dir connection url
                         (match connection !! "data_file" with
                          | Some v => setDataFile v c
                          | None => c
                          end) w1 with
                 | (Ok c2, w') =>
                     (Ok (copy_field connection "jsonql_query" "JsonQLQuery" JPy
                            (copy_field connection "json_query" "JsonQuery" JPy
                               c2)), w')
                 | (Raise e, w') => (Raise e, w')
                 end).
    { intros c. apply process_json_sources_url, Hu. }
    pose proof (fun c => process_json_fetch_sends tmp_dir connection url c m
                           DATA w1 Hm Hin (getitem_if_body _ _ _ Hbody))
      as Hfetch.
    cbv zeta in Hfetch. fold req w2 file_json in Hfetch.
    destruct (http_send (trace w1) req) as [resp|e].
    2:{ apply Hfail. intros c. by rewrite Hsrc, Hfetch. }
    destruct (status_code resp =? 200).
    2:{ apply Hfail. intros c. by rewrite Hsrc, Hfetch. }
    destruct (resp_json resp) as [data|e].
    2:{ apply Hfail. intros c. by rewrite Hsrc, Hfetch. }
    destruct (file_write (trace w2) file_json (json_dumps data)) as [e|].
    { apply Hfail. intros c. by rewrite Hsrc, Hfetch. }
    set (w3 := log (EFileWrite file_json (json_dumps data)) w2).
    destruct (process_json_unfold input_file output_file format_list parameters
                connection locale resource formats Hv Hout)
      as (cpre & file_out & out & _ & Hpj).
    assert (Hs : exists c',
               process_json_sources tmp_dir connection cpre w1 = (Ok c', w3)
               /\ c' !! "DataFile" = Some (JFile (VStr file_json))).
    { eexists. rewrite Hsrc, Hfetch. split; [reflexivity|].
      rewrite !copy_field_lookup_ne by done.
      apply lookup_insert_eq. }
    destruct Hs as (c' & Hs & Hc').
    assert (Hlt : (0 <? Z.of_nat (size connection)) = true).
    { apply Z.ltb_lt. lia. }
    destruct (process_json_start_report input_file resource c' w3)
      as [(a & msg & Ha & Hst)|(cp & Hcp & Hext)].
    + left. exists a, msg. split; [exact Ha|].
      unfold run. rewrite Hpj. fold tmp_dir w1. rewrite Hlt.
      rewrite try_except_eq, bind_eq, Hs. cbv beta iota.
      rewrite bind_eq, Hst. reflexivity.
    + right.
      assert (Hgo : extends
                (process_json_start input_file resource c' ;;
                 process_json_fill connection c' file_out out ;; ret 0)
                w3 (cp ++ [EReportNew c'])).
      { eapply extends_bind with (P := fun _ => True); [exact Hext|].
        intros _. apply logs_bind; [apply logs_process_json_fill|].
        intros _. apply logs_ret. }
      destruct Hgo as [rest Hrest].
      exists cp, c', (rest ++ [ERmtree tmp_dir]).
      split; [|split; [exact Hcp|exact Hc']].
      unfold run. rewrite Hpj. fold tmp_dir w1. rewrite Hlt.
      simpl snd. unfold log at 1. simpl trace.
      rewrite try_except_world, bind_eq, Hs. cbv beta iota.
      rewrite Hrest. unfold w3, w2, w1, log. simpl.
      rewrite <- ?app_assoc. simpl. by rewrite <- ?app_assoc.
  - intros c w' e w2. apply (process_json_sources_wraps _ _ url), Hu.
  - intros Hm. apply Hfail. intros c.
    rewrite (process_json_sources_url _ _ _ _ _ Hu).
    unfold process_json_fetch. rewrite try_except_eq, bind_eq.
    unfold py_getitem. rewrite Hm. reflexivity.
Qed.

End ProcessJsonFetch.

Section JsonEvents.
Context `{RT : Runtime}.
Variable P : event -> Prop.
Hypothesis P_engine : forall ev, engine_event ev = true -> P ev.
Hypothesis P_flush : forall s, P (EFlush s).

Lemma appends_compile (report : pyval) : appends P (compile report).
Proof.
  unfold compile.
  repeat first [ apply appends_jcall; by apply P_engine | appends_step ].
  intros w0. exists [EFlush (sys_out w0)]. split; [reflexivity|].
  constructor; [apply P_flush|constructor].
Qed.

Lemma appends_process_json_start input_file resource config :
  appends P (process_json_start input_file resource config).
Proof.
  unfold process_json_start, process_json_classpath.
  repeat first [ apply appends_compile
               | apply appends_jcall; by apply P_engine | appends_step ].
Qed.

Lemma appends_process_json_fill connection config file_out out :
  appends P (process_json_fill connection config file_out out).
Proof.
  unfold process_json_fill, put_if.
  repeat first [ apply appends_jcall; by apply P_engine | appends_step ].
Qed.

Lemma process_json_output_world input_file output_file c (w : World) :
  (process_json_output input_file output_file c w).2 = w.
Proof.
  unfold process_json_output.
  destruct (py_truthy output_file); [reflexivity|]. by destruct input_file.
Qed.

(** The body of [process_json] inside its temporary directory adds only
    events of [P] as soon as its data-source block does. *)
Lemma appends_process_json_body tmp_dir input_file output_file format_list
    parameters connection locale resource :
  (forall c, appends P (process_json_sources tmp_dir connection c)) ->
  appends P
    (let* formats := lift (process_json_validate input_file format_list) in
     try_except
       (let* (config, file_out, output_file) :=
          process_json_prepare tmp_dir input_file output_file formats
            parameters connection locale resource in
        process_json_fill connection config file_out output_file ;;
        ret 0)
       (reraise "Error: ")).
Proof.
  intros Hsrc.
  apply appends_bind; [apply appends_nothing; intros ?; reflexivity|].
  intros _ formats _ _.
  apply appends_try_except;
    [|intros ?; apply appends_nothing; intros ?; reflexivity].
  apply appends_bind.
  - unfold process_json_prepare.
    apply appends_bind.
    + unfold process_json_config.
      apply appends_bind;
        [apply appends_nothing, process_json_output_world|].
      intros _ [[c fo] o] _ _.
      apply appends_bind;
        [|intros; apply appends_nothing; intros ?; reflexivity].
      destruct (0 <? Z.of_nat (size connection));
        [apply Hsrc|apply appends_nothing; intros ?; reflexivity].
    + intros _ prepared _ _.
      apply appends_bind; [apply appends_process_json_start|].
      intros; apply appends_nothing; intros ?; reflexivity.
  - intros _ [[config fo] o] _ _.
    apply appends_bind; [apply appends_process_json_fill|].
    intros; apply appends_nothing; intros ?; reflexivity.
Qed.

End JsonEvents.

Section ProcessJsonMore.
Context `{RT : Runtime}.

Lemma with_tmpdir_eq {A} (body : string -> M A) (w : World) :
  let tmp_dir := mkdtemp (trace w) in
  let rw := body tmp_dir (log (EMkdtemp tmp_dir) w) in
  with_tmpdir body w = (rw.1, log (ERmtree tmp_dir) rw.2).
Proof.
  cbv zeta. unfold with_tmpdir, try_finally.
  by destruct (body _ _) as [r w1].
Qed.

Lemma appends_process_json_sources (P : event -> Prop) tmp_dir connection c :
  (forall ev, remote_event ev = true -> P ev) ->
  appends P (process_json_sources tmp_dir connection c).
Proof.
  intros HP.
  unfold process_json_sources, process_json_fetch, getitem_if, py_getitem.
  repeat appends_step.
  all: try (intros w0; unfold send_request; eexists [_];
            split; [reflexivity|]; constructor; [by apply HP|constructor]).
  all: try (intros w0; unfold write_file;
            match goal with
            | |- context [file_write ?a ?b ?c] => destruct (file_write a b c)
            end; eexists [_]; (split; [reflexivity|]);
            (constructor; [by apply HP|constructor])).
Qed.

Lemma process_json_sources_local tmp_dir (connection : gmap string pyval)
    c (w : World) :
  connection !! "url_file" = None ->
  (process_json_sources tmp_dir connection c w).2 = w.
Proof.
  intros Hu. unfold process_json_sources. rewrite Hu.
  by destruct (connection !! "data_file").
Qed.

(** X11.  [process_json] works in a temporary directory that it creates
    before anything else and removes as the very last thing, on every exit
    path (a rejected argument and an exception included), and it creates
    and removes no other. *)
Theorem process_json_temporary_directory
    (input_file output_file format_list : pyval)
    (parameters : list (string * string)) (connection : gmap string pyval)
    (locale : pyval) (resource : string) (w : World) :
  let tmp_dir := mkdtemp (trace w) in
  exists mid,
    trace (process_json input_file output_file format_list parameters
             connection locale resource w).2
    = trace w ++ EMkdtemp tmp_dir :: mid ++ [ERmtree tmp_dir]
    /\ Forall (fun ev => tmpdir_event ev = false) mid.
Proof.
  intros tmp_dir. unfold process_json. rewrite with_tmpdir_eq. fold tmp_dir.
  destruct (appends_process_json_body (fun ev => tmpdir_event ev = false)
              ltac:(by intros []) ltac:(reflexivity)
              tmp_dir input_file output_file format_list parameters
              connection locale resource) with (w := log (EMkdtemp tmp_dir) w)
    as (mid & Ht & Hp).
  { intros c. apply appends_process_json_sources. by intros []. }
  exists mid. split; [|exact Hp].
  unfold log at 1. simpl trace. rewrite Ht. unfold log; simpl.
  by rewrite <- !app_assoc.
Qed.

(** X12.  Without a ['url_file'] in the connection, [process_json] sends
    no request and writes no file of its own: all its calls are the
    temporary directory, the engine and the flush of [compile]. *)
Theorem process_json_local_source (input_file output_file format_list : pyval)
    (parameters : list (string * string)) (connection : gmap string pyval)
    (locale : pyval) (resource : string) (w : World) :
  connection !! "url_file" = None ->
  exists evs,
    trace (process_json input_file output_file format_list parameters
             connection locale resource w).2 = trace w ++ evs
    /\ Forall (fun ev => remote_event ev = false) evs.
Proof.
  intros Hu. unfold process_json. rewrite with_tmpdir_eq.
  set (tmp_dir := mkdtemp (trace w)).
  destruct (appends_process_json_body (fun ev => remote_event ev = false)
              ltac:(by intros []) ltac:(reflexivity)
              tmp_dir input_file output_file format_list parameters
              connection locale resource) with (w := log (EMkdtemp tmp_dir) w)
    as (mid & Ht & Hp).
  { intros c. apply appends_nothing. intros w0.
    by apply process_json_sources_local. }
  exists (EMkdtemp tmp_dir :: mid ++ [ERmtree tmp_dir]). split.
  - unfold log at 1. simpl trace. rewrite Ht. unfold log; simpl.
    by rewrite <- !app_assoc.
  - constructor; [reflexivity|]. apply Forall_app. split; [exact Hp|].
    by repeat constructor.
Qed.

End ProcessJsonMore.

Section ProcessJsonTrace.
Context `{RT : Runtime}.

Lemma bind_world_appends {A B} (P : event -> Prop) (m : M A) (k : A -> M B)
    (w : World) :
  (forall a, appends P (k a)) ->
  exists evs, trace (bind m k w).2 = trace (m w).2 ++ evs /\ Forall P evs.
Proof.
  intros Hk. rewrite bind_eq. destruct (m w) as [[a|e] w1]; simpl.
  - apply Hk.
  - exists []. by rewrite app_nil_r.
Qed.

Lemma process_json_config_world tmp_dir input_file output_file formats
    parameters (connection : gmap string pyval) locale (w : World) :
  (process_json_config tmp_dir input_file output_file formats parameters
     connection locale w).2 = w
  \/ exists c,
      (process_json_config tmp_dir input_file output_file formats parameters
         connection locale w).2
      = (process_json_sources tmp_dir connection c w).2.
Proof.
  unfold process_json_config. rewrite bind_eq.
  pose proof (process_json_output_world input_file output_file
                (if py_truthy locale
                 then jset "Locale" (JPy locale) (setInput input_file jvConfig)
                 else setInput input_file jvConfig) w) as Ho.
  destruct (process_json_output _ _ _ w) as [[[[c1 fo] o]|e] w1];
    simpl in Ho; subst w1; [|by left].
  rewrite bind_eq.
  destruct (0 <? Z.of_nat (size connection)); [|by left].
  right.
  exists (process_json_db_type connection
            (set_params parameters (jset "OutputFormats" (JList formats) c1))).
  by destruct (process_json_sources _ _ _ w) as [[?|?] ?].
Qed.

(** The events of a run of [process_json], in three parts: the temporary
    directory around everything, the data-source block, and the rest. *)
Lemma process_json_trace_split (P : event -> Prop)
    (input_file output_file format_list : pyval)
    (parameters : list (string * string)) (connection : gmap string pyval)
    (locale : pyval) (resource : string) (w : World) :
  (forall ev, engine_event ev = true -> P ev) ->
  (forall s, P (EFlush s)) ->
  let tmp_dir := mkdtemp (trace w) in
  let w1 := log (EMkdtemp tmp_dir) w in
  exists src rest,
    trace (process_json input_file output_file format_list parameters
             connection locale resource w).2
    = trace w ++ EMkdtemp tmp_dir :: src ++ rest ++ [ERmtree tmp_dir]
    /\ Forall P rest
    /\ (src = [] \/
        exists c, trace (process_json_sources tmp_dir connection c w1).2
                  = trace w1 ++ src).
Proof.
  intros HPe HPf tmp_dir w1. unfold process_json. rewrite with_tmpdir_eq.
  fold tmp_dir w1. unfold log at 1. simpl trace.
  rewrite bind_eq. unfold lift.
  destruct (process_json_validate input_file format_list) as [formats|e].
  2:{ exists [], []. simpl. split; [by rewrite <- app_assoc|].
      split; [constructor|by left]. }
  rewrite try_except_world.
  destruct (bind_world_appends P
              (process_json_prepare tmp_dir input_file output_file formats
                 parameters connection locale resource)
              (fun '(config, file_out, output_file) =>
                 process_json_fill connection config file_out output_file ;;
                 ret 0) w1) as (e2 & Ht2 & Hp2).
  { intros [[config fo] o].
    apply appends_bind;
      [by apply appends_process_json_fill|].
    intros; apply appends_nothing; intros ?; reflexivity. }
  rewrite Ht2. unfold process_json_prepare.
  destruct (bind_world_appends P
              (process_json_config tmp_dir input_file output_file formats
                 parameters connection locale)
              (fun prepared =>
                 process_json_start input_file resource prepared.1.1 ;;
                 ret prepared) w1) as (e1 & Ht1 & Hp1).
  { intros prepared.
    apply appends_bind; [by apply appends_process_json_start|].
    intros; apply appends_nothing; intros ?; reflexivity. }
  rewrite Ht1.
  destruct (process_json_config_world tmp_dir input_file output_file formats
              parameters connection locale w1) as [Hc|[c Hc]]; rewrite Hc.
  - exists [], (e1 ++ e2). split; [|split].
    + unfold w1, log; simpl. by rewrite <- !app_assoc.
    + by apply Forall_app.
    + by left.
  - destruct (appends_process_json_sources (fun _ => True) tmp_dir connection
                c (fun _ _ => I) w1) as (src & Hs & _).
    exists src, (e1 ++ e2). split; [|split].
    + rewrite Hs. unfold w1, log; simpl. by rewrite <- !app_assoc.
    + by apply Forall_app.
    + right. by exists c.
Qed.

Lemma process_json_fetch_no_method tmp_dir (connection : gmap string pyval)
    url config (w : World) :
  connection !! "url_method" = None ->
  process_json_fetch tmp_dir connection url config w
  = (Raise (Exn NameError "Error request: 'url_method'"), w).
Proof.
  intros Hm. unfold process_json_fetch. rewrite try_except_eq, bind_eq.
  unfold py_getitem. by rewrite Hm.
Qed.

Lemma process_json_fetch_no_data tmp_dir (connection : gmap string pyval)
    url config (m : string) (p : pyval) (w : World) :
  connection !! "url_method" = Some (VStr m) ->
  In m _FORMATS_METHODS_REQUEST ->
  connection !! "url_data_post" = Some p ->
  connection !! "url_data" = None ->
  process_json_fetch tmp_dir connection url config w
  = (Raise (Exn NameError "Error request: 'url_data'"), w).
Proof.
  intros Hm Hin Hp Hd. unfold process_json_fetch.
  rewrite try_except_eq, bind_eq. unfold py_getitem at 1. rewrite Hm.
  unfold ret at 1. cbv beta iota.
  assert (Hal : in_str_tuple _FORMATS_METHODS_REQUEST (VStr m) = true).
  { apply in_str_tuple_spec. eauto. }
  rewrite Hal. simpl negb. cbv iota.
  rewrite bind_eq. unfold ret at 1. cbv beta iota.
  rewrite bind_eq, getitem_if_same. cbv beta iota.
  rewrite bind_eq. unfold getitem_if, py_getitem. by rewrite Hp, Hd.
Qed.

(** The calls of the remote fetch: none, the request, or the request and
    the write of the data file. *)
Lemma process_json_fetch_world tmp_dir (connection : gmap string pyval)
    url config (w : World) :
  let w' := (process_json_fetch tmp_dir connection url config w).2 in
  w' = w \/
  exists r, w' = log (EHttp r) w
            \/ exists path content,
                 w' = log (EFileWrite path content) (log (EHttp r) w).
Proof.
  cbv zeta.
  destruct (connection !! "url_method") as [mv|] eqn:Hm.
  2:{ left. by rewrite process_json_fetch_no_method. }
  destruct (in_str_tuple _FORMATS_METHODS_REQUEST mv) eqn:Hal.
  2:{ left. by rewrite (process_json_fetch_bad_method _ _ _ mv). }
  apply in_str_tuple_spec in Hal. destruct Hal as (m & -> & Hin).
  assert (Hbody : (exists DATA, body_resolves connection DATA)
                  \/ exists p, connection !! "url_data_post" = Some p
                               /\ connection !! "url_data" = None).
  { destruct (connection !! "url_data_post") as [p|] eqn:Hp.
    - destruct (connection !! "url_data") as [d|] eqn:Hd.
      + left. exists d. right. split; [by rewrite Hp|exact Hd].
      + right. by exists p.
    - left. exists (VDict []). left. by split. }
  destruct Hbody as [[DATA Hbody]|(p & Hp & Hd)].
  2:{ left. by rewrite (process_json_fetch_no_data _ _ _ _ m p). }
  right. eexists.
  rewrite (process_json_fetch_sends tmp_dir connection url config m DATA w Hm
             Hin (getitem_if_body _ _ _ Hbody)).
  destruct (http_send _ _) as [resp|e]; [|by left].
  destruct (status_code resp =? 200); [|by left].
  destruct (resp_json resp) as [data|e]; [|by left].
  right. do 2 eexists. by destruct (file_write _ _ _).
Qed.

(** X13.  A call of [process_json] sends at most one HTTP request. *)
Theorem process_json_one_request (input_file output_file format_list : pyval)
    (parameters : list (string * string)) (connection : gmap string pyval)
    (locale : pyval) (resource : string) (w : World) (evs : list event) :
  trace (process_json input_file output_file format_list parameters
           connection locale resource w).2 = trace w ++ evs ->
  (length (filter (fun ev => is_http ev = true) evs) <= 1)%nat.
Proof.
  intros Htr.
  destruct (process_json_trace_split (fun ev => is_http ev = false)
              input_file output_file format_list parameters connection locale
              resource w ltac:(by intros []) ltac:(reflexivity))
    as (src & rest & Ht & Hp & Hsrc).
  rewrite Ht in Htr. apply app_inv_head in Htr. subst evs.
  assert (Hrest : filter (fun ev => is_http ev = true) rest = []).
  { clear - Hp. induction Hp as [|ev rest Hev Hp IH]; [reflexivity|].
    rewrite filter_cons_False; [exact IH|]. by rewrite Hev. }
  rewrite filter_cons_False by (simpl; discriminate).
  rewrite !filter_app, Hrest. simpl.
  rewrite !length_app. simpl. rewrite Nat.add_0_r.
  destruct Hsrc as [->|[c Hsrc]]; [simpl; lia|].
  revert Hsrc. generalize (log (EMkdtemp (mkdtemp (trace w))) w). intros w1.
  unfold process_json_sources.
  destruct (connection !! "url_file") as [u|] eqn:Hu.
  2:{ destruct (connection !! "data_file"); simpl; intros Hs;
      rewrite <- (app_nil_r (trace w1)) in Hs at 1;
      apply app_inv_head in Hs; subst src; simpl; lia. }
  assert (Hw : forall c0,
             (match process_json_fetch (mkdtemp (trace w)) connection u c0 w1
              with
              | (Ok c2, w') =>
                  (Ok (copy_field connection "jsonql_query" "JsonQLQuery" JPy
                         (copy_field connection "json_query" "JsonQuery" JPy
                            c2)) : result Config, w')
              | (Raise e, w') => (Raise e, w')
              end).2
             = (process_json_fetch (mkdtemp (trace w)) connection u c0 w1).2).
  { intros c0. by destruct (process_json_fetch _ _ _ _ _) as [[?|?] ?]. }
  intros Hs.
  assert (Hf : exists c0,
             trace (process_json_fetch (mkdtemp (trace w)) connection u c0
                      w1).2 = trace w1 ++ src).
  { destruct (connection !! "data_file") as [v|];
      [exists (setDataFile v c)|exists c];
      rewrite <- Hs, bind_eq;
      by destruct (process_json_fetch _ _ _ _ _) as [[?|?] ?]. }
  destruct Hf as [c0 Hf].
  destruct (process_json_fetch_world (mkdtemp (trace w)) connection u c0 w1)
    as [Hw1|[r [Hw1|(path & content & Hw1)]]]; rewrite Hw1 in Hf.
  - rewrite <- (app_nil_r (trace w1)) in Hf at 1.
    apply app_inv_head in Hf. subst src. simpl. lia.
  - simpl in Hf. apply app_inv_head in Hf. subst src. simpl. lia.
  - simpl in Hf. rewrite <- app_assoc in Hf.
    apply app_inv_head in Hf. subst src. simpl. lia.
Qed.

End ProcessJsonTrace.

Section ProcessJsonOutcome.
Context `{RT : Runtime}.

Lemma bind_ok {A B} (m : M A) (k : A -> M B) (w w' : World) (b : B) :
  bind m k w = (Ok b, w') ->
  exists a w1, m w = (Ok a, w1) /\ k a w1 = (Ok b, w').
Proof.
  rewrite bind_eq. destruct (m w) as [[a|e] w1]; [|discriminate]. eauto.
Qed.

Lemma compile_ok (report : pyval) (z : Z) (w w' : World) :
  compile report w = (Ok z, w') ->
  trace w' = trace w ++ [EReportNew (setInput report jvConfig);
                         ECompileToFile; EFlush (sys_out w)].
Proof.
  unfold compile. destruct (negb (py_truthy report)); [discriminate|].
  rewrite try_except_eq, bind_eq. unfold try_finally.
  rewrite bind_eq, jcall_eq.
  destruct (engine_raises (trace w) _); [discriminate|]. cbv beta iota.
  rewrite jcall_eq.
  destruct (engine_raises _ ECompileToFile); [discriminate|].
  intros [= _ <-]. unfold log; simpl. by rewrite <- !app_assoc.
Qed.

(** A preparation that succeeded has compiled the template. *)
Lemma process_json_start_compiled input_file resource config (w w' : World)
    (u : unit) :
  process_json_start input_file resource config w = (Ok u, w') ->
  exists a b, trace w' = trace w ++ a ++ ECompileToFile :: b.
Proof.
  unfold process_json_start. intros H.
  apply bind_ok in H. destruct H as (u1 & w1 & H1 & H).
  apply bind_ok in H. destruct H as (u2 & w2 & H2 & H).
  apply bind_ok in H. destruct H as (z & w3 & H3 & H).
  apply compile_ok in H3.
  assert (Hc : exists e1, trace w1 = trace w ++ e1).
  { assert (Ha : appends (fun _ => True) (process_json_classpath resource)).
    { unfold process_json_classpath.
      repeat first [ apply appends_jcall; exact I | appends_step ]. }
    destruct (Ha w) as (e1 & He1 & _).
    rewrite H1 in He1. eauto. }
  destruct Hc as [e1 Hc].
  assert (H2' : trace w2 = trace w1 ++ [EReportNew config]).
  { rewrite jcall_eq in H2. by injection H2 as _ <-. }
  assert (H4 : exists e4, trace w' = trace w3 ++ e4).
  { destruct (hasAskFilter config).
    - rewrite jcall_eq in H. injection H as _ <-. by eexists.
    - injection H as _ <-. exists []. by rewrite app_nil_r. }
  destruct H4 as [e4 H4].
  exists (e1 ++ [EReportNew config; EReportNew (setInput input_file jvConfig)]),
    (EFlush (sys_out w2) :: e4).
  rewrite H4, H3, H2', Hc. simpl. by rewrite <- !app_assoc.
Qed.

(** The output names of a preparation that succeeded. *)
Lemma process_json_prepare_names tmp_dir input_file output_file formats
    parameters (connection : gmap string pyval) locale resource
    (w w' : World) config file_out out :
  process_json_prepare tmp_dir input_file output_file formats parameters
    connection locale resource w = (Ok (config, file_out, out), w') ->
  (py_truthy output_file = true /\ file_out = None /\ out = output_file)
  \/ (py_truthy output_file = false /\
      exists s,
        input_file = VStr s /\
        file_out = Some (os_path_join (os_path_dirname s)
                           (derived_name s +:+ ".jasper")) /\
        out = VStr (os_path_join (os_path_dirname s)
                      (derived_name s +:+ ".pdf"))).
Proof.
  unfold process_json_prepare. intros H.
  apply bind_ok in H. destruct H as (prepared & w1 & Hc & H).
  apply bind_ok in H. destruct H as (u & w2 & _ & H).
  injection H as -> _.
  unfold process_json_config in Hc.
  apply bind_ok in Hc. destruct Hc as ([[c1 fo] o] & w0 & Ho & Hc).
  apply bind_ok in Hc. destruct Hc as (c2 & w3 & _ & Hc).
  injection Hc as _ <- <- _.
  revert Ho. unfold process_json_output.
  destruct (py_truthy output_file); [intros [= _ <- <- _]; by left|].
  destruct input_file; try discriminate.
  intros [= _ <- <- _]. right. split; trivial. by eexists.
Qed.

(** One step of a chain of calls that are not fills. *)
Lemma not_fill_step {A} (Q : result A * World -> Prop) (m : M unit)
    (k : M A) (w0 w : World) (acc : list event) :
  logs not_fill m ->
  trace w = trace w0 ++ acc -> Forall not_fill acc ->
  (forall e w1 acc', trace w1 = trace w0 ++ acc' -> Forall not_fill acc' ->
                     Q (Raise e, w1)) ->
  (forall w1 acc', trace w1 = trace w0 ++ acc' -> Forall not_fill acc' ->
                   Q (k w1)) ->
  Q ((m ;; k) w).
Proof.
  intros Hm Ht Hacc Hraise Hk. rewrite bind_eq.
  destruct (Hm w) as (_ & _ & evs & Hevs & Hp).
  destruct (m w) as [[u|e] w1]; simpl in Hevs.
  - apply (Hk w1 (acc ++ evs)); [|by apply Forall_app].
    by rewrite Hevs, Ht, <- app_assoc.
  - apply (Hraise e w1 (acc ++ evs)); [|by apply Forall_app].
    by rewrite Hevs, Ht, <- app_assoc.
Qed.

Lemma logs_put_if connection key KEY : logs not_fill (put_if connection key KEY).
Proof. unfold put_if. repeat first [logs_step | reflexivity]. Qed.

(** The fill block: calls that are not fills, then nothing more, or
    [fillReport], or [fillReport] and the export; it ends normally only in
    the last case, and reaches [fillReport] only for [jsonql] and with
    [file_out] bound. *)
Lemma process_json_fill_outcome (connection : gmap string pyval)
    (config : Config) (file_out : option string) (out : pyval) (w : World) :
  exists r w' mid tail,
    process_json_fill connection config file_out out w = (r, w') /\
    trace w' = trace w ++ mid ++ tail /\
    Forall not_fill mid /\
    ((tail = [] /\ forall u, r <> Ok u) \/
     exists f,
       file_out = Some f /\ is_jsonql (getDbType config) = true /\
       ((tail = [EFillReport f] /\ forall u, r <> Ok u)
        \/ tail = [EFillReport f; EExportReportToPdfFile out])).
Proof.
  set (Q := fun x : result unit * World =>
              exists mid tail,
                trace x.2 = trace w ++ mid ++ tail /\
                Forall not_fill mid /\
                ((tail = [] /\ forall u, x.1 <> Ok u) \/
                 exists f,
                   file_out = Some f /\ is_jsonql (getDbType config) = true /\
                   ((tail = [EFillReport f] /\ forall u, x.1 <> Ok u)
                    \/ tail = [EFillReport f; EExportReportToPdfFile out]))).
  assert (HQ : Q (process_json_fill connection config file_out out w)).
  { assert (Hraise : forall (e : pyexn) w1 acc,
               trace w1 = trace w ++ acc -> Forall not_fill acc ->
               Q (reraise "Error: " e w1)).
    { intros e w1 acc Ht Hacc. exists acc, []. simpl.
      rewrite app_nil_r. repeat split; trivial. left. by split. }
    assert (Hw : trace w = trace w ++ []) by by rewrite app_nil_r.
    unfold process_json_fill. rewrite try_except_eq.
    destruct (is_jsonql (getDbType config)) eqn:Hq.
    2:{ simpl. apply (Hraise _ w []); [exact Hw|constructor]. }
    set (Q' := fun x : result unit * World =>
                 Q (match x with
                    | (Ok a, w') => (Ok a, w')
                    | (Raise e, w') => reraise "Error: " e w'
                    end)).
    change (Q' ((jcall (EGetJsonQLDataSource config) ;;
                 put_if connection "json_locale" "JSON_LOCALE" ;;
                 put_if connection "json_date_pattern" "JSON_DATE_PATTERN" ;;
                 put_if connection "json_number_pattern" "JSON_NUMBER_PATTERN" ;;
                 put_if connection "json_time_zone" "JSON_TIME_ZONE" ;;
                 let* file_out :=
                   match file_out with
                   | Some f => ret f
                   | None => raise (Exn UnboundLocalError
                                      (unbound_local_msg "file_out"))
                   end in
                 jcall (EFillReport file_out) ;;
                 jcall (EExportReportToPdfFile out)) w)).
    assert (Hraise' : forall (e : pyexn) w1 acc,
               trace w1 = trace w ++ acc -> Forall not_fill acc ->
               Q' (Raise e, w1)).
    { intros. unfold Q'. eapply Hraise; eauto. }
    apply (not_fill_step Q' _ _ w w []);
      [by apply logs_jcall|exact Hw|constructor|exact Hraise'|].
    intros w1 a1 Ht1 Ha1.
    apply (not_fill_step Q' _ _ w w1 a1);
      [apply logs_put_if|exact Ht1|exact Ha1|exact Hraise'|].
    intros w2 a2 Ht2 Ha2.
    apply (not_fill_step Q' _ _ w w2 a2);
      [apply logs_put_if|exact Ht2|exact Ha2|exact Hraise'|].
    intros w3 a3 Ht3 Ha3.
    apply (not_fill_step Q' _ _ w w3 a3);
      [apply logs_put_if|exact Ht3|exact Ha3|exact Hraise'|].
    intros w4 a4 Ht4 Ha4.
    apply (not_fill_step Q' _ _ w w4 a4);
      [apply logs_put_if|exact Ht4|exact Ha4|exact Hraise'|].
    intros w5 a5 Ht5 Ha5.
    destruct file_out as [f|]; [|by apply (Hraise' _ w5 a5)].
    rewrite bind_eq. unfold ret at 1. cbv beta iota.
    rewrite bind_eq, jcall_eq.
    destruct (engine_raises (trace w5) (EFillReport f)).
    - unfold Q', Q. exists a5, [EFillReport f]. simpl.
      rewrite Ht5, <- app_assoc. repeat split; trivial.
      right. exists f. repeat split; trivial. left. by split.
    - cbv beta iota. rewrite jcall_eq.
      destruct (engine_raises _ (EExportReportToPdfFile out));
        unfold Q', Q; exists a5, [EFillReport f; EExportReportToPdfFile out];
        simpl; rewrite Ht5, <- !app_assoc; repeat split; trivial;
        right; exists f; repeat split; trivial; by right. }
  destruct (process_json_fill connection config file_out out w) as [r w'].
  destruct HQ as (mid & tail & Ht & Hmid & Hcases).
  exists r, w', mid, tail. by repeat split.
Qed.

End ProcessJsonOutcome.

Section ProcessJsonRuns.
Context `{RT : Runtime}.

Lemma logs_process_json_config tmp_dir input_file output_file formats
    parameters connection locale :
  logs not_fill
    (process_json_config tmp_dir input_file output_file formats parameters
       connection locale).
Proof.
  unfold process_json_config, process_json_output.
  repeat first [ apply logs_process_json_sources | logs_step ].
Qed.

(** A preparation that succeeded left the compilation on the trace. *)
Lemma process_json_prepare_compiled tmp_dir input_file output_file formats
    parameters (connection : gmap string pyval) locale resource
    (w w' : World) prepared :
  process_json_prepare tmp_dir input_file output_file formats parameters
    connection locale resource w = (Ok prepared, w') ->
  exists a b, trace w' = trace w ++ a ++ ECompileToFile :: b.
Proof.
  unfold process_json_prepare. intros H.
  apply bind_ok in H. destruct H as (p & w1 & Hc & H).
  apply bind_ok in H. destruct H as (u & w2 & Hs & H).
  injection H as _ <-.
  apply process_json_start_compiled in Hs. destruct Hs as (a & b & Hs).
  destruct (logs_process_json_config tmp_dir input_file output_file formats
              parameters connection locale w) as (_ & _ & e0 & He0 & _).
  rewrite Hc in He0. simpl in He0.
  exists (e0 ++ a), b. rewrite Hs, He0. by rewrite <- !app_assoc.
Qed.

(** Every run of [process_json], laid out: the temporary directory, the
    calls that are not fills, the fill and the export if they are reached,
    and what reaching them requires. *)
Lemma process_json_outcome (input_file output_file format_list : pyval)
    (parameters : list (string * string)) (connection : gmap string pyval)
    (locale : pyval) (resource : string) (w : World) :
  let tmp_dir := mkdtemp (trace w) in
  exists r w' pre tail,
    process_json input_file output_file format_list parameters connection
      locale resource w = (r, w') /\
    trace w' = trace w ++ EMkdtemp tmp_dir :: pre ++ tail ++ [ERmtree tmp_dir] /\
    Forall not_fill pre /\
    ((tail = [] /\ forall z, r <> Ok z) \/
     exists s,
       input_file = VStr s /\ py_truthy output_file = false /\
       connection !! "driver" = Some (VStr "jsonql") /\
       (exists a b, pre = a ++ ECompileToFile :: b) /\
       let f := os_path_join (os_path_dirname s)
                  (derived_name s +:+ ".jasper") in
       let o := VStr (os_path_join (os_path_dirname s)
                        (derived_name s +:+ ".pdf")) in
       ((tail = [EFillReport f] /\ forall z, r <> Ok z) \/
        (tail = [EFillReport f; EExportReportToPdfFile o]
         /\ forall z, r = Ok z -> z = 0))).
Proof.
  intros tmp_dir. unfold process_json. rewrite with_tmpdir_eq. fold tmp_dir.
  set (w1 := log (EMkdtemp tmp_dir) w).
  assert (Hw1 : trace w1 = trace w ++ [EMkdtemp tmp_dir]) by reflexivity.
  rewrite bind_eq. unfold lift.
  destruct (process_json_validate input_file format_list) as [formats|e].
  2:{ exists (Raise e), (log (ERmtree tmp_dir) w1), [], [].
      split; [reflexivity|].
      split; [unfold w1, log; simpl; by rewrite <- ?app_assoc|].
      split; [constructor|]. left. split; [trivial|discriminate]. }
  rewrite try_except_eq, bind_eq.
  destruct (logs_process_json_prepare tmp_dir input_file output_file formats
              parameters connection locale resource w1)
    as (_ & _ & e1 & He1 & Hp1).
  destruct (process_json_prepare tmp_dir input_file output_file formats
              parameters connection locale resource w1)
    as [[[[config fo] out]|e] w2] eqn:Hprep; simpl in He1.
  2:{ do 2 eexists. exists e1, []. split; [reflexivity|].
      split; [|split; [exact Hp1|left; split; [trivial|discriminate]]].
      simpl. rewrite He1. unfold w1, log; simpl. by rewrite <- ?app_assoc. }
  cbv beta iota. rewrite bind_eq.
  destruct (process_json_fill_outcome connection config fo out w2)
    as (r2 & w3 & mid & tail & Hfill & Ht3 & Hmid & Hcases).
  rewrite Hfill.
  assert (Htr : trace (log (ERmtree tmp_dir) w3)
                = trace w ++ EMkdtemp tmp_dir
                  :: (e1 ++ mid) ++ tail ++ [ERmtree tmp_dir]).
  { simpl. rewrite Ht3, He1. unfold w1, log; simpl.
    by rewrite <- ?app_assoc. }
  assert (Hpre : Forall not_fill (e1 ++ mid)) by by apply Forall_app.
  destruct Hcases as [[-> Hno]|(f & -> & Hq & Htail)].
  { destruct r2 as [u|e]; [by destruct (Hno u)|].
    do 2 eexists. exists (e1 ++ mid), []. split; [reflexivity|].
    split; [exact Htr|]. split; [exact Hpre|].
    left. split; [trivial|discriminate]. }
  assert (Hrest : exists s,
             input_file = VStr s /\ py_truthy output_file = false /\
             connection !! "driver" = Some (VStr "jsonql") /\
             (exists a b, e1 ++ mid = a ++ ECompileToFile :: b) /\
             f = os_path_join (os_path_dirname s)
                   (derived_name s +:+ ".jasper") /\
             out = VStr (os_path_join (os_path_dirname s)
                           (derived_name s +:+ ".pdf"))).
  { destruct (process_json_prepare_names _ _ _ _ _ _ _ _ _ _ _ _ _ Hprep)
      as [(_ & [=] & _)|(Hof & s & -> & [= ->] & ->)].
    exists s. repeat split; trivial.
    - apply process_json_db_type_jsonql.
      rewrite <- (process_json_prepare_db_type _ _ _ _ _ _ _ _ _ _ _ _ _ Hprep).
      by apply is_jsonql_true.
    - destruct (process_json_prepare_compiled _ _ _ _ _ _ _ _ _ _ _ Hprep)
        as (a & b & Hc).
      rewrite He1 in Hc. apply app_inv_head in Hc. subst e1.
      exists a, (b ++ mid). by rewrite <- !app_assoc. }
  destruct Hrest as (s & -> & Hof & Hd & Hc & -> & ->).
  destruct Htail as [[-> Hno]| ->].
  - destruct r2 as [u|e]; [by destruct (Hno u)|].
    do 2 eexists. exists (e1 ++ mid). eexists.
    split; [reflexivity|]. split; [exact Htr|]. split; [exact Hpre|].
    right. exists s. repeat split; trivial. left. split; [trivial|discriminate].
  - destruct r2 as [u|e].
    + do 2 eexists. exists (e1 ++ mid). eexists.
      split; [reflexivity|]. split; [exact Htr|]. split; [exact Hpre|].
      right. exists s. repeat split; trivial. right. split; [trivial|].
      by intros z [= <-].
    + do 2 eexists. exists (e1 ++ mid). eexists.
      split; [reflexivity|]. split; [exact Htr|]. split; [exact Hpre|].
      right. exists s. repeat split; trivial. right. split; [trivial|].
      discriminate.
Qed.

(** X14.  With an explicit [output_file], [process_json] never succeeds:
    [file_out] is bound only on the branch that derives the names from
    [input_file], so every such call raises, and neither [fillReport] nor
    the export to PDF is ever called. *)
Theorem process_json_explicit_output_fails
    (input_file output_file format_list : pyval)
    (parameters : list (string * string)) (connection : gmap string pyval)
    (locale : pyval) (resource : string) (w : World) :
  py_truthy output_file = true ->
  exists e w' evs,
    process_json input_file output_file format_list parameters connection
      locale resource w = (Raise e, w') /\
    trace w' = trace w ++ evs /\ Forall not_fill evs.
Proof.
  intros Hof.
  destruct (process_json_outcome input_file output_file format_list parameters
              connection locale resource w)
    as (r & w' & pre & tail & Hrun & Ht & Hpre & Hcases).
  destruct Hcases as [[-> Hno]|(s & _ & Hof' & _)]; [|congruence].
  destruct r as [z|e]; [by destruct (Hno z)|].
  exists e, w', (EMkdtemp (mkdtemp (trace w)) :: pre
                 ++ [ERmtree (mkdtemp (trace w))]).
  split; [exact Hrun|]. split; [exact Ht|].
  constructor; [reflexivity|]. apply Forall_app. split; [exact Hpre|].
  by repeat constructor.
Qed.

(** X15.  [process_json] returns only 0, and only when the driver is
    ['jsonql'], no [output_file] was given and the input file is a string;
    the last three calls of such a run are [fillReport] on the compiled
    report, the export to the PDF, both named after the input file (its
    directory, and its base name up to the first dot), and the removal of
    the temporary directory. *)
Theorem process_json_success (input_file output_file format_list : pyval)
    (parameters : list (string * string)) (connection : gmap string pyval)
    (locale : pyval) (resource : string) (z : Z) (w w' : World) :
  process_json input_file output_file format_list parameters connection
    locale resource w = (Ok z, w') ->
  z = 0 /\ connection !! "driver" = Some (VStr "jsonql") /\
  py_truthy output_file = false /\
  exists s pre,
    input_file = VStr s /\ Forall not_fill pre /\
    trace w'
    = trace w ++ pre
      ++ [EFillReport (os_path_join (os_path_dirname s)
                         (derived_name s +:+ ".jasper"));
          EExportReportToPdfFile
            (VStr (os_path_join (os_path_dirname s)
                     (derived_name s +:+ ".pdf")));
          ERmtree (mkdtemp (trace w))].
Proof.
  intros Hrun.
  destruct (process_json_outcome input_file output_file format_list parameters
              connection locale resource w)
    as (r & w2 & pre & tail & Hrun' & Ht & Hpre & Hcases).
  rewrite Hrun in Hrun'. injection Hrun' as <- <-.
  destruct Hcases as [[_ Hno]|(s & -> & Hof & Hd & _ & Htail)];
    [by destruct (Hno z)|].
  cbv zeta in Htail.
  destruct Htail as [[_ Hno]|[-> Hz]]; [by destruct (Hno z)|].
  split; [by apply Hz|]. split; [exact Hd|]. split; [exact Hof|].
  exists s, (EMkdtemp (mkdtemp (trace w)) :: pre).
  split; [reflexivity|]. split; [by constructor|].
  rewrite Ht. simpl. by rewrite <- ?app_assoc.
Qed.

(** X16.  [process_json] never fills a report it has not just compiled:
    in every run, a call of [fillReport] comes after a call of
    [compileToFile] of the same run. *)
Theorem process_json_compiles_before_fill
    (input_file output_file format_list : pyval)
    (parameters : list (string * string)) (connection : gmap string pyval)
    (locale : pyval) (resource : string) (w : World) (evs : list event)
    (f : string) :
  trace (process_json input_file output_file format_list parameters
           connection locale resource w).2 = trace w ++ evs ->
  In (EFillReport f) evs ->
  exists a b, evs = a ++ ECompileToFile :: b /\ In (EFillReport f) b.
Proof.
  intros Htr Hin.
  destruct (process_json_outcome input_file output_file format_list parameters
              connection locale resource w)
    as (r & w' & pre & tail & Hrun & Ht & Hpre & Hcases).
  rewrite Hrun in Htr. simpl in Htr. rewrite Ht in Htr.
  apply app_inv_head in Htr. subst evs.
  assert (Hnp : ~ In (EFillReport f) pre).
  { intros Hp. rewrite List.Forall_forall in Hpre. apply Hpre in Hp.
    discriminate Hp. }
  destruct Hin as [Hin|Hin]; [discriminate Hin|].
  apply in_app_or in Hin. destruct Hin as [Hin|Hin]; [by destruct Hnp|].
  destruct Hcases as [[-> _]|(s & _ & _ & _ & (a & b & ->) & _)].
  { destruct Hin as [Hin|[]]. discriminate Hin. }
  exists (EMkdtemp (mkdtemp (trace w)) :: a),
    (b ++ tail ++ [ERmtree (mkdtemp (trace w))]).
  split; [simpl; by rewrite <- !app_assoc|].
  apply in_or_app. by right.
Qed.

End ProcessJsonRuns.

Section ProcessJsonErrors.
Context `{RT : Runtime}.

Lemma list_comp_non_string (hay : string) (l : list pyval) :
  Exists (fun key => ~ is_str key) l ->
  exists key,
    In key l /\ ~ is_str key /\
    list_comp (not_in_str hay) l
    = Raise (Exn TypeError
               ("'in <string>' requires string as left operand, not "
                +:+ py_type_name key)).
Proof.
  induction l as [|x xs IH]; intros Hex; [inversion Hex|].
  assert (Hx : is_str x \/ ~ is_str x).
  { destruct x; try (left; by eexists); right; intros [? [=]]. }
  destruct Hx as [[s ->]|Hx].
  - inversion_clear Hex as [? ? H|? ? H]; [destruct H; by eexists|].
    destruct (IH H) as (key & Hin & Hk & Hl).
    exists key. split; [by right|]. split; [exact Hk|].
    simpl. by rewrite Hl.
  - exists x. split; [by left|]. split; [exact Hx|].
    destruct x; try reflexivity. destruct Hx. by eexists.
Qed.

(** X17.  A format list with an element that is not a string makes
    [process_json] fail with the interpreter's [TypeError] of the
    substring test, raised as it is (not as the [NameError] of a rejected
    format), whatever else the list holds; the temporary directory is
    removed all the same. *)
Theorem process_json_non_string_format (input_file output_file : pyval)
    (l : list pyval) (parameters : list (string * string))
    (connection : gmap string pyval) (locale : pyval) (resource : string)
    (w : World) :
  py_truthy input_file = true ->
  Exists (fun key => ~ is_str key) l ->
  let tmp_dir := mkdtemp (trace w) in
  exists key,
    In key l /\ ~ is_str key /\
    process_json input_file output_file (VList l) parameters connection
      locale resource w
    = (Raise (Exn TypeError
                ("'in <string>' requires string as left operand, not "
                 +:+ py_type_name key)),
       log (ERmtree tmp_dir) (log (EMkdtemp tmp_dir) w)).
Proof.
  intros Hin Hex tmp_dir.
  destruct (list_comp_non_string _FORMATS_JSON l Hex) as (key & Hk & Hn & Hl).
  exists key. split; [exact Hk|]. split; [exact Hn|].
  unfold process_json. rewrite with_tmpdir_eq. fold tmp_dir.
  rewrite bind_eq. unfold lift, process_json_validate.
  rewrite Hin. simpl negb. cbv iota. by rewrite Hl.
Qed.

(** X18.  What [process_json] raises, the temporary directory being
    removed in each case.  An exception of the validation, a [NameError]
    or the [TypeError] of X17, comes out as it is, nothing else having
    been done.  After the validation, [process_json] raises exactly when
    its outer [try:] block does, and then a [NameError] whose message is
    ['Error: '] followed by the message of the exception that left the
    block, the calls of the run being those of the block. *)
Theorem process_json_raises (input_file output_file format_list : pyval)
    (parameters : list (string * string)) (connection : gmap string pyval)
    (locale : pyval) (resource : string) (w w' : World) (e : pyexn) :
  process_json input_file output_file format_list parameters connection
    locale resource w = (Raise e, w') ->
  let tmp_dir := mkdtemp (trace w) in
  let w1 := log (EMkdtemp tmp_dir) w in
  (process_json_validate input_file format_list = Raise e
   /\ (exn_class_of e = NameError \/ exn_class_of e = TypeError)
   /\ w' = log (ERmtree tmp_dir) w1)
  \/ (exists formats e0 w2,
        process_json_validate input_file format_list = Ok formats
        /\ process_json_body tmp_dir input_file output_file formats
             parameters connection locale resource w1 = (Raise e0, w2)
        /\ e = Exn NameError ("Error: " +:+ py_str e0)
        /\ w' = log (ERmtree tmp_dir) w2).
Proof.
  intros Hrun tmp_dir w1. revert Hrun.
  unfold process_json. rewrite with_tmpdir_eq. fold tmp_dir w1.
  rewrite bind_eq. unfold lift.
  destruct (process_json_validate input_file format_list) as [formats|ev]
    eqn:Hv.
  - rewrite try_except_eq.
    change (let* (config, file_out, output_file0)
              := process_json_prepare tmp_dir input_file output_file formats
                   parameters connection locale resource in
            process_json_fill connection config file_out output_file0 ;;
            ret 0)
      with (process_json_body tmp_dir input_file output_file formats
              parameters connection locale resource).
    destruct (process_json_body tmp_dir input_file output_file formats
                parameters connection locale resource w1)
      as [[z|e0] w2] eqn:Hb; [discriminate|].
    intros [= <- <-]. right. by exists formats, e0, w2.
  - intros [= <- <-]. left. split; [reflexivity|]. split; [|reflexivity].
    revert Hv. unfold process_json_validate.
    destruct (negb (py_truthy input_file)); [intros [= <-]; by left|].
    destruct format_list; try (intros [= <-]; by left).
    destruct (list_comp (not_in_str _FORMATS_JSON) l) as [tests|e1] eqn:Hl.
    + destruct (py_any tests); [intros [= <-]; by left|discriminate].
    + intros [= <-]. right. clear - Hl. revert e1 Hl.
      induction l as [|x xs IH]; intros e1; simpl; [discriminate|].
      destruct x; try by intros [= <-].
      simpl. destruct (list_comp (not_in_str _FORMATS_JSON) xs);
        [discriminate|].
      intros [= <-]. by apply IH.
Qed.

End ProcessJsonErrors.

Section Names.
Context `{RT : Runtime}.

Lemma py_split_cons (c : ascii) (s : string) :
  exists x xs, py_split c s = x :: xs.
Proof.
  induction s as [|a s (x & xs & IH)]; simpl; [by eexists _, _|].
  destruct (Ascii.eqb a c); [by eexists _, _|].
  rewrite IH. by eexists _, _.
Qed.

Lemma py_split_app (c : ascii) (a b : string) :
  py_split c (a +:+ String c b) = py_split c a ++ py_split c b.
Proof.
  induction a as [|x a IH]; simpl.
  - by rewrite Ascii.eqb_refl.
  - destruct (Ascii.eqb x c); [by rewrite IH|].
    rewrite IH. destruct (py_split_cons c a) as (y & ys & ->). reflexivity.
Qed.

Lemma py_split_none (c : ascii) (s : string) :
  has_char c s = false -> py_split c s = [s].
Proof.
  induction s as [|a s IH]; simpl; [reflexivity|].
  intros H. apply orb_false_iff in H. destruct H as [Ha Hs].
  rewrite Ha, (IH Hs). reflexivity.
Qed.

Lemma last_app_cons {X} (l1 : list X) (x : X) (l2 : list X) (d : X) :
  List.last (l1 ++ x :: l2) d = List.last (x :: l2) d.
Proof.
  induction l1 as [|y l1 IH]; [reflexivity|].
  simpl app. rewrite <- IH. simpl. by destruct (l1 ++ x :: l2) eqn:E;
    [destruct l1; discriminate|].
Qed.

Lemma derived_name_dir (dir base : string) :
  has_char "/" base = false ->
  derived_name (dir +:+ String "/" base) = derived_name base.
Proof.
  intros Hb. unfold derived_name. rewrite py_split_app.
  rewrite (py_split_none "/" base Hb), last_app_cons. reflexivity.
Qed.

Lemma derived_name_dot (name ext : string) :
  has_char "/" name = false -> has_char "." name = false ->
  has_char "/" ext = false ->
  derived_name (name +:+ String "." ext) = name.
Proof.
  intros Hn Hd He. unfold derived_name.
  assert (Hs : has_char "/" (name +:+ String "." ext) = false).
  { clear Hd. induction name as [|a n IH]; simpl in *; [exact He|].
    apply orb_false_iff in Hn. destruct Hn as [-> Hn]. by apply IH. }
  rewrite (py_split_none "/" _ Hs). simpl List.last.
  rewrite py_split_app, (py_split_none "." name Hd). reflexivity.
Qed.

(** X19.  The names [process_json] derives when no [output_file] is
    given: for an input path [dir/name.ext], where [name] has no dot and
    neither [name] nor [ext] a slash, the compiled report it fills from is
    [name.jasper] and the PDF it exports to is [name.pdf], both joined to
    the directory of the input path; everything after the first dot of the
    base name is dropped, also when [ext] has further dots. *)
Theorem process_json_output_names (dir name ext : string)
    (output_file : pyval) (config : Config) (w : World) :
  py_truthy output_file = false ->
  has_char "/" name = false -> has_char "." name = false ->
  has_char "/" ext = false ->
  let s := dir +:+ String "/" (name +:+ String "." ext) in
  process_json_output (VStr s) output_file config w
  = (Ok (jset "Output" (JPy (VStr (os_path_dirname s))) config,
         Some (os_path_join (os_path_dirname s) (name +:+ ".jasper")),
         VStr (os_path_join (os_path_dirname s) (name +:+ ".pdf"))), w).
Proof.
  intros Hof Hn Hd He s. unfold process_json_output. rewrite Hof.
  assert (Hname : derived_name s = name).
  { unfold s. rewrite derived_name_dir; [by apply derived_name_dot|].
    clear Hd. induction name as [|a n IH]; simpl in *; [exact He|].
    apply orb_false_iff in Hn. destruct Hn as [-> Hn]. by apply IH. }
  unfold derived_name in Hname. cbv zeta. by rewrite Hname.
Qed.

End Names.

Module InitFacts.
Import Init.

Section Constructor.
Context `{ENV : InitEnv}.

Lemma get_types_trace (names : list string) (tr : list init_event) :
  exists bound,
    (get_types names tr).2 = tr ++ map IGetType bound /\
    bound `prefix_of` names /\
    ((get_types names tr).1 = None -> bound = names).
Proof.
  revert tr. induction names as [|name names IH]; intros tr.
  - exists []. simpl. rewrite app_nil_r. by repeat split.
  - simpl. unfold icall.
    destruct (init_raises tr (IGetType name)) as [e|].
    + exists [name]. simpl. repeat split; [|discriminate].
      by apply prefix_cons, prefix_nil.
    + destruct (IH (tr ++ [IGetType name])) as (bound & Ht & Hp & Hn).
      exists (name :: bound). rewrite Ht. simpl. rewrite <- app_assoc.
      repeat split; [by apply prefix_cons|].
      intros H. by rewrite (Hn H).
Qed.

Lemma init_started (jvm_maxmem jvm_classpath : pyval) :
  let libs := join script_dir ["jasperstarter"; "lib"] in
  let jar := join libs ["jasperstarter.jar"] in
  let ev := IInitJvm jvm_maxmem
              [match jvm_classpath with
               | VNone => VStr jar
               | _ => jvm_classpath
               end] in
  isdir libs = true -> exists_ jar = true ->
  __init__ jvm_maxmem jvm_classpath
  = match init_raises [] ev with
    | Some e => (Raise e, [ev])
    | None =>
        match get_types TYPES [ev] with
        | (Some e, tr) => (Raise e, tr)
        | (None, tr) =>
            (Ok {| WINDOWS := String.eqb os_name "nt";
                   SCRIPT_DIR := script_dir;
                   LIBS := libs;
                   JDBC_DIR := join script_dir ["jasperstarter"; "jdbc"];
                   JDBC_FILE := join script_dir
                                  ["jasperstarter"; "jdbc"; "postgresql.jar"];
                   CLASSPATH := jar |}, tr)
        end
    end.
Proof.
  cbv zeta. intros Hd Hj. unfold __init__. rewrite Hd, Hj.
  simpl negb. cbv iota. unfold icall at 1.
  by destruct jvm_classpath.
Qed.

Lemma all_return_nil (tr : list init_event) : all_return tr [].
Proof. intros pre ev Hp. apply prefix_nil_inv in Hp. by destruct pre. Qed.

Lemma all_return_cons (tr : list init_event) (x : init_event)
    (l : list init_event) :
  init_raises tr x = None -> all_return (tr ++ [x]) l ->
  all_return tr (x :: l).
Proof.
  intros Hx Hl pre ev Hp. destruct pre as [|y pre]; simpl in Hp.
  - apply prefix_cons_inv_1 in Hp. subst. by rewrite app_nil_r.
  - pose proof (prefix_cons_inv_1 _ _ _ _ Hp) as ->.
    apply prefix_cons_inv_2 in Hp. specialize (Hl pre ev Hp).
    by rewrite <- app_assoc in Hl.
Qed.

Lemma all_return_prefix (tr l l' : list init_event) :
  l `prefix_of` l' -> all_return tr l' -> all_return tr l.
Proof. intros Hl H pre ev Hp. apply H. by etrans. Qed.

(** The class bindings stop at the first [get_type] that raises, with its
    exception; they end normally only when every one of them returned. *)
Lemma get_types_outcome (names : list string) (tr : list init_event) :
  match get_types names tr with
  | (None, tr') =>
      tr' = tr ++ map IGetType names /\ all_return tr (map IGetType names)
  | (Some e, tr') =>
      exists pre name,
        (pre ++ [name]) `prefix_of` names /\
        tr' = tr ++ map IGetType pre ++ [IGetType name] /\
        all_return tr (map IGetType pre) /\
        init_raises (tr ++ map IGetType pre) (IGetType name) = Some e
  end.
Proof.
  revert tr. induction names as [|name names IH]; intros tr.
  - simpl. rewrite app_nil_r. split; [reflexivity|apply all_return_nil].
  - simpl. unfold icall.
    destruct (init_raises tr (IGetType name)) as [e|] eqn:E.
    + exists [], name. simpl. rewrite app_nil_r.
      split; [by apply prefix_cons, prefix_nil|].
      split; [reflexivity|]. split; [apply all_return_nil|exact E].
    + specialize (IH (tr ++ [IGetType name])).
      destruct (get_types names (tr ++ [IGetType name])) as [[e|] tr'].
      * destruct IH as (pre & n & Hp & -> & Ha & He).
        exists (name :: pre), n. simpl.
        split; [by apply prefix_cons|].
        split; [by rewrite <- app_assoc|].
        split; [by apply all_return_cons|].
        by rewrite <- app_assoc in He.
      * destruct IH as [-> Ha]. rewrite <- app_assoc.
        split; [reflexivity|]. by apply all_return_cons.
Qed.

(** X20.  The constructor starts the Java runtime only when the bundled
    library directory and the bundled jar both exist, also when a class
    path is passed in; failing that it raises [NameError] naming the
    library directory and calls nothing.  When it starts the runtime it
    does so once, before any class is bound, with a class path of exactly
    one entry, the bundled jar or else the one passed in (which replaces
    the jar), and then binds the classes in the order of the source.  It
    stops at the first call that raises: every call before the last one
    made has returned; when the last one raises, the constructor raises
    that exception; and when it returns, all the classes have been bound
    and the constructor returns the object. *)
Theorem init_requires_bundle (jvm_maxmem jvm_classpath : pyval) :
  let libs := join script_dir ["jasperstarter"; "lib"] in
  let jar := join libs ["jasperstarter.jar"] in
  let start := IInitJvm jvm_maxmem
                 [match jvm_classpath with
                  | VNone => VStr jar
                  | _ => jvm_classpath
                  end] in
  (isdir libs = false ->
   __init__ jvm_maxmem jvm_classpath
   = (Raise (Exn NameError ("Unable to find lib in " +:+ libs)), [])) /\
  (isdir libs = true -> exists_ jar = false ->
   __init__ jvm_maxmem jvm_classpath
   = (Raise (Exn NameError ("Unable to find jasperstarter in " +:+ libs)),
      [])) /\
  (isdir libs = true -> exists_ jar = true ->
   exists bound done last,
     (__init__ jvm_maxmem jvm_classpath).2 = start :: map IGetType bound /\
     bound `prefix_of` TYPES /\
     start :: map IGetType bound = done ++ [last] /\
     all_return [] done /\
     match init_raises done last with
     | Some e => (__init__ jvm_maxmem jvm_classpath).1 = Raise e
     | None =>
         bound = TYPES /\
         exists self,
           (__init__ jvm_maxmem jvm_classpath).1 = Ok self /\
           CLASSPATH self = jar /\ LIBS self = libs
     end).
Proof.
  cbv zeta. split; [|split].
  - unfold __init__. intros ->. reflexivity.
  - unfold __init__. intros -> ->. reflexivity.
  - intros Hd Hj. rewrite (init_started _ _ Hd Hj).
    set (ev := IInitJvm _ _).
    destruct (init_raises [] ev) as [e|] eqn:E.
    + exists [], [], ev. simpl.
      split; [reflexivity|]. split; [apply prefix_nil|].
      split; [reflexivity|]. split; [apply all_return_nil|].
      by rewrite E.
    + pose proof (get_types_outcome TYPES [ev]) as Ho.
      destruct (get_types TYPES [ev]) as [[e|] tr].
      * destruct Ho as (pre & name & Hp & -> & Ha & He).
        exists (pre ++ [name]), (ev :: map IGetType pre), (IGetType name).
        simpl. rewrite map_app. simpl.
        split; [reflexivity|]. split; [exact Hp|]. split; [reflexivity|].
        split; [by apply all_return_cons|].
        simpl in He. by rewrite He.
      * destruct Ho as [-> Ha].
        set (l := "net.sf.jasperreports.engine.JasperExportManager").
        assert (Ht : TYPES = removelast TYPES ++ [l]) by reflexivity.
        exists TYPES, (ev :: map IGetType (removelast TYPES)), (IGetType l).
        split; [reflexivity|]. split; [reflexivity|].
        split; [by rewrite Ht at 1; rewrite map_app|].
        split.
        -- apply all_return_cons; [exact E|].
           eapply all_return_prefix; [|exact Ha].
           rewrite Ht at 2. rewrite map_app. by apply prefix_app_r.
        -- assert (Hl : init_raises (ev :: map IGetType (removelast TYPES))
                          (IGetType l) = None).
           { apply (Ha (map IGetType (removelast TYPES)) (IGetType l)).
             rewrite Ht at 2. by rewrite map_app. }
           rewrite Hl. split; [reflexivity|].
           eexists. split; [reflexivity|]. by split.
Qed.

End Constructor.

End InitFacts.

(** * The further properties at concrete inputs *)


(** X2 at a concrete input: two formats, an engine that accepts all. *)
Lemma process_success_exports_all_witness :
  exists z w',
    @process quiet (VStr "/a/r.jasper") (VBool false)
      (VList [VStr "pdf"; VStr "xls"]) [] ∅ (VStr "pt_BR") EmptyString w0
    = (Ok z, w')
    /\ z = 0
    /\ exists pre n ms,
         Forall2 exports [VStr "pdf"; VStr "xls"] ms /\
         trace w' = trace w0 ++ pre
                    ++ [ESetOut (PrintStreamOver n); EFill] ++ map EExport ms
                    ++ [EFlush (PrintStreamOver n); ESetIn (sys_in w0);
                        ESetOut (sys_out w0)].
Proof.
  destruct (@process quiet (VStr "/a/r.jasper") (VBool false)
              (VList [VStr "pdf"; VStr "xls"]) [] ∅ (VStr "pt_BR")
              EmptyString w0) as [[z|e] w'] eqn:E.
  - exists z, w'. split; [reflexivity|].
    destruct (@process_success_exports_all quiet _ _ _ _ _ _ _ _ _ _ E)
      as (Hz & formats & pre & n & ms & [= <-] & H2 & _ & Ht).
    split; [exact Hz|]. by exists pre, n, ms.
  - exfalso. vm_compute in E. discriminate E.
Defined.

(** X4 at a concrete input: an engine that rejects every export. *)
Lemma process_export_chain_total_witness :
  let rt := sample_runtime
              (fun ev => match ev with
                         | EExport _ => Some "disk full"
                         | _ => None
                         end)
              (Ok (Response 200 (Ok (VDict [])))) in
  Forall in_FORMATS [VStr "pdf"; VStr "csv"] /\
  exists e w',
    for_each (@process_export rt) [VStr "pdf"; VStr "csv"] w0
    = (Raise e, w')
    /\ exn_class_of e = RuntimeError.
Proof.
  intros rt.
  assert (Hf : Forall in_FORMATS [VStr "pdf"; VStr "csv"]).
  { repeat constructor; eexists; (split; [reflexivity|]); simpl; tauto. }
  split; [exact Hf|].
  destruct (for_each (@process_export rt) [VStr "pdf"; VStr "csv"] w0)
    as [[u|e] w'] eqn:E.
  - exfalso. vm_compute in E. discriminate E.
  - exists e, w'. split; [reflexivity|].
    apply (proj2 (@process_export_chain_total rt [VStr "pdf"; VStr "csv"] w0)
             Hf e w' E).
Defined.

(** X5, X6 and X7 at a concrete input: a MySQL connection with a user and
    [csv_first_row] set to [False]. *)
Lemma process_db_type_resolved_witness :
  exists config,
    @process_config quiet (VStr "/a/r.jasper") (VBool false) [VStr "pdf"] []
      (conn [("driver", VStr "mysql")]) (VStr "pt_BR") w0 = (Ok config, w0)
    /\ getDbType config = Some (JDs mysql).
Proof.
  destruct (@process_config quiet (VStr "/a/r.jasper") (VBool false)
              [VStr "pdf"] [] (conn [("driver", VStr "mysql")]) (VStr "pt_BR")
              w0) as [[config|e] w'] eqn:E.
  - assert (w' = w0) as -> by (vm_compute in E; by injection E as _ <-).
    exists config. split; [reflexivity|].
    destruct (@process_db_type_resolved quiet _ _ _ _ _ _ _ _ _ E)
      as (Hd & _ & _).
    rewrite List.Forall_forall in Hd.
    apply (Hd ("mysql", mysql)); [simpl; tauto|reflexivity].
  - exfalso. vm_compute in E. discriminate E.
Defined.

Lemma process_csv_first_row_witness :
  let connection := conn [("driver", VStr "csv");
                          ("csv_first_row", VBool false)] in
  connection !! "csv_first_row" = Some (VBool false) /\
  exists config,
    @process_config quiet (VStr "/a/r.jasper") (VBool false) [VStr "pdf"] []
      connection (VStr "pt_BR") w0 = (Ok config, w0)
    /\ config !! "CsvFirstRow" = Some (JBool true).
Proof.
  intros connection. split; [reflexivity|].
  destruct (@process_config quiet (VStr "/a/r.jasper") (VBool false)
              [VStr "pdf"] [] connection (VStr "pt_BR") w0)
    as [[config|e] w'] eqn:E.
  - assert (w' = w0) as -> by (vm_compute in E; by injection E as _ <-).
    exists config. split; [reflexivity|].
    apply (proj1 (@process_csv_first_row quiet _ _ _ _ _ _ _ _ _ E)
             (VBool false)).
    reflexivity.
  - exfalso. vm_compute in E. discriminate E.
Defined.

Lemma process_copies_fields_witness :
  let connection := conn [("driver", VStr "mysql"); ("username", VStr "u");
                          ("jdbc_dir", VStr "/opt/jdbc")] in
  exists config,
    @process_config quiet (VStr "/a/r.jasper") (VBool false) [VStr "pdf"] []
      connection (VStr "pt_BR") w0 = (Ok config, w0)
    /\ config !! "DbUser" = Some (JPy (VStr "u"))
    /\ config !! "JdbcDir" = Some (JFile (VStr "/opt/jdbc"))
    /\ config !! "DbPasswd" = None.
Proof.
  intros connection.
  destruct (@process_config quiet (VStr "/a/r.jasper") (VBool false)
              [VStr "pdf"] [] connection (VStr "pt_BR") w0)
    as [[config|e] w'] eqn:E.
  - assert (w' = w0) as -> by (vm_compute in E; by injection E as _ <-).
    exists config. split; [reflexivity|].
    pose proof (@process_copies_fields quiet _ _ _ _ _ _ _ _ _ E) as Hf.
    rewrite List.Forall_forall in Hf.
    split; [|split].
    + apply (Hf ("username", "DbUser", JPy)). unfold COPIED_FIELDS.
      simpl. tauto.
    + apply (Hf ("jdbc_dir", "JdbcDir", JFile)). unfold COPIED_FIELDS.
      simpl. tauto.
    + apply (Hf ("password", "DbPasswd", JPy)). unfold COPIED_FIELDS.
      simpl. tauto.
  - exfalso. vm_compute in E. discriminate E.
Defined.

(** X8 at a concrete input: the key ['sslmode']. *)
Lemma process_ignores_unknown_keys_witness :
  ~ In "sslmode" PROCESS_KEYS /\
  @process quiet (VStr "/a/r.jasper") (VBool false) (VList [VStr "pdf"]) []
    (<["sslmode" := VStr "require"]> (conn [("driver", VStr "postgres")]))
    (VStr "pt_BR") EmptyString w0
  = @process quiet (VStr "/a/r.jasper") (VBool false) (VList [VStr "pdf"]) []
      (conn [("driver", VStr "postgres")]) (VStr "pt_BR") EmptyString w0.
Proof.
  assert (Hk : ~ In "sslmode" PROCESS_KEYS).
  { unfold PROCESS_KEYS, COPIED_FIELDS. simpl. intros H.
    repeat (destruct H as [H|H]; [discriminate H|]). exact H. }
  split; [exact Hk|].
  apply (@process_ignores_unknown_keys quiet). exact Hk.
Defined.

(** X10 at a concrete input: no resource. *)
Lemma process_classpath_entries_witness :
  (forall tr a, @engine_raises quiet tr (EClasspathAdd a) = None) /\
  @process_classpath quiet EmptyString w0
  = (Ok tt, {| sys_in := sys_in w0; sys_out := sys_out w0;
               trace := [EClasspathAdd (JFile (VStr (@JDBC_FILE quiet)))] |}).
Proof.
  assert (Hok : forall tr a, @engine_raises quiet tr (EClasspathAdd a) = None)
    by reflexivity.
  split; [exact Hok|].
  apply (@process_classpath_entries quiet EmptyString w0 Hok).
Defined.

(** X12 and X13 at a concrete input: a local data file; a remote one. *)
Lemma process_json_local_source_witness :
  let connection := conn [("driver", VStr "jsonql");
                          ("data_file", VStr "/a/d.json")] in
  connection !! "url_file" = None /\
  exists evs,
    trace (@process_json quiet (VStr "/a/r.jrxml") (VBool false)
             (VList [VStr "pdf"]) [] connection (VBool false) EmptyString
             w0).2 = trace w0 ++ evs
    /\ Forall (fun ev => remote_event ev = false) evs.
Proof.
  intros connection. split; [reflexivity|].
  apply (@process_json_local_source quiet). reflexivity.
Defined.

Lemma process_json_one_request_witness :
  let connection := conn [("driver", VStr "jsonql");
                          ("url_file", VStr "http://h/d");
                          ("url_method", VStr "GET")] in
  let evs := trace (@process_json quiet (VStr "/a/r.jrxml") (VBool false)
                      (VList [VStr "pdf"]) [] connection (VBool false)
                      EmptyString w0).2 in
  trace (@process_json quiet (VStr "/a/r.jrxml") (VBool false)
           (VList [VStr "pdf"]) [] connection (VBool false) EmptyString w0).2
  = trace w0 ++ evs /\
  (length (filter (fun ev => is_http ev = true) evs) <= 1)%nat.
Proof.
  intros connection evs. split; [reflexivity|].
  apply (@process_json_one_request quiet (VStr "/a/r.jrxml") (VBool false)
           (VList [VStr "pdf"]) [] connection (VBool false) EmptyString w0).
  reflexivity.
Defined.

(** X14 at a concrete input: an explicit output path. *)
Lemma process_json_explicit_output_fails_witness :
  py_truthy (VStr "/out/r.pdf") = true /\
  exists e w' evs,
    @process_json quiet (VStr "/a/r.jrxml") (VStr "/out/r.pdf")
      (VList [VStr "pdf"]) []
      (conn [("driver", VStr "jsonql"); ("data_file", VStr "/a/d.json")])
      (VBool false) EmptyString w0 = (Raise e, w')
    /\ trace w' = trace w0 ++ evs /\ Forall not_fill evs.
Proof.
  split; [reflexivity|].
  apply (@process_json_explicit_output_fails quiet). reflexivity.
Defined.

(** X15 and X16 at a concrete input: the driver ['jsonql'] with a data
    file and no output file, an engine that accepts all. *)
Lemma process_json_success_witness :
  exists z w',
    @process_json quiet (VStr "/a/r.jrxml") (VBool false)
      (VList [VStr "pdf"]) []
      (conn [("driver", VStr "jsonql"); ("data_file", VStr "/a/d.json")])
      (VBool false) EmptyString w0 = (Ok z, w')
    /\ z = 0.
Proof.
  destruct (@process_json quiet (VStr "/a/r.jrxml") (VBool false)
              (VList [VStr "pdf"]) []
              (conn [("driver", VStr "jsonql");
                     ("data_file", VStr "/a/d.json")])
              (VBool false) EmptyString w0) as [[z|e] w'] eqn:E.
  - exists z, w'. split; [reflexivity|].
    apply (proj1 (@process_json_success quiet _ _ _ _ _ _ _ _ _ _ E)).
  - exfalso. vm_compute in E. discriminate E.
Defined.

Lemma process_json_compiles_before_fill_witness :
  let run := @process_json quiet (VStr "/a/r.jrxml") (VBool false)
               (VList [VStr "pdf"]) []
               (conn [("driver", VStr "jsonql");
                      ("data_file", VStr "/a/d.json")])
               (VBool false) EmptyString w0 in
  trace run.2 = trace w0 ++ trace run.2 /\
  In (EFillReport "/a/r.jasper") (trace run.2) /\
  exists a b, trace run.2 = a ++ ECompileToFile :: b
              /\ In (EFillReport "/a/r.jasper") b.
Proof.
  intros run.
  assert (Hin : In (EFillReport "/a/r.jasper") (trace run.2)).
  { vm_compute. repeat (first [left; reflexivity | right]). }
  split; [reflexivity|]. split; [exact Hin|].
  apply (@process_json_compiles_before_fill quiet (VStr "/a/r.jrxml")
           (VBool false) (VList [VStr "pdf"]) []
           (conn [("driver", VStr "jsonql"); ("data_file", VStr "/a/d.json")])
           (VBool false) EmptyString w0 (trace run.2) "/a/r.jasper" eq_refl
           Hin).
Defined.

(** X17 and X18 at concrete inputs: a number in the format list; the
    format ['xls']. *)
Lemma process_json_non_string_format_witness :
  let tmp_dir := @mkdtemp quiet (trace w0) in
  py_truthy (VStr "/a/r.jrxml") = true /\
  Exists (fun key => ~ is_str key) [VStr "pdf"; VInt 1] /\
  exists key,
    In key [VStr "pdf"; VInt 1] /\ ~ is_str key /\
    @process_json quiet (VStr "/a/r.jrxml") (VBool false)
      (VList [VStr "pdf"; VInt 1]) [] ∅ (VBool false) EmptyString w0
    = (Raise (Exn TypeError
                ("'in <string>' requires string as left operand, not "
                 +:+ py_type_name key)),
       log (ERmtree tmp_dir) (log (EMkdtemp tmp_dir) w0)).
Proof.
  intros tmp_dir.
  assert (Hex : Exists (fun key => ~ is_str key) [VStr "pdf"; VInt 1]).
  { right. left. intros [s [=]]. }
  split; [reflexivity|]. split; [exact Hex|].
  apply (@process_json_non_string_format quiet (VStr "/a/r.jrxml")
           (VBool false) [VStr "pdf"; VInt 1] [] ∅ (VBool false) EmptyString
           w0 eq_refl Hex).
Defined.

(** X18 at concrete inputs: the format ['xls'], and a connection that
    names no data source. *)
Lemma process_json_raises_witness :
  (exists e w',
     @process_json quiet (VStr "/a/r.jrxml") (VBool false)
       (VList [VStr "xls"]) [] ∅ (VBool false) EmptyString w0 = (Raise e, w')
     /\ process_json_validate (VStr "/a/r.jrxml") (VList [VStr "xls"])
        = Raise e
     /\ exn_class_of e = NameError) /\
  (exists e e0 w' w2,
     @process_json quiet (VStr "/a/r.jrxml") (VBool false)
       (VList [VStr "pdf"]) [] (conn [("driver", VStr "jsonql")])
       (VBool false) EmptyString w0 = (Raise e, w')
     /\ @process_json_body quiet (@mkdtemp quiet (trace w0))
          (VStr "/a/r.jrxml") (VBool false) [VStr "pdf"] []
          (conn [("driver", VStr "jsonql")]) (VBool false) EmptyString
          (log (EMkdtemp (@mkdtemp quiet (trace w0))) w0) = (Raise e0, w2)
     /\ e = Exn NameError ("Error: " +:+ py_str e0)
     /\ w' = log (ERmtree (@mkdtemp quiet (trace w0))) w2).
Proof.
  split.
  - destruct (@process_json quiet (VStr "/a/r.jrxml") (VBool false)
                (VList [VStr "xls"]) [] ∅ (VBool false) EmptyString w0)
      as [[z|e] w'] eqn:E.
    + exfalso. vm_compute in E. discriminate E.
    + exists e, w'. split; [reflexivity|].
      destruct (@process_json_raises quiet _ _ _ _ _ _ _ _ _ _ E)
        as [(Hv & Hc & _)|(formats & e0 & w2 & Hv & _)].
      * split; [exact Hv|].
        vm_compute in Hv. injection Hv as <-. reflexivity.
      * exfalso. vm_compute in Hv. discriminate Hv.
  - destruct (@process_json quiet (VStr "/a/r.jrxml") (VBool false)
                (VList [VStr "pdf"]) [] (conn [("driver", VStr "jsonql")])
                (VBool false) EmptyString w0) as [[z|e] w'] eqn:E.
    + exfalso. vm_compute in E. discriminate E.
    + destruct (@process_json_raises quiet _ _ _ _ _ _ _ _ _ _ E)
        as [(Hv & _)|(formats & e0 & w2 & Hv & Hb & He & Hw)].
      * exfalso. vm_compute in Hv. discriminate Hv.
      * injection Hv as <-. exists e, e0, w', w2. by repeat split.
Defined.

(** X19 at a concrete input: [/a/r.v2.jrxml]. *)
Lemma process_json_output_names_witness :
  py_truthy (VBool false) = false /\
  has_char "/" "r" = false /\ has_char "." "r" = false /\
  has_char "/" "v2.jrxml" = false /\
  @process_json_output quiet (VStr "/a/r.v2.jrxml") (VBool false) jvConfig w0
  = (Ok (jset "Output" (JPy (VStr "/a")) jvConfig,
         Some "/a/r.jasper", VStr "/a/r.pdf"), w0).
Proof.
  repeat (split; [reflexivity|]).
  apply (@process_json_output_names quiet "/a" "r" "v2.jrxml" (VBool false)
           jvConfig w0); reflexivity.
Defined.

(** X20 at concrete inputs: an installation without its jar, a complete
    one started with a class path of the caller, and a complete one whose
    runtime lacks the second class. *)
Lemma init_requires_bundle_witness :
  let libs := "/srv/pyreportjasper/jasperstarter/lib" in
  let jar := "/srv/pyreportjasper/jasperstarter/lib/jasperstarter.jar" in
  @Init.__init__ (Init.sample_env [libs]) (VStr "512M") VNone
  = (Raise (Exn NameError ("Unable to find jasperstarter in " +:+ libs)), [])
  /\
  ((@Init.__init__ (Init.sample_env [libs; jar]) (VStr "512M")
      (VStr "/opt/my.jar")).2
   = Init.IInitJvm (VStr "512M") [VStr "/opt/my.jar"]
     :: map Init.IGetType Init.TYPES
   /\ exists self,
        (@Init.__init__ (Init.sample_env [libs; jar]) (VStr "512M")
           (VStr "/opt/my.jar")).1 = Ok self
        /\ Init.CLASSPATH self = jar)
  /\
  ((@Init.__init__ (Init.sample_env_without [libs; jar] "java.io.File")
      (VStr "512M") VNone).2
   = [Init.IInitJvm (VStr "512M") [VStr jar];
      Init.IGetType "java.util.Arrays"; Init.IGetType "java.io.File"]
   /\ (@Init.__init__ (Init.sample_env_without [libs; jar] "java.io.File")
         (VStr "512M") VNone).1
      = Raise (Exn ValueError "Java class 'java.io.File' not found")).
Proof.
  intros libs jar. split; [|split].
  - apply (proj1 (proj2 (@InitFacts.init_requires_bundle
                           (Init.sample_env [libs]) (VStr "512M") VNone)));
      reflexivity.
  - destruct (proj2 (proj2 (@InitFacts.init_requires_bundle
                              (Init.sample_env [libs; jar]) (VStr "512M")
                              (VStr "/opt/my.jar"))) eq_refl eq_refl)
      as (bound & done & last & Ht & _ & _ & _ & Hm).
    simpl in Hm. destruct Hm as (-> & self & Hs & Hc & _).
    split; [exact Ht|]. exists self. by split.
  - destruct (proj2 (proj2 (@InitFacts.init_requires_bundle
                              (Init.sample_env_without [libs; jar]
                                 "java.io.File") (VStr "512M") VNone))
                eq_refl eq_refl)
      as (bound & done & last & Ht & _ & Hs & _ & Hm).
    assert (Htr : (@Init.__init__
                     (Init.sample_env_without [libs; jar] "java.io.File")
                     (VStr "512M") VNone).2
                  = [Init.IInitJvm (VStr "512M") [VStr jar];
                     Init.IGetType "java.util.Arrays"]
                    ++ [Init.IGetType "java.io.File"]) by reflexivity.
    split; [exact Htr|].
    rewrite <- Ht, Htr in Hs. apply app_inj_tail in Hs as [<- <-].
    exact Hm.
Defined.

(** C8 at a concrete input: two formats, an engine that accepts all. *)
Lemma process_restores_streams_witness :
  let run := @process quiet (VStr "/a/r.jasper") (VBool false)
               (VList [VStr "pdf"; VStr "xls"]) [] ∅ (VStr "pt_BR")
               EmptyString w0 in
  sys_in run.2 = Original 0 /\ sys_out run.2 = Original 1 /\
  exists cp config n ms,
    Forall classpath_event cp /\
    trace run.2
    = cp ++ [EReportNew config]
      ++ [ESetOut (PrintStreamOver n); EFill] ++ map EExport ms
      ++ [EFlush (PrintStreamOver n); ESetIn (Original 0);
          ESetOut (Original 1)].
Proof.
  intros run.
  destruct (@process_restores_streams quiet (VStr "/a/r.jasper") (VBool false)
              (VList [VStr "pdf"; VStr "xls"]) [] ∅ (VStr "pt_BR")
              EmptyString w0)
    as (Hi & Ho & cp & report & phase & Ht & Hcp & Hcase).
  split; [exact Hi|]. split; [exact Ho|].
  destruct Hcase as [(_ & _ & e & He)|(config & -> & Hm)].
  - exfalso. vm_compute in He. discriminate He.
  - assert (Hn : @engine_raises quiet (trace w0 ++ cp) (EReportNew config)
                 = None) by reflexivity.
    rewrite Hn in Hm. destruct Hm as (n & ms & ->).
    exists cp, config, n, ms. split; [exact Hcp|exact Ht].
Defined.

(** C5 at concrete inputs: an endpoint that answers 404, the method
    ['DELETE'], and an endpoint that answers 200 with [{}]. *)
Lemma process_json_remote_fetch_witness :
  let get := conn [("driver", VStr "jsonql"); ("url_file", VStr "http://h/d");
                   ("url_method", VStr "GET")] in
  let delete := conn [("driver", VStr "jsonql");
                      ("url_file", VStr "http://h/d");
                      ("url_method", VStr "DELETE")] in
  let tmp_dir := "/tmp/tmpk3v9x2aa" in
  let file_json := "/tmp/tmpk3v9x2aa/data_report.json" in
  let req := Request (VStr "GET") (VStr "http://h/d") (VDict []) (VDict [])
               (VDict []) in
  let w1 := log (EMkdtemp tmp_dir) w0 in
  process_json_validate (VStr "/a/r.jrxml") (VList [VStr "pdf"])
  = Ok [VStr "pdf"] /\
  output_known (VStr "/a/r.jrxml") (VBool false) /\
  get !! "url_file" = Some (VStr "http://h/d") /\
  delete !! "url_file" = Some (VStr "http://h/d") /\
  @process_json not_found (VStr "/a/r.jrxml") (VBool false)
    (VList [VStr "pdf"]) [] get (VBool false) EmptyString w0
  = (Raise (Exn NameError
              "Error: Error request: Error request status code: 404"),
     log (ERmtree tmp_dir) (log (EHttp req) w1)) /\
  @process_json quiet (VStr "/a/r.jrxml") (VBool false)
    (VList [VStr "pdf"]) [] delete (VBool false) EmptyString w0
  = (Raise (Exn NameError "Error: Error request: Invalid method request!"),
     log (ERmtree tmp_dir) w1) /\
  exists config rest,
    trace (@process_json quiet (VStr "/a/r.jrxml") (VBool false)
             (VList [VStr "pdf"]) [] get (VBool false) EmptyString w0).2
    = [EMkdtemp tmp_dir; EHttp req; EFileWrite file_json "{}";
       EReportNew config] ++ rest
    /\ config !! "DataFile" = Some (JFile (VStr file_json)).
Proof.
  intros get delete tmp_dir file_json req w1.
  assert (Hout : output_known (VStr "/a/r.jrxml") (VBool false)).
  { right. by eexists. }
  split; [reflexivity|]. split; [exact Hout|].
  split; [reflexivity|]. split; [reflexivity|].
  split; [|split].
  - pose proof (proj1 (proj2 (@process_json_remote_fetch not_found
                                (VStr "/a/r.jrxml") (VBool false)
                                (VList [VStr "pdf"]) [] get (VBool false)
                                EmptyString [VStr "pdf"] (VStr "http://h/d")
                                w0 eq_refl Hout eq_refl))
                  "GET" (VDict []) eq_refl) as H.
    apply H; [simpl; tauto|]. left. split; reflexivity.
  - pose proof (proj1 (@process_json_remote_fetch quiet
                         (VStr "/a/r.jrxml") (VBool false)
                         (VList [VStr "pdf"]) [] delete (VBool false)
                         EmptyString [VStr "pdf"] (VStr "http://h/d")
                         w0 eq_refl Hout eq_refl)
                  (VStr "DELETE") eq_refl) as H.
    apply H. intros (m & [= <-] & Hin). simpl in Hin.
    repeat (destruct Hin as [Hin|Hin]; [discriminate Hin|]). exact Hin.
  - pose proof (proj1 (proj2 (@process_json_remote_fetch quiet
                                (VStr "/a/r.jrxml") (VBool false)
                                (VList [VStr "pdf"]) [] get (VBool false)
                                EmptyString [VStr "pdf"] (VStr "http://h/d")
                                w0 eq_refl Hout eq_refl))
                  "GET" (VDict []) eq_refl
                  (or_introl eq_refl)
                  (or_introl (conj eq_refl eq_refl))) as H.
    hnf in H.
    destruct H as [(a & msg & Ha & _)|(cp & config & rest & Ht & Hcp & Hc)].
    + exfalso. vm_compute in Ha. discriminate Ha.
    + assert (Hnil : cp = []).
      { destruct cp as [|ev cp]; [reflexivity|exfalso].
        assert (Hev : nth_error
                        (trace (@process_json quiet (VStr "/a/r.jrxml")
                                  (VBool false) (VList [VStr "pdf"]) [] get
                                  (VBool false) EmptyString w0).2) 3
                      = Some ev) by (rewrite Ht; reflexivity).
        apply Forall_cons in Hcp as [[b ->] _].
        vm_compute in Hev. discriminate Hev. }
      subst cp. exists config, rest. split; [exact Ht|exact Hc].
Defined.
